(** * Shell assistant: conversation buffer and vector memory ledger

    A shallow embedding of [memory.py] (class [VectorMemory]) and of
    [assistant.py] (class [ShellAssistant]: the history and its trimming,
    the saved conversation, the command gate, the streamed reply, a turn
    of conversation, the loading of a code file), with the properties of
    the memory subsystem and of the assistant stated and proved over it.

    Conventions.
    - Python [int] is [Z]; list slices follow Python's rules for negative
      and out-of-range bounds ([Py.slice_from], [Py.slice_to]).
    - A Python value that can sit where the code expects a document is a
      [pyval]: the code never checks the type of what [json.loads] gives
      back before it hands it to the store; the store takes text only.
    - A method of [VectorMemory] is a computation [M A] over the object's
      state that either returns or raises, and says in both cases what the
      state is afterwards.
    - What the process reads from its environment (the credential, the
      embedding service, [uuid.uuid4()], [datetime.now()], [json.loads],
      [str.upper]) is a parameter of the function that reads it. *)

From Stdlib Require Import ZArith Ascii.
From Stdlib Require OrderedTypeEx.
From stdpp Require Import base option list strings gmap sorting.

Local Open Scope Z_scope.
#[local] Set Warnings "-register-all".

(* ===================================================================== *)
(** ** Python lists *)
(* ===================================================================== *)

Module Py.

(** [l[start:]] *)
Definition slice_from {A} (start : Z) (l : list A) : list A :=
  let n := Z.of_nat (length l) in
  let i := if start <? 0 then Z.max (n + start) 0 else Z.min start n in
  drop (Z.to_nat i) l.

(** [l[:stop]] *)
Definition slice_to {A} (stop : Z) (l : list A) : list A :=
  let n := Z.of_nat (length l) in
  let j := if stop <? 0 then Z.max (n + stop) 0 else Z.min stop n in
  take (Z.to_nat j) l.

(** [sorted(l, key=key, reverse=True)] for keys ordered by [leb].  The
    sort is stable, and [reverse=True] keeps it stable: records with equal
    keys stay in their original order.  A stable sort has one possible
    output, which this insertion sort computes. *)
Section Sorted.
Context {A K : Type} (leb : K -> K -> bool) (key : A -> K).

Fixpoint insert_desc (x : A) (l : list A) : list A :=
  match l with
  | [] => [x]
  | y :: l' =>
      if leb (key y) (key x) then x :: y :: l' else y :: insert_desc x l'
  end.

Definition sorted_reverse (l : list A) : list A :=
  foldr insert_desc [] l.

(** [x] may stand before [y] in a descending list *)
Definition desc (x y : A) : Prop := leb (key y) (key x) = true.

(** the ascending counterpart, [sorted(l, key=key)] *)
Fixpoint insert_asc (x : A) (l : list A) : list A :=
  match l with
  | [] => [x]
  | y :: l' =>
      if leb (key x) (key y) then x :: y :: l' else y :: insert_asc x l'
  end.

Definition sorted (l : list A) : list A :=
  foldr insert_asc [] l.
End Sorted.

(** [s.startswith(prefix)] *)
Definition startswith (s prefix : string) : bool := String.prefix prefix s.

(** truth value of an [Optional[str]] argument: [None] and [""] are false *)
Definition truthy (o : option string) : bool :=
  match o with
  | Some s => negb (String.eqb s "")
  | None => false
  end.

End Py.

(* ===================================================================== *)
(** ** assistant.py: the bounded conversation history *)
(* ===================================================================== *)

Module Assistant.

Record message := { role : string; content : string }.

(** the two fields of [ShellAssistant] that [_trim_history] touches *)
Record ShellAssistant := {
  history : list message;
  max_history : Z
}.

Definition set_history (h : list message) (self : ShellAssistant) :=
  {| history := h; max_history := max_history self |}.

(** [if len(self.history) > self.max_history * 2:
       self.history = self.history[-self.max_history * 2 :]] *)
Definition _trim_history (self : ShellAssistant) : ShellAssistant :=
  if Z.of_nat (length (history self)) >? max_history self * 2
  then set_history
         (Py.slice_from (- max_history self * 2) (history self)) self
  else self.

End Assistant.


(* ===================================================================== *)
(** ** Python values and [json.loads] *)
(* ===================================================================== *)

(** The values [json.loads] can return.  A chat document is a [PyStr]; a
    number keeps its lexeme, since no code here computes with it. *)
Inductive pyval :=
| PyNone
| PyBool (b : bool)
| PyNum (lexeme : string)
| PyStr (s : string)
| PyList (items : list pyval)
| PyDict (items : list (string * pyval)).

(** [isinstance(v, str)] *)
Definition is_str (v : pyval) : bool :=
  match v with PyStr _ => true | _ => false end.

(** A reference decoder for JSON text, used to run the model on concrete
    documents.  It follows the grammar [json.loads] accepts on ASCII input:
    the four white-space characters, objects, arrays, strings with the
    short escapes and BMP [\u] escapes (written out as UTF-8), numbers, the
    three literals and Python's [NaN], [Infinity], [-Infinity].  A surrogate
    [\u] escape is outside it.  [None] stands for [JSONDecodeError]. *)
Module Json.

Local Open Scope char_scope.
Local Open Scope N_scope.

Definition is_ws (c : ascii) : bool :=
  match c with
  | " " | "009" | "010" | "013" => true
  | _ => false
  end.

Fixpoint skip_ws (cs : list ascii) : list ascii :=
  match cs with
  | c :: r => if is_ws c then skip_ws r else cs
  | [] => []
  end.

Definition is_digit (c : ascii) : bool :=
  (48 <=? N_of_ascii c) && (N_of_ascii c <=? 57).

Fixpoint span_digits (cs : list ascii) : list ascii * list ascii :=
  match cs with
  | c :: r =>
      if is_digit c
      then let '(ds, r') := span_digits r in (c :: ds, r')
      else ([], cs)
  | [] => ([], [])
  end.

Definition hex_digit (c : ascii) : option N :=
  let n := N_of_ascii c in
  if (48 <=? n) && (n <=? 57) then Some (n - 48)
  else if (65 <=? n) && (n <=? 70) then Some (n - 55)
  else if (97 <=? n) && (n <=? 102) then Some (n - 87)
  else None.

Definition hex4 (a b c d : ascii) : option N :=
  match hex_digit a, hex_digit b, hex_digit c, hex_digit d with
  | Some x, Some y, Some z, Some w => Some (((x * 16 + y) * 16 + z) * 16 + w)
  | _, _, _, _ => None
  end.

(** UTF-8 bytes of a code point of the basic plane, surrogates excluded *)
Definition utf8 (n : N) : option (list ascii) :=
  if n <? 128 then Some [ascii_of_N n]
  else if n <? 2048 then
    Some [ascii_of_N (192 + n / 64); ascii_of_N (128 + n mod 64)]
  else if (55296 <=? n) && (n <=? 57343) then None
  else Some [ascii_of_N (224 + n / 4096);
             ascii_of_N (128 + (n / 64) mod 64);
             ascii_of_N (128 + n mod 64)].

(** the characters of a string literal after its opening quote; [acc] holds
    the decoded characters so far, last first *)
Fixpoint str_body (cs acc : list ascii) : option (string * list ascii) :=
  match cs with
  | [] => None
  | "034" :: r => Some (String.string_of_list_ascii (rev acc), r)
  | "\" :: e :: r =>
      match e with
      | "034" | "\" | "/" => str_body r (e :: acc)
      | "b" => str_body r ("008" :: acc)
      | "f" => str_body r ("012" :: acc)
      | "n" => str_body r ("010" :: acc)
      | "r" => str_body r ("013" :: acc)
      | "t" => str_body r ("009" :: acc)
      | "u" =>
          match r with
          | a :: b :: c :: d :: r' =>
              match hex4 a b c d with
              | Some n =>
                  match utf8 n with
                  | Some bs => str_body r' (rev bs ++ acc)
                  | None => None
                  end
              | None => None
              end
          | _ => None
          end
      | _ => None
      end
  | c :: r => if N_of_ascii c <? 32 then None else str_body r (c :: acc)
  end.

(** a number: an optional minus sign, an integer part without a leading
    zero, then a fraction and an exponent when they are complete; the
    longest match is taken *)
Definition scan_int (cs : list ascii) : option (list ascii * list ascii) :=
  match cs with
  | "0" :: r => Some (["0"], r)
  | c :: r =>
      if is_digit c
      then let '(ds, r') := span_digits r in Some (c :: ds, r')
      else None
  | [] => None
  end.

Definition scan_frac (cs : list ascii) : list ascii * list ascii :=
  match cs with
  | "." :: r =>
      match span_digits r with
      | ([], _) => ([], cs)
      | (ds, r') => ("." :: ds, r')
      end
  | _ => ([], cs)
  end.

Definition scan_exp (cs : list ascii) : list ascii * list ascii :=
  match cs with
  | e :: r =>
      if (N_of_ascii e =? 101) || (N_of_ascii e =? 69) then
        let '(sign, r1) :=
          match r with
          | "+" :: r1 => (["+"], r1)
          | "-" :: r1 => (["-"], r1)
          | _ => ([], r)
          end in
        match span_digits r1 with
        | ([], _) => ([], cs)
        | (ds, r2) => (e :: sign ++ ds, r2)
        end
      else ([], cs)
  | [] => ([], [])
  end.

Definition scan_number (cs : list ascii) : option (string * list ascii) :=
  let '(sign, r0) :=
    match cs with "-" :: r => (["-"], r) | _ => ([], cs) end in
  match scan_int r0 with
  | Some (i, r1) =>
      let '(f, r2) := scan_frac r1 in
      let '(e, r3) := scan_exp r2 in
      Some (String.string_of_list_ascii (sign ++ i ++ f ++ e), r3)
  | None => None
  end.

Fixpoint strip_prefix (p cs : list ascii) : option (list ascii) :=
  match p, cs with
  | [], _ => Some cs
  | a :: p', c :: cs' => if Ascii.eqb a c then strip_prefix p' cs' else None
  | _ :: _, [] => None
  end.

(** a Python [dict] keeps a key where it was first set and its last value *)
Fixpoint dict_set (k : string) (v : pyval) (d : list (string * pyval))
  : list (string * pyval) :=
  match d with
  | [] => [(k, v)]
  | (k', v') :: d' =>
      if String.eqb k k' then (k, v) :: d' else (k', v') :: dict_set k v d'
  end.

Definition literals : list (string * pyval) :=
  [("null", PyNone); ("true", PyBool true); ("false", PyBool false);
   ("NaN", PyNum "NaN"); ("Infinity", PyNum "Infinity");
   ("-Infinity", PyNum "-Infinity")]%string.

Fixpoint scan_literal (ls : list (string * pyval)) (cs : list ascii)
  : option (pyval * list ascii) :=
  match ls with
  | [] => None
  | (name, v) :: ls' =>
      match strip_prefix (String.list_ascii_of_string name) cs with
      | Some r => Some (v, r)
      | None => scan_literal ls' cs
      end
  end.

(** what the decoder is in the middle of: a value, the members of an object
    or the elements of an array, with what it has read of them *)
Inductive mode :=
| Value
| Members (acc : list (string * pyval))
| Elements (acc : list pyval).

Fixpoint parse (fuel : nat) (m : mode) (cs : list ascii)
  : option (pyval * list ascii) :=
  match fuel with
  | O => None
  | S fuel' =>
      match m with
      | Value =>
          match cs with
          | "{" :: r =>
              match skip_ws r with
              | "}" :: r' => Some (PyDict [], r')
              | r' => parse fuel' (Members []) r'
              end
          | "[" :: r =>
              match skip_ws r with
              | "]" :: r' => Some (PyList [], r')
              | r' => parse fuel' (Elements []) r'
              end
          | "034" :: r =>
              match str_body r [] with
              | Some (s, r') => Some (PyStr s, r')
              | None => None
              end
          | _ =>
              match scan_literal literals cs with
              | Some res => Some res
              | None =>
                  match scan_number cs with
                  | Some (lx, r) => Some (PyNum lx, r)
                  | None => None
                  end
              end
          end
      | Members acc =>
          match cs with
          | "034" :: r =>
              match str_body r [] with
              | Some (k, r1) =>
                  match skip_ws r1 with
                  | ":" :: r2 =>
                      match parse fuel' Value (skip_ws r2) with
                      | Some (v, r3) =>
                          match skip_ws r3 with
                          | "," :: r4 =>
                              parse fuel' (Members (dict_set k v acc))
                                (skip_ws r4)
                          | "}" :: r4 => Some (PyDict (dict_set k v acc), r4)
                          | _ => None
                          end
                      | None => None
                      end
                  | _ => None
                  end
              | None => None
              end
          | _ => None
          end
      | Elements acc =>
          match parse fuel' Value cs with
          | Some (v, r1) =>
              match skip_ws r1 with
              | "," :: r2 => parse fuel' (Elements (acc ++ [v])) (skip_ws r2)
              | "]" :: r2 => Some (PyList (acc ++ [v]), r2)
              | _ => None
              end
          | None => None
          end
      end
  end.

(** [json.loads(s)]: one value, white space around it, nothing after it *)
Definition loads (s : string) : option pyval :=
  let cs := String.list_ascii_of_string s in
  match parse (2 * length cs + 2)%nat Value (skip_ws cs) with
  | Some (v, r) =>
      match skip_ws r with
      | [] => Some v
      | _ :: _ => None
      end
  | None => None
  end.

End Json.


(* ===================================================================== *)
(** ** Exceptions and computations *)
(* ===================================================================== *)

Inductive exn :=
| Exception (msg : string)      (* [raise Exception(...)] in memory.py *)
| JSONDecodeError               (* [json.loads] on malformed text *)
| TypeError                     (* [json.loads] on a value that is no text *)
| StorageError (msg : string).  (* raised by the vector store *)

Inductive res (A : Type) :=
| Ret (a : A)
| Raise (e : exn).

Arguments Ret {A} a.
Arguments Raise {A} e.

(** a computation over a state [S]: its outcome and the state it leaves *)
Definition M (S A : Type) : Type := S -> res A * S.

Definition ret {S A} (a : A) : M S A := fun s => (Ret a, s).

Definition raise {S A} (e : exn) : M S A := fun s => (Raise e, s).

Definition bind {S A B} (m : M S A) (f : A -> M S B) : M S B :=
  fun s =>
    match m s with
    | (Ret a, s') => f a s'
    | (Raise e, s') => (Raise e, s')
    end.

(** [try: m  except: pass] *)
Definition try_pass {S A} (m : M S A) : M S unit :=
  fun s =>
    match m s with
    | (Ret _, s') => (Ret tt, s')
    | (Raise _, s') => (Ret tt, s')
    end.

Notation "'let*' x := m 'in' k" := (bind m (fun x => k))
  (at level 10, x name, m at level 200, k at level 200,
   format "'let*'  x  :=  m  'in'  '//' k").

(* ===================================================================== *)
(** ** The vector store *)
(* ===================================================================== *)

(** The store is ChromaDB's [PersistentClient], a library outside the
    repository.  Its operations are modelled from the contract the
    specification gives the vector store (insert, query, full scan, reset,
    durable state); [F] is the type of Python's floats. *)
Module Chroma.

Record record (F : Type) := {
  rec_id : string;
  rec_embedding : option (list F);   (* [Some v] on what [add] stores *)
  rec_document : pyval;
  rec_metadata : gmap string string
}.

Arguments rec_id {F} _.
Arguments rec_embedding {F} _.
Arguments rec_document {F} _.
Arguments rec_metadata {F} _.

Record Collection (F : Type) := {
  col_metadata : gmap string string;   (* the configuration, e.g. the metric *)
  col_records : list (record F)        (* in insertion order *)
}.

Arguments col_metadata {F} _.
Arguments col_records {F} _.

(** one answer of a similarity query *)
Record hit (F : Type) := {
  hit_document : pyval;
  hit_metadata : gmap string string;
  hit_distance : F
}.

Arguments hit_document {F} _.
Arguments hit_metadata {F} _.
Arguments hit_distance {F} _.

(** what is on disk under [persist_dir]: the collections by name *)
Abbreviation database F := (gmap string (Collection F)).

Section Store.
Context {F : Type}.

Definition empty_collection (metadata : gmap string string) : Collection F :=
  {| col_metadata := metadata; col_records := [] |}.

(** Modelled from the spec: the store reports a collection that is not
    there as an error (the constructor's [try] around the call relies on
    it); otherwise the collection and its records are gone. *)
Definition delete_collection (name : string) : M (database F) unit :=
  fun db =>
    match db !! name with
    | Some _ => (Ret tt, delete name db)
    | None => (Raise (StorageError "collection does not exist"), db)
    end.

(** Modelled from the spec: a new collection has no record and keeps the
    configuration given; the result is the handle, which is the name. *)
Definition create_collection (name : string) (metadata : gmap string string)
  : M (database F) string :=
  fun db =>
    match db !! name with
    | Some _ => (Raise (StorageError "collection already exists"), db)
    | None => (Ret name, <[name := empty_collection metadata]> db)
    end.

(** Modelled from the spec: open the named collection, with what it
    holds, or create it when absent. *)
Definition get_or_create_collection (name : string)
    (metadata : gmap string string) : M (database F) string :=
  fun db =>
    match db !! name with
    | Some _ => (Ret name, db)
    | None => (Ret name, <[name := empty_collection metadata]> db)
    end.

(** Modelled from the spec: full scan, in insertion order. *)
Definition get (handle : string) : M (database F) (list (record F)) :=
  fun db =>
    match db !! handle with
    | Some c => (Ret (col_records c), db)
    | None => (Raise (StorageError "collection does not exist"), db)
    end.

(** the dimensionality the collection is committed to, if any *)
Definition dimension (c : Collection F) : option nat :=
  head (omap (fun r => length <$> rec_embedding r) (col_records c)).

Definition dimension_ok (established : option nat) (vs : list (list F))
  : bool :=
  match established, vs with
  | Some n, _ => forallb (fun v => Nat.eqb (length v) n) vs
  | None, v :: vs' => forallb (fun w => Nat.eqb (length w) (length v)) vs'
  | None, [] => true
  end.

Fixpoint zip_records (embeddings : option (list (list F)))
    (documents : list pyval) (metadatas : list (gmap string string))
    (ids : list string) : option (list (record F)) :=
  match documents, metadatas, ids with
  | [], [], [] =>
      match embeddings with
      | Some (_ :: _) => None
      | _ => Some []
      end
  | d :: ds, m :: ms, i :: is_ =>
      match embeddings with
      | Some (e :: es) =>
          cons {| rec_id := i; rec_embedding := Some e;
                  rec_document := d; rec_metadata := m |}
            <$> zip_records (Some es) ds ms is_
      | Some [] => None
      | None =>
          cons {| rec_id := i; rec_embedding := None;
                  rec_document := d; rec_metadata := m |}
            <$> zip_records None ds ms is_
      end
  | _, _, _ => None
  end.

(** Modelled from the spec: insert appends records of a vector, a text
    and a metadata mapping.  It is refused, and stores nothing, when the
    argument lists disagree in length, when a document is not text, when
    no vector comes with the documents, and when a vector disagrees with
    the collection's established dimensionality. *)
Definition add (handle : string) (embeddings : option (list (list F)))
    (documents : list pyval) (metadatas : list (gmap string string))
    (ids : list string) : M (database F) unit :=
  fun db =>
    match db !! handle with
    | None => (Raise (StorageError "collection does not exist"), db)
    | Some c =>
        match zip_records embeddings documents metadatas ids with
        | None => (Raise (StorageError "unequal lengths"), db)
        | Some rs =>
            if negb (forallb is_str documents)
            then (Raise (StorageError "document is not text"), db)
            else
              match embeddings with
              | None => (Raise (StorageError "no vector"), db)
              | Some vectors =>
                  if dimension_ok (dimension c) vectors
                  then (Ret tt,
                        <[handle := {| col_metadata := col_metadata c;
                                       col_records := col_records c ++ rs
                                    |}]> db)
                  else (Raise (StorageError "dimensionality mismatch"), db)
              end
        end
    end.

(** Modelled from the spec: up to [n_results] records whose metadata has
    every key of the filter with the same value (the empty filter keeps
    all), by ascending distance to the query vector.  [leb] is [<=] on
    floats; [distance] is the metric, from the query vector to the vector
    the store holds for a record. *)
Definition query (leb : F -> F -> bool)
    (distance : list F -> record F -> F) (handle : string)
    (query_embedding : list F) (n_results : Z)
    (where_ : gmap string string) : M (database F) (list (hit F)) :=
  fun db =>
    match db !! handle with
    | None => (Raise (StorageError "collection does not exist"), db)
    | Some c =>
        let matching :=
          filter (fun r => where_ ⊆ rec_metadata r) (col_records c) in
        let hits :=
          (fun r => {| hit_document := rec_document r;
                       hit_metadata := rec_metadata r;
                       hit_distance := distance query_embedding r |})
            <$> matching in
        (Ret (take (Z.to_nat n_results) (Py.sorted leb hit_distance hits)),
         db)
    end.

End Store.

End Chroma.


(* ===================================================================== *)
(** ** memory.py: the ledger *)
(* ===================================================================== *)

Module Memory.
Import Chroma.

(** What a run of the process finds around it. *)
Record Env (F : Type) := {
  float_one : F;                         (* [1] *)
  float_sub : F -> F -> F;               (* [x - y] on floats *)
  float_leb : F -> F -> bool;            (* [x <= y] on floats *)
  cosine_distance : list F -> record F -> F;
  getenv_api_key : option string;        (* [os.getenv("DASHSCOPE_API_KEY")] *)
  (** [client.embeddings.create(...).data[0].embedding] for a key and a
      text: the vector, or [str(e)] of the exception [e] it raised *)
  embeddings_create : string -> string -> string + list F;
  json_loads : string -> option pyval;   (* [None]: [JSONDecodeError] *)
  str_upper : string -> string           (* [str.upper] *)
}.

Arguments float_one {F} _.
Arguments float_sub {F} _ _ _.
Arguments float_leb {F} _ _ _.
Arguments cosine_distance {F} _ _ _.
Arguments getenv_api_key {F} _.
Arguments embeddings_create {F} _ _ _.
Arguments json_loads {F} _ _.
Arguments str_upper {F} _ _.

(** [self]: the client, which is the durable database it is opened on,
    and the handle of the collection in use *)
Record VectorMemory (F : Type) := {
  client : database F;
  collection : string
}.

Arguments client {F} _.
Arguments collection {F} _.

(** an element of the result of [search_relevant_memories] *)
Record scored_memory (F : Type) := {
  content : pyval;
  metadata : gmap string string;
  distance : F;
  relevance_score : F
}.

Arguments content {F} _.
Arguments metadata {F} _.
Arguments distance {F} _.
Arguments relevance_score {F} _.

(** an element of the result of [get_recent_memories] *)
Record recent_memory := {
  recent_content : pyval;
  recent_metadata : gmap string string;
  timestamp : string
}.

Record stats := {
  total_memories : nat;
  memories_by_role : gmap string nat;
  memories_by_type : gmap string nat
}.

(** [{"hnsw:space": "cosine"}] *)
Definition cosine : gmap string string := {[ "hnsw:space" := "cosine" ]}.

Definition newline : string := String "010" EmptyString.

Section Ledger.
Context {F : Type} (env : Env F).

(** [self.client.f(...)]: a client call acts on the database of [self] *)
Definition on_client {A} (m : M (database F) A) : M (VectorMemory F) A :=
  fun self =>
    let '(r, db) := m (client self) in
    (r, {| client := db; collection := collection self |}).

(** [self.collection] and [self.collection.name] (the handle is the name) *)
Definition self_collection : M (VectorMemory F) string :=
  fun self => (Ret (collection self), self).

(** [self.collection = handle] *)
Definition set_collection (handle : string) : M (VectorMemory F) unit :=
  fun self => (Ret tt, {| client := client self; collection := handle |}).

(** [json.loads(doc)] on whatever the store returned as the document *)
Definition loads (doc : pyval) : res pyval :=
  match doc with
  | PyStr s =>
      match json_loads env s with
      | Some v => Ret v
      | None => Raise JSONDecodeError
      end
  | _ => Raise TypeError
  end.

(** the [for i, doc in enumerate(docs["documents"])] loop of the
    migration: the three lists it builds, kept together per record *)
Fixpoint decode_documents (docs : list (record F))
  : res (list (pyval * gmap string string * string)) :=
  match docs with
  | [] => Ret []
  | r :: docs' =>
      match loads (rec_document r) with
      | Ret content_ =>
          match decode_documents docs' with
          | Ret rest => Ret ((content_, rec_metadata r, rec_id r) :: rest)
          | Raise e => Raise e
          end
      | Raise e => Raise e
      end
  end.

Definition lift_res {S A} (r : res A) : M S A := fun s => (r, s).

(** [isinstance(first_doc, str) and first_doc.startswith("{")] *)
Definition is_legacy (first_doc : pyval) : bool :=
  match first_doc with
  | PyStr s => Py.startswith s "{"
  | _ => false
  end.

Definition _migrate_if_needed : M (VectorMemory F) unit :=
  let* handle := self_collection in
  let* docs := on_client (get handle) in
  match docs with
  | [] => ret tt
  | first :: _ =>
      if is_legacy (rec_document first) then
        let* new := lift_res (decode_documents docs) in
        let new_docs := (fun x => x.1.1) <$> new in
        let new_metadatas := (fun x => x.1.2) <$> new in
        let new_ids := (fun x => x.2) <$> new in
        let* _ := on_client (delete_collection handle) in
        let* handle' := on_client (create_collection handle cosine) in
        let* _ := set_collection handle' in
        on_client (add handle' None new_docs new_metadatas new_ids)
      else ret tt
  end.

(** [VectorMemory(collection_name, persist_dir)], run on the database
    found under [persist_dir] *)
Definition __init__ (collection_name : string) (db : database F)
  : res unit * VectorMemory F :=
  let '(_, db) := try_pass (delete_collection collection_name) db in
  let '(_, db) := get_or_create_collection collection_name cosine db in
  _migrate_if_needed {| client := db; collection := collection_name |}.

Definition _get_embedding (text : string) : M (VectorMemory F) (list F) :=
  match getenv_api_key env with
  | Some api_key =>
      if String.eqb api_key ""
      then raise (Exception "DASHSCOPE_API_KEY 未设置，请检查环境变量")
      else
        match embeddings_create env api_key text with
        | inr embedding => ret embedding
        | inl e => raise (Exception ("OpenRouter embedding failed: " +:+ e))
        end
  | None => raise (Exception "DASHSCOPE_API_KEY 未设置，请检查环境变量")
  end.

(** [memory_id] is what [uuid.uuid4()] gives and [now] what
    [datetime.now().isoformat()] gives during the call.  In the [dict]
    display the later entry wins, so [metadata] is on the left of [∪]. *)
Definition store_memory (memory_id now : string) (role content_ : string)
    (metadata_ : option (gmap string string)) : M (VectorMemory F) string :=
  let meta :=
    default ∅ metadata_
      ∪ {[ "role" := role; "timestamp" := now; "type" := "text" ]} in
  let* embedding := _get_embedding content_ in
  let* handle := self_collection in
  let* _ := on_client
              (add handle (Some [embedding]) [PyStr content_] [meta]
                 [memory_id]) in
  ret memory_id.

Definition store_code_memory (memory_id now : string)
    (role content_ file_path language : string)
    (metadata_ : option (gmap string string)) : M (VectorMemory F) string :=
  let code_marker :=
    newline +:+ newline +:+ "# [" +:+ str_upper env language
      +:+ "] CODE MEMORY: " +:+ file_path +:+ newline in
  let full_content := content_ +:+ code_marker in
  let meta :=
    default ∅ metadata_
      ∪ {[ "role" := role; "timestamp" := now; "type" := "code";
           "file_path" := file_path; "language" := language ]} in
  let* embedding := _get_embedding full_content in
  let* handle := self_collection in
  let* _ := on_client
              (add handle (Some [embedding]) [PyStr full_content] [meta]
                 [memory_id]) in
  ret memory_id.

(** [if filter: where_clause[key] = filter] *)
Definition set_if (key : string) (filter_ : option string)
    (where_clause : gmap string string) : gmap string string :=
  if Py.truthy filter_
  then <[key := default "" filter_]> where_clause
  else where_clause.

Definition search_relevant_memories (query_ : string) (top_k : Z)
    (filter_role filter_type : option string)
  : M (VectorMemory F) (list (scored_memory F)) :=
  let* query_embedding := _get_embedding query_ in
  let where_clause := set_if "type" filter_type (set_if "role" filter_role ∅) in
  let* handle := self_collection in
  let* results :=
    on_client
      (query (float_leb env) (cosine_distance env) handle query_embedding
         top_k where_clause) in
  ret ((fun h =>
          {| content := hit_document h;
             metadata := hit_metadata h;
             distance := hit_distance h;
             relevance_score := float_sub env (float_one env) (hit_distance h)
          |}) <$> results).

(** the two [continue] tests of the loop in [get_recent_memories] *)
Definition filtered_out (filter_role filter_type : option string)
    (meta : gmap string string) : bool :=
  (Py.truthy filter_role && negb (bool_decide (meta !! "role" = filter_role)))
  || (Py.truthy filter_type
      && negb (bool_decide (meta !! "type" = filter_type))).

Definition recent_entry (r : record F) : recent_memory :=
  {| recent_content := rec_document r;
     recent_metadata := rec_metadata r;
     timestamp := default "" (rec_metadata r !! "timestamp") |}.

(** strings compare as Python's do: [String.leb] orders by bytes, which on
    UTF-8 text is the order of the code points *)
Definition get_recent_memories (limit : Z)
    (filter_role filter_type : option string)
  : M (VectorMemory F) (list recent_memory) :=
  let* handle := self_collection in
  let* all_docs := on_client (get handle) in
  let filtered :=
    recent_entry
      <$> List.filter
            (fun r =>
               negb (filtered_out filter_role filter_type (rec_metadata r)))
            all_docs in
  let sorted_memories := Py.sorted_reverse String.leb timestamp filtered in
  ret (Py.slice_to limit sorted_memories).

Definition clear_memory : M (VectorMemory F) unit :=
  let* name := self_collection in
  let* _ := on_client (delete_collection name) in
  let* handle := on_client (create_collection name cosine) in
  set_collection handle.

(** [d[k] = d.get(k, 0) + 1] *)
Definition count_up (k : string) (d : gmap string nat) : gmap string nat :=
  <[k := (default 0 (d !! k) + 1)%nat]> d.

Definition get_memory_stats : M (VectorMemory F) stats :=
  let* handle := self_collection in
  let* docs := on_client (get handle) in
  ret {| total_memories := length docs;
         memories_by_role :=
           foldl (fun d r =>
                    count_up (default "unknown" (rec_metadata r !! "role")) d)
             ∅ docs;
         memories_by_type :=
           foldl (fun d r =>
                    count_up (default "unknown" (rec_metadata r !! "type")) d)
             ∅ docs |}.

End Ledger.

End Memory.


(* ===================================================================== *)
(** ** A concrete environment, to run the ledger *)
(* ===================================================================== *)

Module Sample.
Import Chroma Memory.

(** Floats are integers here; the embedding of a text is its length and a
    constant, the distance is the gap between first coordinates, and
    [str.upper] acts on the ASCII letters. *)
Definition embed (key text : string) : string + list Z :=
  inr [Z.of_nat (String.length text); 1].

Definition gap (q : list Z) (r : record Z) : Z :=
  match q, rec_embedding r with
  | x :: _, Some (y :: _) => Z.abs (x - y)
  | _, _ => 0
  end.

Definition upper_char (c : ascii) : ascii :=
  let n := N_of_ascii c in
  if ((97 <=? n) && (n <=? 122))%N then ascii_of_N (n - 32) else c.

Fixpoint upper (s : string) : string :=
  match s with
  | EmptyString => EmptyString
  | String c s' => String (upper_char c) (upper s')
  end.

Definition env : Env Z :=
  {| float_one := 1;
     float_sub := Z.sub;
     float_leb := Z.leb;
     cosine_distance := gap;
     getenv_api_key := Some "sk-test";
     embeddings_create := embed;
     json_loads := Json.loads;
     str_upper := upper |}.

(** the same process without the credential *)
Definition env_no_key : Env Z :=
  {| float_one := 1;
     float_sub := Z.sub;
     float_leb := Z.leb;
     cosine_distance := gap;
     getenv_api_key := None;
     embeddings_create := embed;
     json_loads := Json.loads;
     str_upper := upper |}.

Definition name : string := "shell_assistant".

Definition text_record (id doc : string) (meta : gmap string string)
  : record Z :=
  {| rec_id := id; rec_embedding := Some [Z.of_nat (String.length doc); 1];
     rec_document := PyStr doc; rec_metadata := meta |}.

Definition stamped (role t : string) : gmap string string :=
  {[ "role" := role; "timestamp" := t; "type" := "text" ]}.

(** a ledger whose collection holds the given records *)
Definition ledger (rs : list (record Z)) : VectorMemory Z :=
  {| client := {[ name := {| col_metadata := cosine; col_records := rs |} ]};
     collection := name |}.

Definition quote : string := String "034" EmptyString.

(** the legacy document of the specification's example: an object with
    the key [k] and the value [v], both double-quoted *)
Definition kv_document : string :=
  "{" +:+ quote +:+ "k" +:+ quote +:+ ":" +:+ quote +:+ "v" +:+ quote +:+ "}".

(** a collection written in the legacy encoding *)
Definition legacy_kv : list (record Z) :=
  [text_record "id1" kv_document (stamped "user" "2024-01-01T10:00:00")].

(** a legacy collection with a record that does not decode *)
Definition legacy_broken : list (record Z) :=
  [text_record "id1" kv_document (stamped "user" "2024-01-01T10:00:00");
   text_record "id2" "{bad" (stamped "assistant" "2024-01-01T10:00:05")].

(** a current collection with a brace-led record that does not decode *)
Definition mixed_broken : list (record Z) :=
  [text_record "id1" "hello" (stamped "user" "2024-01-01T10:00:00");
   text_record "id2" "{bad" (stamped "assistant" "2024-01-01T10:00:05")].

(** three text memories, oldest first *)
Definition three_memories : list (record Z) :=
  [text_record "m1" "first" (stamped "user" "2024-01-01T10:00:00");
   text_record "m2" "second" (stamped "assistant" "2024-01-01T10:00:05");
   text_record "m3" "third" (stamped "user" "2024-01-02T09:00:00")].

Definition one_message : list Assistant.message :=
  [{| Assistant.role := "user"; Assistant.content := "hi" |}].

End Sample.


(* ===================================================================== *)
(** ** More sample data *)
(* ===================================================================== *)

Module Fixtures.
Import Chroma Memory.

(** a database with the assistant's collection and somebody else's *)
Definition shared_database : database Z :=
  {[ Sample.name := {| col_metadata := cosine;
                       col_records := Sample.three_memories |};
     "notes" := {| col_metadata := {[ "hnsw:space" := "l2" ]};
                   col_records :=
                     [Sample.text_record "n1" "buy milk" ∅] |} ]}.

Definition shared_ledger : VectorMemory Z :=
  {| client := shared_database; collection := Sample.name |}.

(** two memories stored within the same clock tick, and a later one *)
Definition tied_memories : list (record Z) :=
  [Sample.text_record "a" "first of the tick"
     (Sample.stamped "user" "2024-01-01T10:00:00");
   Sample.text_record "b" "second of the tick"
     (Sample.stamped "assistant" "2024-01-01T10:00:00");
   Sample.text_record "c" "later"
     (Sample.stamped "user" "2024-01-01T10:00:09")].

(** a record that carries no role *)
Definition anonymous_memories : list (record Z) :=
  Sample.three_memories
    ++ [Sample.text_record "x" "no role" {[ "type" := "text" ]}].

End Fixtures.

(* ===================================================================== *)
(** ** assistant.py: shell commands *)
(* ===================================================================== *)

(** [_is_safe_command] and [execute_command].  A command is a sequence of
    characters of any alphabet [C]; [isspace] says which characters
    [str.strip] and [str.split] take for white space, and [char] gives the
    character of an ASCII character of a literal of the source.  What the
    operating system answers is the [OS] record; what the method asks of
    it is returned as a list of effects beside the text it returns. *)
Module Shell.

Section Commands.
Context {C : Type} `{EqDecision C}.
Variable isspace : C -> bool.
Variable char : ascii -> C.

(** a string literal of the source *)
Definition lit (s : string) : list C :=
  char <$> String.list_ascii_of_string s.

(** [s.lstrip()], [s.rstrip()], [s.strip()] *)
Fixpoint lstrip (s : list C) : list C :=
  match s with
  | c :: r => if isspace c then lstrip r else s
  | [] => []
  end.

Fixpoint rstrip (s : list C) : list C :=
  match s with
  | [] => []
  | c :: r =>
      match rstrip r with
      | [] => if isspace c then [] else [c]
      | r' => c :: r'
      end
  end.

Definition strip (s : list C) : list C := rstrip (lstrip s).

(** [s.split()]: the maximal runs of characters that are not white space;
    [word] is the run being read, last character first *)
Fixpoint split_from (word s : list C) : list (list C) :=
  match s with
  | [] =>
      match word with
      | [] => []
      | _ :: _ => [reverse word]
      end
  | c :: r =>
      if isspace c then
        match word with
        | [] => split_from [] r
        | _ :: _ => reverse word :: split_from [] r
        end
      else split_from (c :: word) r
  end.

Definition split (s : list C) : list (list C) := split_from [] s.

(** [s.startswith(prefix)] *)
Definition startswith (s prefix : list C) : bool :=
  bool_decide (take (length prefix) s = prefix).

(** [self.safe_commands] *)
Definition safe_commands : list string :=
  ["ls"; "pwd"; "echo"; "cat"; "grep"; "find"; "head"; "tail"; "wc";
   "sort"; "uniq"; "diff"; "mkdir"; "rmdir"; "cp"; "mv"; "rm"; "touch";
   "chmod"; "chown"; "date"; "cal"; "bc"; "man"; "which"; "whoami"; "id";
   "ps"; "top"; "df"; "du"; "free"; "ping"; "curl"; "wget"; "git"; "tar";
   "zip"; "unzip"; "gzip"].

(** [cmd = command.strip().split()[0] if command.strip() else ""] and
    [cmd in self.safe_commands]; the split of a stripped text that is not
    empty has a first word *)
Definition _is_safe_command (command : list C) : bool :=
  let cmd :=
    match strip command with
    | [] => []
    | _ :: _ => default [] (head (split (strip command)))
    end in
  bool_decide (cmd ∈ lit <$> safe_commands).

(** what the operating system answers *)
Record OS := {
  (** [os.chdir(path)] then [os.getcwd()]: the new directory, or [str(e)]
      of the exception *)
  os_chdir : list C -> list C + list C;
  (** [subprocess.Popen(command, shell=True, ...).communicate()]: the
      output and error streams, or [str(e)] of the exception *)
  popen : list C -> list C + (list C * list C)
}.

(** what was asked of the operating system *)
Inductive effect :=
| Chdir (path : list C)
| Popen (command : list C).

(** [str(e)] of the [IndexError] that [command.split()[0]] raises on an
    empty list *)
Definition index_error : string := "list index out of range".

Definition execute_command (os : OS) (command : list C)
  : list C * list effect :=
  match command with
  | [] => ([], [])
  | _ :: _ =>
      if negb (_is_safe_command command) then
        match split command with
        | w :: _ =>
            (lit "Error: Command '" ++ w
               ++ lit "' is not in the allowed list. For security reasons, I can only execute basic shell commands.",
             [])
        | [] => (lit "Error executing command: " ++ lit index_error, [])
        end
      else if startswith command (lit "cd ") then
        let path := strip (drop 3 command) in
        match os_chdir os path with
        | inr cwd => (lit "Changed directory to " ++ cwd, [Chdir path])
        | inl e => (lit "Error changing directory: " ++ e, [Chdir path])
        end
      else
        match popen os command with
        | inr (stdout, stderr) =>
            match stderr with
            | _ :: _ => (lit "Error: " ++ strip stderr, [Popen command])
            | [] => (strip stdout, [Popen command])
            end
        | inl e => (lit "Error executing command: " ++ e, [Popen command])
        end
  end.

End Commands.

(** white space among the ASCII characters, as [str.isspace] has it *)
Definition ascii_space (a : ascii) : bool :=
  let n := N_of_ascii a in
  ((9 <=? n) && (n <=? 13) || (28 <=? n) && (n <=? 32))%N.

(** the commands of a terminal that sends ASCII *)
Definition sample_os : OS (C := ascii) :=
  {| os_chdir := fun path => inr path;
     popen := fun command =>
       inr (String.list_ascii_of_string "out", []) |}.

End Shell.

(* ===================================================================== *)
(** ** assistant.py: the saved conversation *)
(* ===================================================================== *)

Module Persist.
Import Assistant.

(** what is under [self.context_file]: nothing, something that cannot be
    opened or parsed ([IOError], [JSONDecodeError]), or the list of
    messages a [json.dump] left there *)
Inductive context_file :=
| NoFile
| Unreadable
| Holds (saved : list message).

(** [_load_context]: the list read is cut by the slice, without a test of
    its length; a failure to read empties the history *)
Definition _load_context (file : context_file) (self : ShellAssistant)
  : ShellAssistant :=
  match file with
  | NoFile => self
  | Unreadable => set_history [] self
  | Holds saved =>
      set_history (Py.slice_from (- max_history self * 2) saved) self
  end.

(** [_save_context]: [writable] says whether the file can be opened for
    writing; an [IOError] is reported and nothing is written *)
Definition _save_context (writable : bool) (self : ShellAssistant)
    (file : context_file) : context_file :=
  if writable then Holds (history self) else file.

End Persist.

(* ===================================================================== *)
(** ** assistant.py: the streamed reply *)
(* ===================================================================== *)

(** [_stream_response].  The server's answer is the list of lines that
    [response.iter_lines()] delivers, with the [str(e)] of a
    [RequestException] after them when the request or the connection
    fails.  The generator is what it yields, in order, and how it ends. *)
Module Stream.

(** exceptions that neither handler of [_stream_response] catches *)
Inductive escaped :=
| EscTypeError
| EscAttributeError
| EscKeyError
| EscUnicodeDecodeError.

Record Wire := {
  decode_utf8 : string -> option string;  (* [None]: [UnicodeDecodeError] *)
  wire_loads : string -> option pyval;    (* [json.loads] *)
  number_truth : string -> bool           (* [bool(x)] of a JSON number *)
}.

(** [d.get(key)] *)
Fixpoint dict_get (key : string) (d : list (string * pyval))
  : option pyval :=
  match d with
  | [] => None
  | (k, v) :: d' => if String.eqb key k then Some v else dict_get key d'
  end.

(** [needle in hay] for two strings *)
Fixpoint contains (needle hay : string) : bool :=
  String.prefix needle hay
  || match hay with
     | String _ hay' => contains needle hay'
     | EmptyString => false
     end.

(** [s[n:]] for a text that begins with [n] ASCII characters *)
Fixpoint string_drop (n : nat) (s : string) : string :=
  match n, s with
  | S n', String _ s' => string_drop n' s'
  | _, _ => s
  end.

(** what one line does to the generator *)
Inductive step :=
| Skip
| Yield (content_ : string)
| Stop
| Crash (e : escaped).

Section Generator.
Variable wire : Wire.

(** [bool(v)] *)
Definition truth (v : pyval) : bool :=
  match v with
  | PyNone => false
  | PyBool b => b
  | PyNum lexeme => number_truth wire lexeme
  | PyStr s => negb (String.eqb s "")
  | PyList items => negb (bool_decide (items = []))
  | PyDict items => negb (bool_decide (items = []))
  end.

(** the body of the inner [try], after [event = json.loads(data)]:
    [if "choices" in event and len(event["choices"]) > 0:
       delta = event["choices"][0].get("delta", {})
       content = delta.get("content", "")
       if content: full_response += content; yield content] *)
Definition on_event (event : pyval) : step :=
  match event with
  | PyDict d =>
      match dict_get "choices" d with
      | None => Skip
      | Some (PyList []) => Skip
      | Some (PyList (PyDict first :: _)) =>
          match default (PyDict []) (dict_get "delta" first) with
          | PyDict delta =>
              let content_ :=
                default (PyStr "") (dict_get "content" delta) in
              if truth content_ then
                match content_ with
                | PyStr s => Yield s
                | _ => Crash EscTypeError     (* [str += ...] *)
                end
              else Skip
          | _ => Crash EscAttributeError      (* [delta.get] *)
          end
      | Some (PyList (_ :: _)) => Crash EscAttributeError
      | Some (PyStr s) =>
          if String.eqb s "" then Skip else Crash EscAttributeError
      | Some (PyDict []) => Skip
      | Some (PyDict (_ :: _)) => Crash EscKeyError   (* [choices[0]] *)
      | Some _ => Crash EscTypeError                  (* [len(...)] *)
      end
  | PyList items =>
      if existsb (fun v => match v with
                           | PyStr s => String.eqb s "choices"
                           | _ => false
                           end) items
      then Crash EscTypeError                 (* [event["choices"]] *)
      else Skip
  | PyStr s => if contains "choices" s then Crash EscTypeError else Skip
  | _ => Crash EscTypeError                   (* ["choices" in event] *)
  end.

(** one turn of [for chunk in response.iter_lines()] *)
Definition on_line (chunk : string) : step :=
  if String.eqb chunk "" then Skip
  else
    match decode_utf8 wire chunk with
    | None => Crash EscUnicodeDecodeError
    | Some chunk_str =>
        if Py.startswith chunk_str "data: " then
          let data := string_drop 6 chunk_str in
          if String.eqb data "[DONE]" then Stop
          else
            match wire_loads wire data with
            | Some event => on_event event
            | None => Skip        (* [except json.JSONDecodeError: pass] *)
            end
        else Skip
    end.

Inductive ending :=
| Finished
| Escaped (e : escaped).

(** the lines still to come and the failure after them *)
Fixpoint consume (lines : list string) (failure : option string)
  : list string * ending :=
  match lines with
  | [] =>
      match failure with
      | Some e =>
          ([Memory.newline +:+ "Error communicating with API: " +:+ e],
           Finished)
      | None => ([], Finished)
      end
  | chunk :: rest =>
      match on_line chunk with
      | Skip => consume rest failure
      | Yield s =>
          let '(yielded, e) := consume rest failure in (s :: yielded, e)
      | Stop => ([], Finished)
      | Crash e => ([], Escaped e)
      end
  end.

Definition _stream_response (response : list string * option string)
  : list string * ending :=
  consume response.1 response.2.

End Generator.

End Stream.

(* ===================================================================== *)
(** ** assistant.py: a turn of conversation *)
(* ===================================================================== *)

(** [chat], [clear_all_memories], [_detect_language] and
    [_load_code_file], over the history, the vector memory and the
    saved conversation together. *)
Module Chat.
Import Assistant Chroma Memory Persist Stream.

(** how a method ends when it does not return *)
Inductive error :=
| Ledger (e : exn)          (* raised inside the vector memory *)
| Streaming (e : escaped)   (* raised inside [_stream_response] *)
| KeyError (key : string)   (* [mem['metadata']['role']] without a role *)
| NotSliceable.             (* [mem['content'][:150]] on a value that has
                               no slices *)

(** what the process finds around it *)
Record World (F : Type) := {
  ledger_env : Env F;
  wire : Wire;
  (** the answer of the completion service to a list of messages *)
  post : list message -> list string * option string;
  str_len : string -> Z;                (* [len(s)] *)
  str_head : nat -> string -> string;   (* [s[:n]] *)
  str_lower : string -> string;         (* [s.lower()] *)
  py_format : pyval -> string;          (* [f"{v}"] of a list *)
  writable : bool;                      (* can the context file be written *)
  (** [os.path.exists] and [f.read()]: [None] when there is no such file,
      [Some None] when reading it fails *)
  read_file : string -> option (option string);
  basename : string -> string           (* [os.path.basename] *)
}.

Arguments ledger_env {F} _.
Arguments wire {F} _.
Arguments post {F} _ _.
Arguments str_len {F} _ _.
Arguments str_head {F} _ _ _.
Arguments str_lower {F} _ _.
Arguments py_format {F} _ _.
Arguments writable {F} _.
Arguments read_file {F} _ _.
Arguments basename {F} _ _.

(** [self], with the file its context is saved in; [vector_memory] is
    only there when [enable_vector_memory] is set, and is never looked at
    otherwise *)
Record Session (F : Type) := {
  core : ShellAssistant;
  enable_vector_memory : bool;
  vector_memory : VectorMemory F;
  context_file : Persist.context_file
}.

Arguments core {F} _.
Arguments enable_vector_memory {F} _.
Arguments vector_memory {F} _.
Arguments context_file {F} _.

(** the ledger [vm] after the records [rs] were added to the collection in
    use, which held [c] *)
Definition grown {F} (vm : VectorMemory F) (c : Collection F)
    (rs : list (record F)) : VectorMemory F :=
  {| client := <[collection vm :=
                   {| col_metadata := col_metadata c;
                      col_records := col_records c ++ rs |}]> (client vm);
     collection := collection vm |}.

Section Turn.
Context {F : Type} (world : World F).

Definition set_core (a : ShellAssistant) (self : Session F) : Session F :=
  {| core := a; enable_vector_memory := enable_vector_memory self;
     vector_memory := vector_memory self;
     context_file := context_file self |}.

Definition set_vector_memory (vm : VectorMemory F) (self : Session F)
  : Session F :=
  {| core := core self; enable_vector_memory := enable_vector_memory self;
     vector_memory := vm; context_file := context_file self |}.

Definition set_context_file (file : Persist.context_file)
    (self : Session F) : Session F :=
  {| core := core self; enable_vector_memory := enable_vector_memory self;
     vector_memory := vector_memory self; context_file := file |}.

(** [self.history.append({"role": role, "content": content})] *)
Definition append_message (role_ content_ : string) (self : Session F)
  : Session F :=
  set_core
    (set_history
       (history (core self)
          ++ [{| Assistant.role := role_; Assistant.content := content_ |}])
       (core self)) self.

(** [self._trim_history()] and [self._save_context()] *)
Definition trim_and_save (self : Session F) : Session F :=
  let self := set_core (_trim_history (core self)) self in
  set_context_file
    (_save_context (writable world) (core self) (context_file self)) self.

(** [f"- {mem['metadata']['role']}: {mem['content'][:150]}..."] *)
Definition render_memory (mem : scored_memory F) : error + string :=
  match metadata mem !! "role" with
  | None => inl (KeyError "role")
  | Some role_ =>
      match content mem with
      | PyStr s =>
          inr ("- " +:+ role_ +:+ ": " +:+ str_head world 150 s +:+ "...")
      | PyList items =>
          inr ("- " +:+ role_ +:+ ": "
                 +:+ py_format world (PyList (take 150 items)) +:+ "...")
      | _ => inl NotSliceable
      end
  end.

(** the list comprehension: the first failure ends it *)
Fixpoint render_memories (mems : list (scored_memory F))
  : error + list string :=
  match mems with
  | [] => inr []
  | mem :: mems' =>
      match render_memory mem with
      | inl e => inl e
      | inr line =>
          match render_memories mems' with
          | inl e => inl e
          | inr lines => inr (line :: lines)
          end
      end
  end.

Definition context_header : string := "相关历史对话:".

Definition question_header : string := "当前问题: ".

(** [context] of [chat]: empty when nothing was retrieved *)
Definition render_context (relevant_memories : list (scored_memory F))
  : error + string :=
  match relevant_memories with
  | [] => inr ""
  | _ :: _ =>
      match render_memories relevant_memories with
      | inl e => inl e
      | inr lines =>
          inr (context_header +:+ newline +:+ String.concat newline lines
                 +:+ newline +:+ newline)
      end
  end.

(** [chat(prompt)].  [first] and [second] are the id and the time of the
    two [store_memory] calls. *)
Definition chat (first second : string * string) (prompt : string)
    (self : Session F) : (error + string) * Session F :=
  let '(searched, vm) :=
    if enable_vector_memory self && (str_len world prompt >? 10)
    then search_relevant_memories (ledger_env world) prompt 3 None None
           (vector_memory self)
    else (Ret [], vector_memory self) in
  let self := set_vector_memory vm self in
  match searched with
  | Raise e => (inl (Ledger e), self)
  | Ret relevant_memories =>
      match render_context relevant_memories with
      | inl e => (inl e, self)
      | inr context =>
          let enhanced_prompt := context +:+ question_header +:+ prompt in
          let self := append_message "user" enhanced_prompt self in
          let '(chunks, ended) :=
            _stream_response (wire world)
              (post world (history (core self))) in
          match ended with
          | Escaped e => (inl (Streaming e), self)
          | Finished =>
              let full_response := String.concat "" chunks in
              let '(stored, self) :=
                if enable_vector_memory self then
                  match store_memory (ledger_env world) first.1 first.2
                          "user" prompt (Some {[ "type" := "query" ]})
                          (vector_memory self) with
                  | (Raise e, vm) => (Raise e, set_vector_memory vm self)
                  | (Ret _, vm) =>
                      match store_memory (ledger_env world) second.1
                              second.2 "assistant" full_response
                              (Some {[ "type" := "response" ]}) vm with
                      | (r, vm) => (r, set_vector_memory vm self)
                      end
                  end
                else (Ret "", self) in
              match stored with
              | Raise e => (inl (Ledger e), self)
              | Ret _ =>
                  let self :=
                    if String.eqb full_response "" then self
                    else trim_and_save
                           (append_message "assistant" full_response self) in
                  (inr full_response, self)
              end
          end
      end
  end.

(** [clear_all_memories]: without vector memory it only warns *)
Definition clear_all_memories (self : Session F)
  : (error + unit) * Session F :=
  if enable_vector_memory self then
    match clear_memory (vector_memory self) with
    | (Raise e, vm) => (inl (Ledger e), set_vector_memory vm self)
    | (Ret _, vm) =>
        (inr tt,
         set_core (set_history [] (core self)) (set_vector_memory vm self))
    end
  else (inr tt, self).

(** [ext_map] of [_detect_language] *)
Definition ext_map : list (string * string) :=
  [(".py", "Python"); (".js", "JavaScript"); (".ts", "TypeScript");
   (".java", "Java"); (".cpp", "C++"); (".c", "C"); (".go", "Go");
   (".rs", "Rust"); (".rb", "Ruby"); (".php", "PHP"); (".html", "HTML");
   (".css", "CSS"); (".sql", "SQL"); (".md", "Markdown"); (".sh", "Shell");
   (".json", "JSON"); (".xml", "XML"); (".yaml", "YAML"); (".yml", "YAML");
   (".txt", "Text"); (".csv", "CSV"); (".ini", "INI"); (".cfg", "Config");
   (".toml", "TOML")].

(** [s.rfind(c)]: the index of the last [c], or [-1] *)
Definition rfind (c : ascii) (s : list ascii) : Z :=
  match list_find (fun x => x = c) (reverse s) with
  | Some (i, _) => Z.of_nat (length s) - 1 - Z.of_nat i
  | None => -1
  end.

(** [os.path.splitext] of POSIX: the extension begins at the last dot of
    the last component, if a character that is no dot stands before it in
    that component *)
Definition splitext (p : string) : string * string :=
  let s := String.list_ascii_of_string p in
  let sepIndex := rfind "/"%char s in
  let dotIndex := rfind "."%char s in
  if dotIndex >? sepIndex then
    let stem :=
      take (Z.to_nat (dotIndex - (sepIndex + 1)))
        (drop (Z.to_nat (sepIndex + 1)) s) in
    if existsb (fun x => negb (Ascii.eqb x ".")) stem
    then (String.string_of_list_ascii (take (Z.to_nat dotIndex) s),
          String.string_of_list_ascii (drop (Z.to_nat dotIndex) s))
    else (p, ""%string)
  else (p, ""%string).

Fixpoint assoc (key : string) (l : list (string * string)) : option string :=
  match l with
  | [] => None
  | (k, v) :: l' => if String.eqb key k then Some v else assoc key l'
  end.

Definition _detect_language (filename : string) : string :=
  let ext := (splitext filename).2 in
  default "Unknown" (assoc (str_lower world ext) ext_map).

Definition backticks : string := "```".

(** [_load_code_file(file_path)].  Whatever goes wrong after the test for
    the file is caught and printed. *)
Definition _load_code_file (memory_id now : string) (file_path : string)
    (self : Session F) : Session F :=
  match read_file world file_path with
  | None => self
  | Some None => self
  | Some (Some code_content) =>
      let language := _detect_language file_path in
      let message :=
        "The following is a " +:+ language
          +:+ " source code file named `" +:+ basename world file_path
          +:+ "`:" +:+ newline +:+ backticks +:+ newline +:+ code_content
          +:+ newline +:+ backticks in
      let self := append_message "user" message self in
      let '(stored, self) :=
        if enable_vector_memory self then
          match store_code_memory (ledger_env world) memory_id now "user"
                  message file_path language
                  (Some {[ "type" := "code_load" ]})
                  (vector_memory self) with
          | (r, vm) => (r, set_vector_memory vm self)
          end
        else (Ret "", self) in
      match stored with
      | Raise _ => self
      | Ret _ => trim_and_save self
      end
  end.

End Turn.

End Chat.

(* ===================================================================== *)
(** ** Sample conversations *)
(* ===================================================================== *)

(** A completion service that answers in ASCII, and sessions to talk to
    it. *)
Module Talk.
Import Assistant Chroma Memory Persist Stream Chat.

(** is the number written with zeros only: [0], [-0.0], [0e5] *)
Fixpoint zero_lexeme (lexeme : string) : bool :=
  match lexeme with
  | EmptyString => true
  | String c rest =>
      if (Ascii.eqb c "e" || Ascii.eqb c "E")%bool then true
      else (Ascii.eqb c "0" || Ascii.eqb c "-" || Ascii.eqb c ".")
           && zero_lexeme rest
  end.

(** ASCII bytes decode to themselves; JSON is read by the reference
    decoder *)
Definition ascii_wire : Wire :=
  {| decode_utf8 := Some;
     wire_loads := Json.loads;
     number_truth := fun lexeme => negb (zero_lexeme lexeme) |}.

Definition quoted (s : string) : string :=
  Sample.quote +:+ s +:+ Sample.quote.

(** the event of one piece of the answer *)
Definition content_event (text : string) : string :=
  "{" +:+ quoted "choices" +:+ ":[{" +:+ quoted "delta" +:+ ":{"
    +:+ quoted "content" +:+ ":" +:+ quoted text +:+ "}}]}".

Definition content_line (text : string) : string :=
  "data: " +:+ content_event text.

Definition done_line : string := "data: [DONE]".

Definition keep_alive : string := ": OPENROUTER PROCESSING".

(** an answer in two pieces, with the noise a server puts between them *)
Definition answer_lines : list string :=
  [content_line "Hel"; ""; keep_alive; content_line "lo"; done_line].

Definition lower_char (c : ascii) : ascii :=
  let n := N_of_ascii c in
  if ((65 <=? n) && (n <=? 90))%N then ascii_of_N (n + 32) else c.

Fixpoint lower (s : string) : string :=
  match s with
  | EmptyString => EmptyString
  | String c s' => String (lower_char c) (lower s')
  end.

(** [os.path.basename]: what follows the last slash *)
Definition last_component (p : string) : string :=
  let s := String.list_ascii_of_string p in
  String.string_of_list_ascii (drop (Z.to_nat (rfind "/" s + 1)) s).

(** the one file of the samples *)
Definition hello_path : string := "/home/u/Hello.PY".

Definition hello_code : string := "print(1)".

(** a world of ASCII text: lengths and prefixes count bytes; the
    completion service always gives [lines] and then fails with
    [failure]; none of the samples formats a list *)
Definition world (env : Env Z) (lines : list string)
    (failure : option string) : World Z :=
  {| ledger_env := env;
     wire := ascii_wire;
     post := fun _ => (lines, failure);
     str_len := fun s => Z.of_nat (String.length s);
     str_head := fun n s => String.substring 0 n s;
     str_lower := lower;
     py_format := fun _ => "[]"%string;
     writable := true;
     read_file := fun p => if String.eqb p hello_path
                           then Some (Some hello_code) else None;
     basename := last_component |}.

(** an assistant with vector memory on the three sample memories, a
    history of one message, and nothing saved yet *)
Definition session (enabled : bool) : Session Z :=
  {| core := {| history := Sample.one_message; max_history := 10 |};
     enable_vector_memory := enabled;
     vector_memory := Sample.ledger Sample.three_memories;
     context_file := NoFile |}.

End Talk.



(* ===================================================================== *)
(** ** Facts about slices and the stable sort *)
(* ===================================================================== *)

Module PyFacts.

Lemma slice_from_zero {A} (l : list A) : Py.slice_from 0 l = l.
Proof.
  unfold Py.slice_from. simpl.
  replace (Z.min 0 (Z.of_nat (length l))) with 0 by lia. done.
Qed.

Lemma slice_from_last {A} (k : Z) (l : list A) :
  0 < k <= Z.of_nat (length l) ->
  Py.slice_from (- k) l = drop (length l - Z.to_nat k) l.
Proof.
  intros Hk. unfold Py.slice_from.
  destruct (- k <? 0) eqn:E; [|lia].
  f_equal. lia.
Qed.

Lemma slice_from_drops {A} (k : Z) (l : list A) :
  0 <= k -> Py.slice_from k l = drop (Z.to_nat k) l.
Proof.
  intros Hk. unfold Py.slice_from.
  destruct (k <? 0) eqn:E; [lia|].
  destruct (Z.min_spec k (Z.of_nat (length l))) as [[? ->]|[? ->]]; [done|].
  rewrite !drop_ge; [done|lia..].
Qed.

Lemma slice_to_take {A} (k : Z) (l : list A) :
  0 <= k -> Py.slice_to k l = take (Z.to_nat k) l.
Proof.
  intros Hk. unfold Py.slice_to.
  destruct (k <? 0) eqn:E; [lia|].
  destruct (Z.min_spec k (Z.of_nat (length l))) as [[? ->]|[? ->]]; [done|].
  rewrite !take_ge; [done|lia..].
Qed.

Section SortedFacts.
Context {A K : Type} (leb : K -> K -> bool) (key : A -> K).
Hypothesis leb_total : forall a b, leb a b = false -> leb b a = true.
Hypothesis leb_trans :
  forall a b c, leb a b = true -> leb b c = true -> leb a c = true.

Lemma insert_desc_perm (x : A) (l : list A) :
  Py.insert_desc leb key x l ≡ₚ x :: l.
Proof.
  induction l as [|y l IH]; simpl; [done|].
  destruct (leb (key y) (key x)); [done|].
  rewrite IH. apply Permutation_swap.
Qed.

Lemma sorted_reverse_perm (l : list A) : Py.sorted_reverse leb key l ≡ₚ l.
Proof.
  induction l as [|x l IH]; simpl; [done|].
  unfold Py.sorted_reverse in IH. by rewrite insert_desc_perm, IH.
Qed.

Lemma insert_desc_sorted (x : A) (l : list A) :
  StronglySorted (Py.desc leb key) l -> StronglySorted (Py.desc leb key) (Py.insert_desc leb key x l).
Proof.
  induction 1 as [|y l Hl IH Hy]; simpl.
  - repeat constructor.
  - destruct (leb (key y) (key x)) eqn:E.
    + constructor; [by constructor|].
      constructor; [done|].
      eapply Forall_impl; [exact Hy|].
      unfold Py.desc. intros z Hz. eauto.
    + constructor; [done|].
      rewrite insert_desc_perm. constructor; [|done].
      unfold Py.desc. auto.
Qed.

Lemma sorted_reverse_sorted (l : list A) :
  StronglySorted (Py.desc leb key) (Py.sorted_reverse leb key l).
Proof.
  induction l as [|x l IH]; simpl; [constructor|].
  by apply insert_desc_sorted.
Qed.

End SortedFacts.

Lemma string_leb_total (a b : string) :
  String.leb a b = false -> String.leb b a = true.
Proof.
  intros H. destruct (String.leb_total a b) as [E|E]; congruence.
Qed.

Lemma string_leb_trans (a b c : string) :
  String.leb a b = true -> String.leb b c = true -> String.leb a c = true.
Proof.
  unfold String.leb. intros Hab Hbc.
  destruct (String.compare a b) eqn:Eab; [| |done].
  - apply String.compare_eq_iff in Eab. by subst.
  - destruct (String.compare b c) eqn:Ebc; [| |done].
    + apply String.compare_eq_iff in Ebc. subst. by rewrite Eab.
    + apply OrderedTypeEx.String_as_OT.cmp_lt in Eab, Ebc.
      pose proof (OrderedTypeEx.String_as_OT.lt_trans _ _ _ Eab Ebc) as Hac.
      apply OrderedTypeEx.String_as_OT.cmp_lt in Hac.
      unfold OrderedTypeEx.String_as_OT.cmp in Hac. by rewrite Hac.
Qed.

Lemma string_ltb_not_leb (a b : string) :
  String.ltb a b = true -> String.leb b a = false.
Proof.
  unfold String.ltb, String.leb. rewrite (String.compare_antisym a b).
  by destruct (String.compare b a).
Qed.

End PyFacts.

(* ===================================================================== *)
(** ** The conversation buffer *)
(* ===================================================================== *)

Module AssistantFacts.
Import Assistant.

(** With a positive bound the history is cut to its last
    [2 * max_history] entries, and only when it is longer than that. *)
Lemma trim_history_positive (self : ShellAssistant) :
  1 <= max_history self ->
  max_history (_trim_history self) = max_history self
  /\ exists dropped,
       history self = dropped ++ history (_trim_history self)
       /\ Z.of_nat (length (history (_trim_history self)))
            <= 2 * max_history self
       /\ (dropped <> [] ->
           Z.of_nat (length (history (_trim_history self)))
             = 2 * max_history self).
Proof.
  intros Hpos. destruct self as [h mh]; simpl in *.
  unfold _trim_history; simpl.
  destruct (Z.of_nat (length h) >? mh * 2) eqn:E; simpl.
  - split; [done|].
    replace (- mh * 2) with (- (mh * 2)) by lia.
    rewrite PyFacts.slice_from_last by lia.
    exists (take (length h - Z.to_nat (mh * 2)) h).
    rewrite take_drop, length_drop. split; [done|]. lia.
  - split; [done|]. exists []. simpl. split; [done|]. split; [lia|done].
Qed.

Lemma trim_history_idempotent (self : ShellAssistant) :
  1 <= max_history self ->
  _trim_history (_trim_history self) = _trim_history self.
Proof.
  intros Hpos.
  destruct (trim_history_positive self Hpos) as (Hmh & d & _ & Hlen & _).
  unfold _trim_history at 1. rewrite Hmh.
  destruct (_ >? _) eqn:E; [lia|done].
Qed.

(** With [max_history = 0] the slice is [history[-0:]], the whole list. *)
Lemma trim_history_zero (h : list message) :
  history (_trim_history {| history := h; max_history := 0 |}) = h.
Proof.
  unfold _trim_history; cbn [history max_history].
  destruct (Z.of_nat (length h) >? 0 * 2); cbn [history set_history]; [|done].
  apply PyFacts.slice_from_zero.
Qed.

(** With a negative bound every call drops the oldest
    [-2 * max_history] entries. *)
Lemma trim_history_negative (h : list message) (mh : Z) :
  mh < 0 ->
  history (_trim_history {| history := h; max_history := mh |})
  = drop (Z.to_nat (- mh * 2)) h.
Proof.
  intros Hneg. unfold _trim_history; cbn [history max_history].
  destruct (Z.gtb_spec (Z.of_nat (length h)) (mh * 2)) as [E|E];
    [|exfalso; lia].
  cbn [history set_history]. apply PyFacts.slice_from_drops. lia.
Qed.

(** C7. For every history and every [max_history] the claim bounds the
    trimmed length by [2 * max_history]; the method's own docstring
    promises the same.  Run with [max_history = 0] on a history of one
    message, [_trim_history] takes the slice [history[-0:]] and keeps the
    message: the trimmed history has one entry, above the bound of zero. *)
Theorem trim_history_zero_rounds_exceeds_bound :
  let self := {| history := Sample.one_message; max_history := 0 |} in
  history (_trim_history self) = Sample.one_message
  /\ Z.of_nat (length (history (_trim_history self))) > 2 * max_history self.
Proof. split; [reflexivity|]. simpl. lia. Qed.

End AssistantFacts.


(* ===================================================================== *)
(** ** The decoder on brace-led text *)
(* ===================================================================== *)

Module JsonFacts.

(** the members of an object can only make an object *)
Lemma parse_members_dict fuel acc cs v r :
  Json.parse fuel (Json.Members acc) cs = Some (v, r) ->
  exists d, v = PyDict d.
Proof.
  revert acc cs. induction fuel as [|fuel IH]; intros acc cs H; [done|].
  cbn [Json.parse] in H.
  destruct cs as [|c r0]; [done|].
  destruct c as [[] [] [] [] [] [] [] []]; try discriminate H.
  destruct (Json.str_body r0 []) as [[k r1]|]; [|done].
  destruct (Json.skip_ws r1) as [|c1 r2]; [done|].
  destruct c1 as [[] [] [] [] [] [] [] []]; try discriminate H.
  destruct (Json.parse fuel Json.Value (Json.skip_ws r2)) as [[v' r3]|];
    [|done].
  destruct (Json.skip_ws r3) as [|c2 r4]; [done|].
  destruct c2 as [[] [] [] [] [] [] [] []]; try discriminate H.
  - injection H as <- <-. by eexists.
  - by eapply IH.
Qed.

(** Text that starts with a brace decodes, when it decodes, to a [dict]:
    never to a string. *)
Lemma loads_brace_dict (s : string) v :
  Py.startswith s "{" = true ->
  Json.loads s = Some v ->
  exists d, v = PyDict d.
Proof.
  unfold Py.startswith, Json.loads.
  destruct s as [|c s]; [done|]. cbn [String.prefix].
  destruct (ascii_dec "{" c) as [<-|]; [|done]. intros _.
  cbn [String.list_ascii_of_string Json.skip_ws Json.is_ws].
  set (fuel := (2 * _ + 2)%nat).
  destruct fuel as [|fuel]; [done|]. cbn [Json.parse].
  intros H.
  destruct (Json.skip_ws (String.list_ascii_of_string s)) as [|c r] eqn:E.
  - destruct (Json.parse fuel (Json.Members []) []) as [[v' r']|] eqn:P;
      [|done].
    apply parse_members_dict in P as [d ->].
    destruct (Json.skip_ws r'); [|done]. injection H as <-. by eexists.
  - assert (exists v' r',
              (v' = PyDict []
               \/ Json.parse fuel (Json.Members []) (c :: r) = Some (v', r'))
              /\ match Json.skip_ws r' with
                 | [] => Some v'
                 | _ :: _ => None
                 end = Some v) as (v' & r' & Hv & Hr).
    { destruct c as [[] [] [] [] [] [] [] []];
        try (destruct (Json.parse fuel (Json.Members []) _)
               as [[v' r']|] eqn:P; [|done];
             exists v', r'; split; [by right|done]).
      exists (PyDict []), r. split; [by left|done]. }
    destruct (Json.skip_ws r'); [|done]. injection Hr as <-.
    destruct Hv as [->|P]; [by eexists|]. by eapply parse_members_dict.
Qed.

End JsonFacts.

(* ===================================================================== *)
(** ** The ledger *)
(* ===================================================================== *)

Module MemoryFacts.
Import Chroma Memory.

Ltac run :=
  unfold bind, ret, raise, lift_res, on_client, self_collection,
    set_collection, try_pass, get, delete_collection, create_collection,
    get_or_create_collection in *;
  cbn [fst snd client collection] in *.

Section LedgerFacts.
Context {F : Type} (env : Env F).

Implicit Types (self : VectorMemory F) (c : Collection F).

(** [_get_embedding] reads the environment and leaves the ledger alone *)
Lemma get_embedding_state (text : string) self :
  (_get_embedding env text self).2 = self.
Proof.
  unfold _get_embedding.
  destruct (getenv_api_key env) as [k|]; [|done].
  destruct (String.eqb k ""); [done|].
  by destruct (embeddings_create env k text).
Qed.

Lemma get_embedding_same (text : string) self self' :
  (_get_embedding env text self).1 = (_get_embedding env text self').1.
Proof.
  unfold _get_embedding.
  destruct (getenv_api_key env) as [k|]; [|done].
  destruct (String.eqb k ""); [done|].
  by destruct (embeddings_create env k text).
Qed.

(** *** One step at a time *)

Lemma bind_ret {S A B} (m : M S A) (f : A -> M S B) s a s' :
  m s = (Ret a, s') -> bind m f s = f a s'.
Proof. unfold bind. by intros ->. Qed.

Lemma bind_raise {S A B} (m : M S A) (f : A -> M S B) s e s' :
  m s = (Raise e, s') -> bind m f s = (Raise e, s').
Proof. unfold bind. by intros ->. Qed.

Lemma bind_inv {S A B} (m : M S A) (f : A -> M S B) s r s2 :
  bind m f s = (r, s2) ->
  (exists a s1, m s = (Ret a, s1) /\ f a s1 = (r, s2))
  \/ (exists e, m s = (Raise e, s2) /\ r = Raise e).
Proof.
  unfold bind. destruct (m s) as [[a|e] s1]; intros H.
  - left. eauto.
  - right. injection H as <- <-. eauto.
Qed.

Lemma self_collection_run self :
  self_collection self = (Ret (collection self), self).
Proof. done. Qed.

Lemma get_run self c :
  client self !! collection self = Some c ->
  on_client (get (collection self)) self = (Ret (col_records c), self).
Proof. intros Hc. destruct self as [db h]. run. by rewrite Hc. Qed.

Lemma get_missing self :
  client self !! collection self = None ->
  exists e, on_client (get (collection self)) self = (Raise e, self).
Proof. intros Hc. destruct self as [db h]. run. rewrite Hc. by eexists. Qed.

Lemma delete_run self c :
  client self !! collection self = Some c ->
  on_client (delete_collection (collection self)) self
  = (Ret tt, {| client := delete (collection self) (client self);
                collection := collection self |}).
Proof. intros Hc. destruct self as [db h]. run. by rewrite Hc. Qed.

Lemma delete_missing self :
  client self !! collection self = None ->
  exists e,
    on_client (delete_collection (collection self)) self = (Raise e, self).
Proof. intros Hc. destruct self as [db h]. run. rewrite Hc. by eexists. Qed.

Lemma create_run self metadata_ :
  client self !! collection self = None ->
  on_client (create_collection (collection self) metadata_) self
  = (Ret (collection self),
     {| client := <[collection self := empty_collection metadata_]>
                    (client self);
        collection := collection self |}).
Proof. intros Hc. destruct self as [db h]. run. by rewrite Hc. Qed.

Lemma add_run self c vectors documents metadatas ids rs :
  client self !! collection self = Some c ->
  zip_records (Some vectors) documents metadatas ids = Some rs ->
  forallb is_str documents = true ->
  dimension_ok (dimension c) vectors = true ->
  on_client (add (collection self) (Some vectors) documents metadatas ids)
    self
  = (Ret tt,
     {| client := <[collection self :=
                      {| col_metadata := col_metadata c;
                         col_records := col_records c ++ rs |}]>
                    (client self);
        collection := collection self |}).
Proof.
  intros Hc Hz Hs Hd. destruct self as [db h]. unfold on_client, add.
  cbn [client collection] in *. by rewrite Hc, Hz, Hs, Hd.
Qed.

(** a document that is not text is refused, whatever comes with it *)
Lemma add_not_text self c embeddings documents metadatas ids rs :
  client self !! collection self = Some c ->
  zip_records embeddings documents metadatas ids = Some rs ->
  forallb is_str documents = false ->
  on_client (add (collection self) embeddings documents metadatas ids) self
  = (Raise (StorageError "document is not text"), self).
Proof.
  intros Hc Hz Hs. destruct self as [db h]. unfold on_client, add.
  cbn [client collection] in *. by rewrite Hc, Hz, Hs.
Qed.

(** and so is an insert without vectors *)
Lemma add_no_vector self documents metadatas ids :
  exists msg,
    on_client (add (collection self) None documents metadatas ids) self
    = (Raise (StorageError msg), self).
Proof.
  destruct self as [db h]. unfold on_client, add. cbn [client collection].
  destruct (db !! h) as [c|]; [|by eexists].
  destruct (zip_records _ _ _ _); [|by eexists].
  destruct (negb _); by eexists.
Qed.

Lemma add_inv self embeddings documents metadatas ids r self' :
  on_client (add (collection self) embeddings documents metadatas ids) self
  = (r, self') ->
  (exists e, r = Raise e /\ self' = self)
  \/ (exists c rs,
        r = Ret tt
        /\ client self !! collection self = Some c
        /\ zip_records embeddings documents metadatas ids = Some rs
        /\ self' = {| client := <[collection self :=
                                    {| col_metadata := col_metadata c;
                                       col_records := col_records c ++ rs |}]>
                                  (client self);
                      collection := collection self |}).
Proof.
  destruct self as [db h]. unfold on_client, add. cbn [client collection].
  destruct (db !! h) as [c|] eqn:Hc; [|intros [= <- <-]; eauto].
  destruct (zip_records _ _ _ _) as [rs|] eqn:Hz; [|intros [= <- <-]; eauto].
  destruct (negb _); [intros [= <- <-]; eauto|].
  destruct embeddings as [vectors|]; [|intros [= <- <-]; eauto].
  destruct (dimension_ok _ _); intros [= <- <-]; [|eauto].
  right. by eexists _, _.
Qed.

(** *** Start-up *)

Lemma migrate_empty self c :
  client self !! collection self = Some c ->
  col_records c = [] ->
  _migrate_if_needed env self = (Ret tt, self).
Proof.
  intros Hc Hrs. destruct self as [db h]. unfold _migrate_if_needed. run.
  by rewrite Hc, Hrs.
Qed.

Lemma init_spec (collection_name : string) (db : database F) :
  __init__ env collection_name db
  = (Ret tt,
     {| client := <[collection_name := empty_collection cosine]> db;
        collection := collection_name |}).
Proof.
  unfold __init__, try_pass, delete_collection, get_or_create_collection.
  assert (Hm : forall db' : database F,
    _migrate_if_needed env
      {| client := <[collection_name := empty_collection cosine]> db';
         collection := collection_name |}
    = (Ret tt,
       {| client := <[collection_name := empty_collection cosine]> db';
          collection := collection_name |})).
  { intros db'. eapply migrate_empty; [apply lookup_insert_eq|done]. }
  destruct (db !! collection_name) eqn:E; cbv beta iota zeta.
  - rewrite lookup_delete_eq. cbv beta iota zeta.
    rewrite Hm. by rewrite insert_delete_eq.
  - rewrite E. apply Hm.
Qed.

(** *** Migration *)

Lemma decode_documents_ret (docs : list (record F)) new :
  decode_documents env docs = Ret new ->
  Forall2 (fun r x => loads env (rec_document r) = Ret x.1.1
                      /\ x.1.2 = rec_metadata r /\ x.2 = rec_id r)
    docs new.
Proof.
  revert new. induction docs as [|r docs IH]; intros new; simpl.
  - intros [= <-]. constructor.
  - destruct (loads env (rec_document r)) as [v|] eqn:Ev; [|done].
    destruct (decode_documents env docs) as [rest|] eqn:Er; [|done].
    intros [= <-]. constructor; [done|]. by apply IH.
Qed.

Lemma decode_documents_total (docs : list (record F)) :
  Forall (fun r => exists v, loads env (rec_document r) = Ret v) docs ->
  exists new, decode_documents env docs = Ret new.
Proof.
  induction 1 as [|r docs [v Hv] _ [rest IH]]; simpl; [by eexists|].
  rewrite Hv, IH. by eexists.
Qed.

Lemma decode_documents_raise (docs : list (record F)) r e0 :
  r ∈ docs ->
  loads env (rec_document r) = Raise e0 ->
  exists e, decode_documents env docs = Raise e.
Proof.
  intros Hin Hr. induction docs as [|r' docs IH]; [by inversion Hin|].
  simpl. destruct (loads env (rec_document r')) as [v|e1] eqn:Ev;
    [|by eexists].
  apply elem_of_cons in Hin as [->|Hin]; [congruence|].
  destruct (IH Hin) as [e ->]. by eexists.
Qed.

Lemma zip_records_none (new : list (pyval * gmap string string * string)) :
  zip_records (F := F) None
    ((fun x => x.1.1) <$> new) ((fun x => x.1.2) <$> new)
    ((fun x => x.2) <$> new)
  = Some ((fun x => {| rec_id := x.2; rec_embedding := None;
                       rec_document := x.1.1; rec_metadata := x.1.2 |})
            <$> new).
Proof.
  induction new as [|x new IH]; [done|].
  cbn [fmap list_fmap zip_records] in *. by rewrite IH.
Qed.

Lemma migrate_not_legacy self c first rest :
  client self !! collection self = Some c ->
  col_records c = first :: rest ->
  is_legacy (rec_document first) = false ->
  _migrate_if_needed env self = (Ret tt, self).
Proof.
  intros Hc Hrs Hl. destruct self as [db h]. unfold _migrate_if_needed. run.
  by rewrite Hc, Hrs, Hl.
Qed.

Lemma migrate_decode_error self c first rest e :
  client self !! collection self = Some c ->
  col_records c = first :: rest ->
  is_legacy (rec_document first) = true ->
  decode_documents env (col_records c) = Raise e ->
  _migrate_if_needed env self = (Raise e, self).
Proof.
  intros Hc Hrs Hl Hd. destruct self as [db h]. unfold _migrate_if_needed.
  run. rewrite Hc, Hrs, Hl. rewrite Hrs in Hd. by rewrite Hd.
Qed.

(** A legacy collection whose documents all decode is deleted, created
    anew, and then refused by the store: the decoded documents come
    without vectors, and a decoded document that is not text is refused
    for that.  The collection is left empty. *)
Lemma migrate_legacy_refused self c first rest new :
  client self !! collection self = Some c ->
  col_records c = first :: rest ->
  is_legacy (rec_document first) = true ->
  decode_documents env (col_records c) = Ret new ->
  exists msg,
    _migrate_if_needed env self
    = (Raise (StorageError msg),
       {| client := <[collection self := empty_collection cosine]>
                      (client self);
          collection := collection self |})
    /\ (forallb is_str ((fun x => x.1.1) <$> new) = false ->
        msg = "document is not text"%string).
Proof.
  intros Hc Hrs Hl Hd. unfold _migrate_if_needed.
  rewrite (bind_ret _ _ _ _ _ (self_collection_run self)).
  rewrite (bind_ret _ _ _ _ _ (get_run self c Hc)).
  rewrite Hrs, Hl. rewrite Hrs in Hd.
  rewrite (bind_ret _ _ self new self) by (unfold lift_res; by rewrite Hd).
  rewrite (bind_ret _ _ _ _ _ (delete_run self c Hc)).
  set (self1 := {| client := delete (collection self) (client self);
                   collection := collection self |}).
  assert (H1 : client self1 !! collection self1 = None)
    by apply lookup_delete_eq.
  rewrite (bind_ret _ _ _ _ _ (create_run self1 cosine H1)).
  unfold set_collection at 1. unfold bind at 1.
  cbn [client collection self1].
  rewrite insert_delete_eq.
  set (self2 := {| client := _; collection := _ |}).
  assert (H2 : client self2 !! collection self2
               = Some (empty_collection cosine))
    by apply lookup_insert_eq.
  change (collection self) with (collection self2) at 1.
  destruct (forallb is_str ((fun x => x.1.1) <$> new)) eqn:Hs.
  - destruct (add_no_vector self2 ((fun x => x.1.1) <$> new)
                ((fun x => x.1.2) <$> new) ((fun x => x.2) <$> new))
      as [msg Hadd].
    exists msg. by rewrite Hadd.
  - exists "document is not text"%string.
    by rewrite (add_not_text self2 _ _ _ _ _ _ H2 (zip_records_none new) Hs).
Qed.

(** what the first document of a legacy collection decodes to is no text,
    whenever the decoder makes no text of a text that starts with a
    brace *)
Lemma decoded_legacy_not_text first rest new :
  (forall s v, Py.startswith s "{" = true -> json_loads env s = Some v ->
               is_str v = false) ->
  is_legacy (rec_document first) = true ->
  decode_documents env (first :: rest) = Ret new ->
  forallb is_str ((fun x => x.1.1) <$> new) = false.
Proof.
  intros Hjson Hl Hd. apply decode_documents_ret in Hd.
  inversion Hd as [|r0 x docs new' (Hx & _ & _) _]; subst.
  destruct (rec_document first) as [| | |s| |] eqn:Hdoc; try discriminate Hl.
  cbn [is_legacy loads] in Hl, Hx.
  destruct (json_loads env s) as [v|] eqn:Hv; [|done]. injection Hx as Hx.
  cbn [fmap list_fmap forallb]. rewrite <- Hx.
  by rewrite (Hjson s v Hl Hv).
Qed.

(** *** Recording *)

Lemma get_embedding_run (text : string) self :
  _get_embedding env text self = ((_get_embedding env text self).1, self).
Proof.
  rewrite <- (get_embedding_state text self) at 3.
  by destruct (_get_embedding env text self).
Qed.

(** the tail shared by [store_memory] and [store_code_memory]: embed the
    text, append one record, return its id *)
Lemma store_inv (text memory_id : string) (meta : gmap string string)
    self r self' :
  (let* embedding := _get_embedding env text in
   let* handle := self_collection in
   let* _ := on_client
               (add handle (Some [embedding]) [PyStr text] [meta]
                  [memory_id]) in
   ret memory_id) self = (r, self') ->
  (exists e, r = Raise e /\ self' = self)
  \/ (exists c v,
        r = Ret memory_id
        /\ client self !! collection self = Some c
        /\ (_get_embedding env text self).1 = Ret v
        /\ self' = {| client :=
                       <[collection self :=
                           {| col_metadata := col_metadata c;
                              col_records :=
                                col_records c
                                  ++ [{| rec_id := memory_id;
                                         rec_embedding := Some v;
                                         rec_document := PyStr text;
                                         rec_metadata := meta |}] |}]>
                         (client self);
                     collection := collection self |}).
Proof.
  intros H.
  apply bind_inv in H as [(v & s1 & Hv & H)|(e & He & ->)].
  - rewrite get_embedding_run in Hv. injection Hv as Hv <-.
    rewrite (bind_ret _ _ _ _ _ (self_collection_run self)) in H.
    apply bind_inv in H as [(u & s2 & Hadd & H)|(e & Hadd & ->)].
    + apply add_inv in Hadd as [(e & ? & _)|(c & rs & _ & Hc & Hz & ->)];
        [done|].
      injection H as <- <-. injection Hz as <-. right. by eexists _, _.
    + apply add_inv in Hadd as [(e' & _ & ->)|(c & rs & ? & _)]; [|done].
      left. eauto.
  - rewrite get_embedding_run in He. injection He as He <-. left. eauto.
Qed.

Lemma store_run (text memory_id : string) (meta : gmap string string)
    self c v :
  client self !! collection self = Some c ->
  (_get_embedding env text self).1 = Ret v ->
  dimension_ok (dimension c) [v] = true ->
  (let* embedding := _get_embedding env text in
   let* handle := self_collection in
   let* _ := on_client
               (add handle (Some [embedding]) [PyStr text] [meta]
                  [memory_id]) in
   ret memory_id) self
  = (Ret memory_id,
     {| client :=
          <[collection self :=
              {| col_metadata := col_metadata c;
                 col_records :=
                   col_records c
                     ++ [{| rec_id := memory_id; rec_embedding := Some v;
                            rec_document := PyStr text;
                            rec_metadata := meta |}] |}]>
            (client self);
        collection := collection self |}).
Proof.
  intros Hc Hv Hd.
  rewrite (bind_ret _ _ self v self) by (by rewrite get_embedding_run, Hv).
  rewrite (bind_ret _ _ _ _ _ (self_collection_run self)).
  by rewrite (bind_ret _ _ _ _ _
                (add_run self c [v] [PyStr text] [meta] [memory_id]
                   _ Hc eq_refl eq_refl Hd)).
Qed.

Lemma store_embedding_failure (text memory_id : string)
    (meta : gmap string string) self e :
  (_get_embedding env text self).1 = Raise e ->
  (let* embedding := _get_embedding env text in
   let* handle := self_collection in
   let* _ := on_client
               (add handle (Some [embedding]) [PyStr text] [meta]
                  [memory_id]) in
   ret memory_id) self = (Raise e, self).
Proof.
  intros He. apply bind_raise. by rewrite get_embedding_run, He.
Qed.

(** what [_get_embedding] answers when no vector can be had *)
Lemma get_embedding_failure (text : string) self :
  getenv_api_key env = None
  \/ getenv_api_key env = Some ""
  \/ (exists k msg, getenv_api_key env = Some k
                    /\ embeddings_create env k text = inl msg) ->
  exists msg, (_get_embedding env text self).1 = Raise (Exception msg).
Proof.
  unfold _get_embedding.
  intros [->|[->|(k & msg & -> & Hm)]]; [by eexists..|].
  destruct (String.eqb k ""); [by eexists|]. rewrite Hm. by eexists.
Qed.

(** *** Search *)

Lemma query_run self c leb dist q n w :
  client self !! collection self = Some c ->
  on_client (query leb dist (collection self) q n w) self
  = (Ret (take (Z.to_nat n)
            (Py.sorted leb hit_distance
               ((fun r => {| hit_document := rec_document r;
                             hit_metadata := rec_metadata r;
                             hit_distance := dist q r |})
                  <$> filter (fun r => w ⊆ rec_metadata r) (col_records c)))),
     self).
Proof.
  intros Hc. destruct self as [db h]. unfold on_client, query.
  cbn [client collection] in *. by rewrite Hc.
Qed.

Lemma query_inv self leb dist q n w r self' :
  on_client (query leb dist (collection self) q n w) self = (r, self') ->
  self' = self
  /\ ((exists e, r = Raise e)
      \/ exists c, client self !! collection self = Some c
           /\ r = Ret (take (Z.to_nat n)
                    (Py.sorted leb hit_distance
                       ((fun r => {| hit_document := rec_document r;
                                     hit_metadata := rec_metadata r;
                                     hit_distance := dist q r |})
                          <$> filter (fun r => w ⊆ rec_metadata r)
                                (col_records c))))).
Proof.
  destruct (client self !! collection self) as [c|] eqn:Hc.
  - rewrite (query_run _ _ _ _ _ _ _ Hc). intros [= <- <-]. eauto.
  - destruct self as [db h]. unfold on_client, query.
    cbn [client collection] in *. rewrite Hc. intros [= <- <-]. eauto.
Qed.

Lemma search_inv (query_ : string) (top_k : Z)
    (filter_role filter_type : option string) self r self' :
  search_relevant_memories env query_ top_k filter_role filter_type self
  = (r, self') ->
  self' = self
  /\ ((exists e, r = Raise e)
      \/ exists c v,
           client self !! collection self = Some c
           /\ (_get_embedding env query_ self).1 = Ret v
           /\ exists hits,
                on_client
                  (query (float_leb env) (cosine_distance env)
                     (collection self) v top_k
                     (set_if "type" filter_type
                        (set_if "role" filter_role ∅))) self
                = (Ret hits, self)
                /\ r = Ret ((fun h =>
                       {| content := hit_document h;
                          metadata := hit_metadata h;
                          distance := hit_distance h;
                          relevance_score :=
                            float_sub env (float_one env) (hit_distance h)
                       |}) <$> hits)).
Proof.
  unfold search_relevant_memories. intros H.
  apply bind_inv in H as [(v & s1 & Hv & H)|(e & He & ->)].
  - rewrite get_embedding_run in Hv. injection Hv as Hv <-.
    rewrite (bind_ret _ _ _ _ _ (self_collection_run self)) in H.
    apply bind_inv in H as [(hits & s2 & Hq & H)|(e & Hq & ->)].
    + pose proof Hq as Hq'.
      apply query_inv in Hq' as [-> [[e ?]|(c & Hc & _)]]; [done|].
      injection H as <- <-. split; [done|]. right. eauto 10.
    + apply query_inv in Hq as [-> _]. split; [done|]. left. eauto.
  - rewrite get_embedding_run in He. injection He as He <-.
    split; [done|]. left. eauto.
Qed.

(** *** Recent memories, statistics, clearing *)

Lemma filtered_out_false (filter_role filter_type : option string)
    (meta : gmap string string) :
  filtered_out filter_role filter_type meta = false
  <-> (Py.truthy filter_role = true -> meta !! "role" = filter_role)
      /\ (Py.truthy filter_type = true -> meta !! "type" = filter_type).
Proof.
  unfold filtered_out.
  destruct (Py.truthy filter_role), (Py.truthy filter_type);
    cbn [andb orb negb];
    rewrite ?orb_false_iff, ?negb_false_iff, ?bool_decide_eq_true;
    intuition congruence.
Qed.

Lemma get_recent_run (limit : Z) (filter_role filter_type : option string)
    self c :
  client self !! collection self = Some c ->
  get_recent_memories limit filter_role filter_type self
  = (Ret (Py.slice_to limit
            (Py.sorted_reverse String.leb timestamp
               (recent_entry
                  <$> List.filter
                        (fun r => negb (filtered_out filter_role filter_type
                                          (rec_metadata r)))
                        (col_records c)))),
     self).
Proof.
  intros Hc. unfold get_recent_memories.
  rewrite (bind_ret _ _ _ _ _ (self_collection_run self)).
  by rewrite (bind_ret _ _ _ _ _ (get_run self c Hc)).
Qed.

Lemma stats_run self c :
  client self !! collection self = Some c ->
  exists st,
    get_memory_stats self = (Ret st, self)
    /\ total_memories st = length (col_records c).
Proof.
  intros Hc. unfold get_memory_stats.
  rewrite (bind_ret _ _ _ _ _ (self_collection_run self)).
  rewrite (bind_ret _ _ _ _ _ (get_run self c Hc)).
  by eexists.
Qed.

Lemma clear_run self c :
  client self !! collection self = Some c ->
  clear_memory self
  = (Ret tt,
     {| client := <[collection self := empty_collection cosine]>
                    (client self);
        collection := collection self |}).
Proof.
  intros Hc. unfold clear_memory.
  rewrite (bind_ret _ _ _ _ _ (self_collection_run self)).
  rewrite (bind_ret _ _ _ _ _ (delete_run self c Hc)).
  set (self1 := {| client := delete (collection self) (client self);
                   collection := collection self |}).
  assert (H1 : client self1 !! collection self1 = None)
    by apply lookup_delete_eq.
  rewrite (bind_ret _ _ _ _ _ (create_run self1 cosine H1)).
  unfold set_collection. cbn [client collection self1].
  by rewrite insert_delete_eq.
Qed.

Lemma clear_inv self r self' :
  clear_memory self = (r, self') ->
  (exists e, r = Raise e /\ self' = self
             /\ client self !! collection self = None)
  \/ (exists c, r = Ret tt /\ client self !! collection self = Some c
        /\ self' = {| client := <[collection self := empty_collection cosine]>
                                  (client self);
                      collection := collection self |}).
Proof.
  destruct (client self !! collection self) as [c|] eqn:Hc.
  - rewrite (clear_run self c Hc). intros [= <- <-]. right. eauto.
  - unfold clear_memory.
    rewrite (bind_ret _ _ _ _ _ (self_collection_run self)).
    destruct (delete_missing self Hc) as [e He].
    rewrite (bind_raise _ _ _ _ _ He). intros [= <- <-]. left. eauto.
Qed.

Lemma list_filter_decide {A} (f : A -> bool) (P : A -> Prop)
    `{!forall x, Decision (P x)} (l : list A) :
  (forall x, f x = true <-> P x) -> List.filter f l = filter P l.
Proof.
  intros Hf. induction l as [|x l IH]; [done|]. simpl.
  destruct (f x) eqn:E.
  - rewrite filter_cons_True by (by apply Hf). by rewrite IH.
  - rewrite filter_cons_False; [done|]. rewrite <- Hf. congruence.
Qed.

(** *** The claims *)

(** C3, as amended.  When the first document of the collection is in the
    legacy encoding (text that starts with a brace) and some document of
    the collection cannot be decoded, [_migrate_if_needed] raises and
    leaves the ledger, and with it every id, document and metadata of the
    collection, exactly as it was. *)
Theorem migrate_decode_failure_leaves_collection self c first rest r e0 :
  client self !! collection self = Some c ->
  col_records c = first :: rest ->
  is_legacy (rec_document first) = true ->
  r ∈ col_records c ->
  loads env (rec_document r) = Raise e0 ->
  exists e, _migrate_if_needed env self = (Raise e, self).
Proof.
  intros Hc Hrs Hl Hin Hr.
  destruct (decode_documents_raise _ _ _ Hin Hr) as [e He].
  exists e. by eapply migrate_decode_error.
Qed.

(** C4. When the provider cannot produce a vector, because the
    credential is unset or empty or because the call upstream fails,
    [store_memory] raises to its caller and the ledger is unchanged: no
    record was inserted. *)
Theorem store_memory_embedding_failure
    (memory_id now role content_ : string)
    (metadata_ : option (gmap string string)) self :
  getenv_api_key env = None
  \/ getenv_api_key env = Some ""
  \/ (exists k msg, getenv_api_key env = Some k
                    /\ embeddings_create env k content_ = inl msg) ->
  exists msg,
    store_memory env memory_id now role content_ metadata_ self
    = (Raise (Exception msg), self).
Proof.
  intros H. destruct (get_embedding_failure content_ self H) as [msg Hm].
  exists msg. by apply store_embedding_failure.
Qed.

(** C5. In every result of [search_relevant_memories] the relevance
    score is one minus the distance of that result. *)
Theorem relevance_score_is_one_minus_distance (query_ : string) (top_k : Z)
    (filter_role filter_type : option string) self ms self' :
  search_relevant_memories env query_ top_k filter_role filter_type self
  = (Ret ms, self') ->
  Forall (fun m => relevance_score m
                   = float_sub env (float_one env) (distance m)) ms.
Proof.
  intros H. apply search_inv in H as [_ [[e ?]|(c & v & _ & _ & hits & _ & H)]];
    [done|].
  injection H as ->. apply Forall_fmap, Forall_true. done.
Qed.

(** C6, as amended.  A call of [store_code_memory] that returns has
    appended one record: its document is the content followed by the
    marker line with the upper-cased language and the file path, and its
    metadata holds, under each of [type], [file_path] and [language], the
    value the caller's metadata gives for that key and otherwise ["code"],
    the file path and the language. *)
Theorem store_code_memory_record
    (memory_id now role content_ file_path language : string)
    (metadata_ : option (gmap string string)) self x self' :
  store_code_memory env memory_id now role content_ file_path language
    metadata_ self = (Ret x, self') ->
  exists c r,
    client self !! collection self = Some c
    /\ collection self' = collection self
    /\ client self' !! collection self'
       = Some {| col_metadata := col_metadata c;
                 col_records := col_records c ++ [r] |}
    /\ x = memory_id
    /\ rec_id r = memory_id
    /\ rec_document r
       = PyStr (content_ +:+ newline +:+ newline +:+ "# ["
                  +:+ str_upper env language +:+ "] CODE MEMORY: "
                  +:+ file_path +:+ newline)
    /\ rec_metadata r !! "type"
       = Some (default "code" (default ∅ metadata_ !! "type"))
    /\ rec_metadata r !! "file_path"
       = Some (default file_path (default ∅ metadata_ !! "file_path"))
    /\ rec_metadata r !! "language"
       = Some (default language (default ∅ metadata_ !! "language")).
Proof.
  intros H. apply store_inv in H as [(e & ? & _)|(c & v & Hx & Hc & _ & ->)];
    [done|].
  injection Hx as ->. eexists c, _. split; [done|].
  cbn [client collection]. split; [done|].
  split; [apply lookup_insert_eq|].
  cbn [rec_id rec_document rec_metadata].
  repeat split;
    rewrite lookup_union;
    destruct (default ∅ metadata_ !! _) as [w|]; by simplify_map_eq.
Qed.

(** the recent memories in terms of [recent_entry] *)
Lemma recent_entries_newest_first (limit : Z)
    (filter_role filter_type : option string) self c :
  client self !! collection self = Some c ->
  0 <= limit ->
  (exists out rest,
     get_recent_memories limit filter_role filter_type self = (Ret out, self)
     /\ Z.of_nat (length out) <= limit
     /\ (rest <> [] -> Z.of_nat (length out) = limit)
     /\ StronglySorted
          (fun a b => String.leb (timestamp b) (timestamp a) = true)
          (out ++ rest)
     /\ out ++ rest
        ≡ₚ recent_entry
             <$> filter
                   (fun r =>
                      (Py.truthy filter_role = true ->
                       rec_metadata r !! "role" = filter_role)
                      /\ (Py.truthy filter_type = true ->
                          rec_metadata r !! "type" = filter_type))
                   (col_records c))
  /\ (forall r1 r2 r3 t1 t2 t3,
        col_records c = [r1; r2; r3] ->
        rec_metadata r1 !! "timestamp" = Some t1 ->
        rec_metadata r2 !! "timestamp" = Some t2 ->
        rec_metadata r3 !! "timestamp" = Some t3 ->
        String.ltb t1 t2 = true ->
        String.ltb t2 t3 = true ->
        get_recent_memories 2 None None self
        = (Ret [recent_entry r3; recent_entry r2], self)).
Proof.
  intros Hc Hlimit. split.
  - rewrite (get_recent_run _ _ _ _ _ Hc).
    rewrite PyFacts.slice_to_take by done.
    set (entries := recent_entry <$> List.filter _ _).
    set (sorted := Py.sorted_reverse String.leb timestamp entries).
    exists (take (Z.to_nat limit) sorted), (drop (Z.to_nat limit) sorted).
    split; [done|]. rewrite take_drop.
    split; [rewrite length_take; lia|].
    split.
    { intros Hrest. rewrite length_take.
      destruct (decide (length sorted <= Z.to_nat limit)%nat) as [Hle|Hgt];
        [|lia].
      by rewrite drop_ge in Hrest. }
    split.
    { apply (PyFacts.sorted_reverse_sorted String.leb timestamp).
      - intros a b. apply PyFacts.string_leb_total.
      - intros a b d. apply PyFacts.string_leb_trans. }
    unfold sorted. rewrite PyFacts.sorted_reverse_perm. unfold entries.
    erewrite list_filter_decide; [done|].
    intros r. rewrite negb_true_iff. apply filtered_out_false.
  - intros r1 r2 r3 t1 t2 t3 Hrs H1 H2 H3 H12 H23.
    rewrite (get_recent_run _ _ _ _ _ Hc), Hrs.
    cbn [Py.truthy filtered_out andb orb negb List.filter fmap list_fmap].
    assert (E1 : timestamp (recent_entry r1) = t1)
      by (unfold recent_entry; cbn [timestamp]; by rewrite H1).
    assert (E2 : timestamp (recent_entry r2) = t2)
      by (unfold recent_entry; cbn [timestamp]; by rewrite H2).
    assert (E3 : timestamp (recent_entry r3) = t3)
      by (unfold recent_entry; cbn [timestamp]; by rewrite H3).
    assert (H13 : String.leb t3 t1 = false).
    { destruct (String.leb t3 t1) eqn:E; [|done].
      apply PyFacts.string_ltb_not_leb in H12, H23.
      destruct (String.leb_total t1 t2) as [E12|?]; [|congruence].
      pose proof (PyFacts.string_leb_trans _ _ _ E E12). congruence. }
    unfold Py.sorted_reverse. cbn [foldr Py.insert_desc].
    rewrite E2, E3, (PyFacts.string_ltb_not_leb _ _ H23).
    cbn [Py.insert_desc].
    rewrite E1, E2, E3, H13, (PyFacts.string_ltb_not_leb _ _ H12).
    done.
Qed.

(** C8, as amended.  For a limit that is not negative,
    [get_recent_memories] answers with the first [limit] entries of the
    matching records put newest first: what it returns and what it cuts
    off are together the stored records that pass the role and type
    filters, each as an entry with the record's document as content, the
    record's metadata, and the [timestamp] of that metadata (the empty
    text if it has none); they are in descending order of that timestamp,
    and the answer has [limit] of them or all of them.  With three
    memories stamped [t1 < t2 < t3], no filter and [limit = 2] the answer
    is the third record, then the second. *)
Theorem get_recent_memories_newest_first (limit : Z)
    (filter_role filter_type : option string) self c :
  client self !! collection self = Some c ->
  0 <= limit ->
  (exists out rest,
     get_recent_memories limit filter_role filter_type self = (Ret out, self)
     /\ Z.of_nat (length out) <= limit
     /\ (rest <> [] -> Z.of_nat (length out) = limit)
     /\ StronglySorted
          (fun a b => String.leb (timestamp b) (timestamp a) = true)
          (out ++ rest)
     /\ out ++ rest
        ≡ₚ (fun r =>
              {| recent_content := rec_document r;
                 recent_metadata := rec_metadata r;
                 timestamp := default "" (rec_metadata r !! "timestamp") |})
             <$> filter
                   (fun r =>
                      (Py.truthy filter_role = true ->
                       rec_metadata r !! "role" = filter_role)
                      /\ (Py.truthy filter_type = true ->
                          rec_metadata r !! "type" = filter_type))
                   (col_records c))
  /\ (forall r1 r2 r3 t1 t2 t3,
        col_records c = [r1; r2; r3] ->
        rec_metadata r1 !! "timestamp" = Some t1 ->
        rec_metadata r2 !! "timestamp" = Some t2 ->
        rec_metadata r3 !! "timestamp" = Some t3 ->
        String.ltb t1 t2 = true ->
        String.ltb t2 t3 = true ->
        get_recent_memories 2 None None self
        = (Ret [{| recent_content := rec_document r3;
                   recent_metadata := rec_metadata r3;
                   timestamp := t3 |};
                {| recent_content := rec_document r2;
                   recent_metadata := rec_metadata r2;
                   timestamp := t2 |}], self)).
Proof.
  intros Hc Hlimit.
  destruct (recent_entries_newest_first limit filter_role filter_type self c
              Hc Hlimit) as [Hall Hscenario].
  split; [exact Hall|].
  intros r1 r2 r3 t1 t2 t3 Hrs H1 H2 H3 H12 H23.
  rewrite (Hscenario r1 r2 r3 t1 t2 t3 Hrs H1 H2 H3 H12 H23).
  unfold recent_entry. by rewrite H2, H3.
Qed.

(** C9, as amended.  Once [clear_memory] has completed the store holds no
    record: the statistics count zero, a search whose query can be
    embedded answers with the empty sequence and a search whose query
    cannot be embedded raises the error of the embedding, the recent
    memories are none, clearing again leaves the same empty ledger, and the
    collection is there under its name with the cosine metric. *)
Theorem clear_memory_empties_store self self' :
  clear_memory self = (Ret tt, self') ->
  (exists st, get_memory_stats self' = (Ret st, self')
              /\ total_memories st = 0%nat)
  /\ (forall query_ top_k filter_role filter_type,
        search_relevant_memories env query_ top_k filter_role filter_type
          self'
        = (match (_get_embedding env query_ self').1 with
           | Ret _ => Ret []
           | Raise e => Raise e
           end, self'))
  /\ (forall limit filter_role filter_type,
        get_recent_memories limit filter_role filter_type self'
        = (Ret [], self'))
  /\ clear_memory self' = (Ret tt, self')
  /\ collection self' = collection self
  /\ client self' !! collection self' = Some (empty_collection cosine).
Proof.
  intros H. apply clear_inv in H as [(e & ? & _)|(c & _ & Hc & ->)]; [done|].
  set (self' := {| client := _; collection := _ |}).
  assert (Hc' : client self' !! collection self'
                = Some (empty_collection cosine)) by apply lookup_insert_eq.
  split.
  { destruct (stats_run self' _ Hc') as (st & Hst & Hn). eauto. }
  split.
  { intros q k fr ft. unfold search_relevant_memories.
    destruct (_get_embedding env q self').1 as [v|e] eqn:Hv.
    - rewrite (bind_ret _ _ self' v self')
        by (by rewrite get_embedding_run, Hv).
      rewrite (bind_ret _ _ _ _ _ (self_collection_run self')).
      rewrite (bind_ret _ _ _ _ _ (query_run self' _ _ _ _ _ _ Hc')).
      cbn [empty_collection col_records]. rewrite filter_nil.
      unfold Py.sorted. cbn [fmap list_fmap foldr]. by rewrite take_nil.
    - apply bind_raise. by rewrite get_embedding_run, Hv. }
  split.
  { intros limit fr ft. rewrite (get_recent_run _ _ _ _ _ Hc').
    cbn [empty_collection col_records List.filter fmap list_fmap].
    unfold Py.sorted_reverse, Py.slice_to. cbn [foldr length].
    by rewrite take_nil. }
  split.
  { rewrite (clear_run self' _ Hc'). unfold self'. cbn [client collection].
    by rewrite insert_insert_eq. }
  done.
Qed.

(** C10. Whatever key the caller's metadata holds, [role], [timestamp]
    and [type] among them, the record that [store_memory] or
    [store_code_memory] stores carries the caller's value under that key,
    in place of the role argument, the creation timestamp or the
    ["text"] / ["code"] type. *)
Theorem caller_metadata_overrides_stamped_fields
    (memory_id now role content_ file_path language : string)
    (metadata_ : gmap string string) (key value : string) self self' :
  metadata_ !! key = Some value ->
  store_memory env memory_id now role content_ (Some metadata_) self
    = (Ret memory_id, self')
  \/ store_code_memory env memory_id now role content_ file_path language
       (Some metadata_) self = (Ret memory_id, self') ->
  exists c r,
    client self' !! collection self' = Some c
    /\ last (col_records c) = Some r
    /\ rec_id r = memory_id
    /\ rec_metadata r !! key = Some value.
Proof.
  intros Hk [H|H];
    (apply store_inv in H as [(e & ? & _)|(c & v & _ & Hc & _ & ->)];
       [done|]);
    eexists _, _; cbn [client collection];
    (split; [apply lookup_insert_eq|]); cbn [col_records];
    (split; [apply last_snoc|]); cbn [rec_id rec_metadata];
    (split; [done|]); by apply lookup_union_Some_l.
Qed.

End LedgerFacts.


(** The reference decoder makes an object, not text, of a text that
    starts with a brace. *)
Lemma reference_decoder_no_text (s : string) (v : pyval) :
  Py.startswith s "{" = true -> Json.loads s = Some v -> is_str v = false.
Proof.
  intros Hs Hv. by destruct (JsonFacts.loads_brace_dict s v Hs Hv) as [d ->].
Qed.

(** *** The claims on the sample ledger *)

(** C1. The claim wants a new ledger on an existing, compatible
    collection to find the records stored before.  A first run creates the
    collection with the cosine metric and stores one memory; a second run
    then opens the same database with the same configuration.  The
    constructor deletes the collection before it opens it, whatever its
    configuration, so the second ledger starts from an empty collection:
    the stored memory is gone. *)
Theorem restart_discards_stored_records :
  let first := __init__ Sample.env Sample.name ∅ in
  let stored :=
    store_memory Sample.env "u1" "2024-01-01T10:00:00" "user" "hello" None
      first.2 in
  let second := __init__ Sample.env Sample.name (client stored.2) in
  first.1 = Ret tt
  /\ stored.1 = Ret "u1"
  /\ (exists c, client stored.2 !! Sample.name = Some c
                /\ col_metadata c = cosine
                /\ rec_document <$> col_records c = [PyStr "hello"])
  /\ second.1 = Ret tt
  /\ client second.2 !! Sample.name = Some (empty_collection cosine).
Proof.
  cbv zeta. rewrite !init_spec. cbn [fst snd client].
  split; [done|]. split; [by vm_compute|].
  split; [|split; [done|apply lookup_insert_eq]].
  eexists. split; [by vm_compute|]. by vm_compute.
Qed.

(** C2. The claim wants each legacy document replaced by plain text,
    under the same id and metadata, with the count unchanged.  For the
    collection of the specification's example, whose one record [id1] has
    the legacy document [Sample.kv_document], [json.loads] gives the dict
    [{"k": "v"}] and the migration hands that dict to the store as the
    document of [id1], after it has deleted the collection and created it
    anew.  The store takes text only and refuses: [_migrate_if_needed]
    raises, and the collection is left with no record at all. *)
Theorem migration_loses_legacy_records :
  let self := Sample.ledger Sample.legacy_kv in
  let run := _migrate_if_needed Sample.env self in
  is_legacy (PyStr Sample.kv_document) = true
  /\ loads Sample.env (PyStr Sample.kv_document)
     = Ret (PyDict [("k", PyStr "v")])
  /\ run.1 = Raise (StorageError "document is not text")
  /\ collection run.2 = Sample.name
  /\ client run.2 !! Sample.name = Some (empty_collection cosine).
Proof.
  cbv zeta. split; [reflexivity|]. split; [vm_compute; reflexivity|].
  split; [vm_compute; reflexivity|]. split; [reflexivity|].
  vm_compute; reflexivity.
Qed.

(** C3, as stated, fails: this collection holds a brace-led record that
    cannot be decoded, but its first document is plain text, so
    [_migrate_if_needed] returns normally instead of raising. *)
Lemma migrate_skips_undecodable_record_after_plain_first :
  (exists r,
     r ∈ Sample.mixed_broken
     /\ is_legacy (rec_document r) = true
     /\ loads Sample.env (rec_document r) = Raise JSONDecodeError)
  /\ _migrate_if_needed Sample.env (Sample.ledger Sample.mixed_broken)
     = (Ret tt, Sample.ledger Sample.mixed_broken).
Proof.
  split; [|by vm_compute].
  eexists. split; [apply elem_of_cons; right; apply elem_of_cons; by left|].
  split; by vm_compute.
Qed.

Lemma migrate_decode_failure_leaves_collection_witness :
  let self := Sample.ledger Sample.legacy_broken in
  let first :=
    Sample.text_record "id1" Sample.kv_document
      (Sample.stamped "user" "2024-01-01T10:00:00") in
  let broken :=
    Sample.text_record "id2" "{bad"
      (Sample.stamped "assistant" "2024-01-01T10:00:05") in
  is_legacy (rec_document first) = true
  /\ loads Sample.env (rec_document broken) = Raise JSONDecodeError
  /\ exists e, _migrate_if_needed Sample.env self = (Raise e, self).
Proof.
  cbv zeta. split; [reflexivity|]. split; [vm_compute; reflexivity|].
  eapply (migrate_decode_failure_leaves_collection Sample.env
            (Sample.ledger Sample.legacy_broken) _ _ _
            (Sample.text_record "id2" "{bad"
               (Sample.stamped "assistant" "2024-01-01T10:00:05"))).
  - apply lookup_insert_eq.
  - reflexivity.
  - reflexivity.
  - apply elem_of_cons; right; apply elem_of_cons; left; reflexivity.
  - vm_compute; reflexivity.
Defined.

Lemma store_memory_embedding_failure_witness :
  getenv_api_key Sample.env_no_key = None
  /\ exists msg,
       store_memory Sample.env_no_key "u1" "2024-01-01T10:00:00" "user"
         "hello" None (Sample.ledger [])
       = (Raise (Exception msg), Sample.ledger []).
Proof.
  split; [reflexivity|].
  apply (store_memory_embedding_failure Sample.env_no_key).
  left; reflexivity.
Defined.

Lemma relevance_score_is_one_minus_distance_witness :
  exists ms,
    search_relevant_memories Sample.env "hello!!" 3 None None
      (Sample.ledger Sample.mixed_broken)
    = (Ret ms, Sample.ledger Sample.mixed_broken)
    /\ (fun m => (distance m, relevance_score m)) <$> ms = [(2, -1); (3, -2)]
    /\ Forall (fun m => relevance_score m = 1 - distance m) ms.
Proof.
  eexists. split; [vm_compute; reflexivity|].
  split; [vm_compute; reflexivity|].
  apply (relevance_score_is_one_minus_distance Sample.env "hello!!" 3 None
           None (Sample.ledger Sample.mixed_broken) _
           (Sample.ledger Sample.mixed_broken)).
  vm_compute; reflexivity.
Defined.

(** C6, as stated, fails: this is the call [_load_code_file] makes, with
    [{"type": "code_load"}] as metadata; the stored type is the caller's. *)
Lemma store_code_memory_type_overridden :
  exists self' c r,
    store_code_memory Sample.env "u1" "2024-01-01T10:00:00" "user"
      "print(1)" "a.py" "Python" (Some {[ "type" := "code_load" ]})
      (Sample.ledger [])
    = (Ret "u1", self')
    /\ client self' !! Sample.name = Some c
    /\ col_records c = [r]
    /\ rec_metadata r !! "type" = Some "code_load"
    /\ rec_metadata r !! "type" <> Some "code".
Proof.
  eexists _, _, _. split; [vm_compute; reflexivity|].
  split; [vm_compute; reflexivity|].
  split; [reflexivity|]. split; [vm_compute; reflexivity|].
  vm_compute. discriminate.
Qed.

Lemma store_code_memory_record_witness :
  exists self' c r,
    store_code_memory Sample.env "u1" "2024-01-01T10:00:00" "user"
      "print(1)" "a.py" "Python" (Some ∅) (Sample.ledger [])
    = (Ret "u1", self')
    /\ client self' !! collection self' = Some c
    /\ col_records c = [r]
    /\ rec_document r
       = PyStr ("print(1)" +:+ newline +:+ newline
                  +:+ "# [PYTHON] CODE MEMORY: a.py" +:+ newline)
    /\ rec_metadata r !! "type" = Some "code"
    /\ rec_metadata r !! "file_path" = Some "a.py"
    /\ rec_metadata r !! "language" = Some "Python".
Proof.
  destruct (store_code_memory_record Sample.env "u1" "2024-01-01T10:00:00"
              "user" "print(1)" "a.py" "Python" (Some ∅) (Sample.ledger [])
              "u1"
              (store_code_memory Sample.env "u1" "2024-01-01T10:00:00" "user"
                 "print(1)" "a.py" "Python" (Some ∅) (Sample.ledger [])).2)
    as (c & r & Hc & Hh & Hc' & _ & _ & Hd & Ht & Hf & Hl);
    [vm_compute; reflexivity|].
  exists (store_code_memory Sample.env "u1" "2024-01-01T10:00:00" "user"
            "print(1)" "a.py" "Python" (Some ∅) (Sample.ledger [])).2,
    {| col_metadata := col_metadata c; col_records := col_records c ++ [r] |},
    r.
  split; [vm_compute; reflexivity|]. split; [exact Hc'|].
  assert (Hc0 : c = {| col_metadata := cosine; col_records := [] |}).
  { unfold Sample.ledger in Hc. cbn [client collection] in Hc.
    rewrite lookup_singleton_eq in Hc. congruence. }
  subst c. split; [reflexivity|]. split; [exact Hd|].
  split; [exact Ht|]. split; [exact Hf|exact Hl].
Defined.

(** C8, as stated, fails: with a negative limit the slice drops entries
    from the end, and the answer is longer than the limit. *)
Lemma get_recent_memories_exceeds_negative_limit :
  exists out,
    get_recent_memories (-1) None None (Sample.ledger Sample.three_memories)
    = (Ret out, Sample.ledger Sample.three_memories)
    /\ recent_content <$> out = [PyStr "third"; PyStr "second"]
    /\ Z.of_nat (length out) > -1.
Proof.
  eexists. split; [vm_compute; reflexivity|].
  split; [vm_compute; reflexivity|]. cbn. lia.
Qed.

Lemma get_recent_memories_newest_first_witness :
  let self := Sample.ledger Sample.three_memories in
  client self !! collection self
  = Some {| col_metadata := cosine; col_records := Sample.three_memories |}
  /\ 0 <= 2
  /\ get_recent_memories 2 None None self
     = (Ret [{| recent_content := PyStr "third";
                recent_metadata :=
                  Sample.stamped "user" "2024-01-02T09:00:00";
                timestamp := "2024-01-02T09:00:00" |};
             {| recent_content := PyStr "second";
                recent_metadata :=
                  Sample.stamped "assistant" "2024-01-01T10:00:05";
                timestamp := "2024-01-01T10:00:05" |}], self).
Proof.
  cbv zeta. split; [apply lookup_insert_eq|]. split; [lia|].
  destruct (get_recent_memories_newest_first (F := Z) 2 None None
              (Sample.ledger Sample.three_memories) _
              (lookup_insert_eq _ _ _) ltac:(lia)) as [_ H].
  apply (H (Sample.text_record "m1" "first"
              (Sample.stamped "user" "2024-01-01T10:00:00"))
           (Sample.text_record "m2" "second"
              (Sample.stamped "assistant" "2024-01-01T10:00:05"))
           (Sample.text_record "m3" "third"
              (Sample.stamped "user" "2024-01-02T09:00:00"))
           "2024-01-01T10:00:00" "2024-01-01T10:00:05"
           "2024-01-02T09:00:00" eq_refl); vm_compute; reflexivity.
Defined.

(** C9, as stated, fails: after the store was cleared, a search made
    without the credential does not answer with the empty sequence, it
    raises. *)
Lemma search_after_clear_raises_without_credential :
  let self' := (clear_memory (Sample.ledger Sample.three_memories)).2 in
  clear_memory (Sample.ledger Sample.three_memories) = (Ret tt, self')
  /\ exists msg,
       search_relevant_memories Sample.env_no_key "hello" 3 None None self'
       = (Raise (Exception msg), self').
Proof.
  cbv zeta. split; [vm_compute; reflexivity|].
  eexists. vm_compute. reflexivity.
Qed.

Lemma clear_memory_empties_store_witness :
  let self := Sample.ledger Sample.three_memories in
  exists self',
    clear_memory self = (Ret tt, self')
    /\ (exists st, get_memory_stats self' = (Ret st, self')
                   /\ total_memories st = 0%nat)
    /\ search_relevant_memories Sample.env "hello" 3 None None self'
       = (Ret [], self')
    /\ clear_memory self' = (Ret tt, self')
    /\ client self' !! Sample.name = Some (empty_collection cosine).
Proof.
  cbv zeta. eexists. split; [vm_compute; reflexivity|].
  destruct (clear_memory_empties_store Sample.env
              (Sample.ledger Sample.three_memories) _ eq_refl)
    as (Hst & Hsearch & _ & Hclear & _ & Hc).
  split; [exact Hst|]. split; [exact (Hsearch "hello" 3 None None)|].
  split; [exact Hclear|exact Hc].
Defined.

Lemma caller_metadata_overrides_stamped_fields_witness :
  let md : gmap string string :=
    {[ "role" := "system"; "timestamp" := "1999-12-31T23:59:59";
       "type" := "note" ]} in
  md !! "timestamp" = Some "1999-12-31T23:59:59"
  /\ md !! "type" = Some "note"
  /\ (exists self' c r,
        store_memory Sample.env "u1" "2024-01-01T10:00:00" "user" "hello"
          (Some md) (Sample.ledger []) = (Ret "u1", self')
        /\ client self' !! collection self' = Some c
        /\ last (col_records c) = Some r
        /\ rec_id r = "u1"
        /\ rec_metadata r !! "timestamp" = Some "1999-12-31T23:59:59")
  /\ (exists self' c r,
        store_code_memory Sample.env "u2" "2024-01-01T10:00:07" "user"
          "print(1)" "a.py" "Python" (Some md) (Sample.ledger [])
        = (Ret "u2", self')
        /\ client self' !! collection self' = Some c
        /\ last (col_records c) = Some r
        /\ rec_id r = "u2"
        /\ rec_metadata r !! "type" = Some "note").
Proof.
  cbv zeta. split; [vm_compute; reflexivity|].
  split; [vm_compute; reflexivity|]. split.
  - destruct (caller_metadata_overrides_stamped_fields Sample.env "u1"
                "2024-01-01T10:00:00" "user" "hello" "" ""
                {[ "role" := "system"; "timestamp" := "1999-12-31T23:59:59";
                   "type" := "note" ]}
                "timestamp" "1999-12-31T23:59:59" (Sample.ledger [])
                (store_memory Sample.env "u1" "2024-01-01T10:00:00" "user"
                   "hello"
                   (Some {[ "role" := "system";
                            "timestamp" := "1999-12-31T23:59:59";
                            "type" := "note" ]}) (Sample.ledger [])).2)
      as (c & r & H).
    + vm_compute; reflexivity.
    + left. vm_compute; reflexivity.
    + eexists _, c, r. split; [vm_compute; reflexivity|exact H].
  - destruct (caller_metadata_overrides_stamped_fields Sample.env "u2"
                "2024-01-01T10:00:07" "user" "print(1)" "a.py" "Python"
                {[ "role" := "system"; "timestamp" := "1999-12-31T23:59:59";
                   "type" := "note" ]}
                "type" "note" (Sample.ledger [])
                (store_code_memory Sample.env "u2" "2024-01-01T10:00:07"
                   "user" "print(1)" "a.py" "Python"
                   (Some {[ "role" := "system";
                            "timestamp" := "1999-12-31T23:59:59";
                            "type" := "note" ]}) (Sample.ledger [])).2)
      as (c & r & H).
    + vm_compute; reflexivity.
    + right. vm_compute; reflexivity.
    + eexists _, c, r. split; [vm_compute; reflexivity|exact H].
Defined.

End MemoryFacts.

(* ===================================================================== *)
(** ** More on the ledger: what a caller can rely on *)
(* ===================================================================== *)

Module LedgerMore.
Import Chroma Memory MemoryFacts.

Section Sorting.
Context {A K : Type} (leb : K -> K -> bool) (key : A -> K).

Lemma insert_asc_perm (x : A) (l : list A) :
  Py.insert_asc leb key x l ≡ₚ x :: l.
Proof.
  induction l as [|y l IH]; simpl; [done|].
  destruct (leb (key x) (key y)); [done|].
  rewrite IH. apply Permutation_swap.
Qed.

Lemma sorted_perm (l : list A) : Py.sorted leb key l ≡ₚ l.
Proof.
  induction l as [|x l IH]; simpl; [done|].
  unfold Py.sorted in IH. by rewrite insert_asc_perm, IH.
Qed.

(** the sort is stable: the entries with a given key come out in the
    order they went in *)
Lemma insert_desc_filter `{EqDecision K} (k : K) (x : A) (l : list A) :
  (forall a, leb a a = true) ->
  filter (fun z => key z = k) (Py.insert_desc leb key x l)
  = filter (fun z => key z = k) (x :: l).
Proof.
  intros Hrefl. induction l as [|y l IH]; simpl; [done|].
  destruct (leb (key y) (key x)) eqn:E; [done|].
  assert (Hne : key y <> key x).
  { intros Heq. rewrite Heq, Hrefl in E. done. }
  rewrite (filter_cons _ y), IH, !(filter_cons _ x), (filter_cons _ y).
  destruct (decide (key x = k)) as [Hx|Hx]; [|done].
  destruct (decide (key y = k)) as [Hy|Hy]; [congruence|done].
Qed.

Lemma sorted_reverse_stable `{EqDecision K} (k : K) (l : list A) :
  (forall a, leb a a = true) ->
  filter (fun z => key z = k) (Py.sorted_reverse leb key l)
  = filter (fun z => key z = k) l.
Proof.
  intros Hrefl. induction l as [|x l IH]; [done|].
  change (Py.sorted_reverse leb key (x :: l))
    with (Py.insert_desc leb key x (Py.sorted_reverse leb key l)).
  rewrite insert_desc_filter by done.
  by rewrite !(filter_cons _ x), IH.
Qed.

End Sorting.

Lemma string_leb_refl (s : string) : String.leb s s = true.
Proof. by destruct (String.leb_total s s). Qed.

Section More.
Context {F : Type} (env : Env F).

Implicit Types (self : VectorMemory F) (c : Collection F).

(** *** counting *)

Lemma count_up_fold (key : record F -> string) (docs : list (record F))
    (d0 : gmap string nat) (k : string) :
  foldl (fun d r => count_up (key r) d) d0 docs !! k
  = match length (filter (fun r => key r = k) docs) with
    | O => d0 !! k
    | S n => Some (default 0 (d0 !! k) + S n)%nat
    end.
Proof.
  revert d0. induction docs as [|r docs IH]; intros d0; [done|].
  cbn [foldl]. rewrite IH, filter_cons. unfold count_up.
  destruct (decide (key r = k)) as [->|Hne].
  - rewrite lookup_insert_eq. cbn [length default].
    unfold id. destruct (length _); f_equal; lia.
  - by rewrite lookup_insert_ne.
Qed.

(** *** recording *)

(** X1. [store_memory] is all or nothing.  It either raises and leaves
    the ledger exactly as it was, or returns the id it was given after
    appending one record to the end of its collection: the document is the
    content, the vector is the one the provider returned, and the metadata
    is the caller's, completed with [role], [timestamp] and [type="text"]
    where the caller gave none. *)
Theorem store_memory_all_or_nothing
    (memory_id now role content_ : string)
    (metadata_ : option (gmap string string)) self r self' :
  store_memory env memory_id now role content_ metadata_ self = (r, self') ->
  (exists e, r = Raise e /\ self' = self)
  \/ (exists c v rec,
        r = Ret memory_id
        /\ (_get_embedding env content_ self).1 = Ret v
        /\ client self !! collection self = Some c
        /\ collection self' = collection self
        /\ client self'
           = <[collection self :=
                 {| col_metadata := col_metadata c;
                    col_records := col_records c ++ [rec] |}]> (client self)
        /\ rec_id rec = memory_id
        /\ rec_embedding rec = Some v
        /\ rec_document rec = PyStr content_
        /\ rec_metadata rec !! "role"
           = Some (default role (default ∅ metadata_ !! "role"))
        /\ rec_metadata rec !! "timestamp"
           = Some (default now (default ∅ metadata_ !! "timestamp"))
        /\ rec_metadata rec !! "type"
           = Some (default "text" (default ∅ metadata_ !! "type"))
        /\ (forall k, k <> "role" -> k <> "timestamp" -> k <> "type" ->
            rec_metadata rec !! k = default ∅ metadata_ !! k)).
Proof.
  intros H. apply store_inv in H as [(e & -> & ->)|(c & v & -> & Hc & Hv & ->)];
    [left; eauto|].
  right. eexists c, v, _. split; [done|]. split; [done|]. split; [done|].
  cbn [client collection]. split; [done|]. split; [done|].
  cbn [rec_id rec_embedding rec_document rec_metadata].
  split; [done|]. split; [done|]. split; [done|].
  repeat split.
  1-3: rewrite lookup_union;
       destruct (default ∅ metadata_ !! _) as [w|]; by simplify_map_eq.
  intros k H1 H2 H3. rewrite lookup_union.
  rewrite !lookup_insert_ne, lookup_singleton_ne by done.
  by destruct (default ∅ metadata_ !! k).
Qed.

(** *** search *)

Lemma set_if_lookup (key k : string) (filter_ : option string)
    (w : gmap string string) :
  set_if key filter_ w !! k
  = if Py.truthy filter_ && bool_decide (key = k) then filter_ else w !! k.
Proof.
  unfold set_if. destruct (Py.truthy filter_) eqn:E; [|done].
  cbn [andb]. case_bool_decide as Hk.
  - subst. rewrite lookup_insert_eq. by destruct filter_.
  - by rewrite lookup_insert_ne.
Qed.

(** X2. [search_relevant_memories] only reads: when it returns, the
    ledger is unchanged, there are at most [top_k] results, each result is
    the document and metadata of a stored record, and each carries the
    role and the type asked for.  A filter that is [None] or the empty
    string restricts nothing. *)
Theorem search_results_come_from_store (query_ : string) (top_k : Z)
    (filter_role filter_type : option string) self ms self' :
  search_relevant_memories env query_ top_k filter_role filter_type self
  = (Ret ms, self') ->
  self' = self
  /\ (length ms <= Z.to_nat top_k)%nat
  /\ exists c,
       client self !! collection self = Some c
       /\ Forall
            (fun m =>
               (exists r, r ∈ col_records c
                          /\ content m = rec_document r
                          /\ metadata m = rec_metadata r)
               /\ (Py.truthy filter_role = true ->
                   metadata m !! "role" = filter_role)
               /\ (Py.truthy filter_type = true ->
                   metadata m !! "type" = filter_type))
            ms.
Proof.
  intros H.
  apply search_inv in H as [-> [[e ?]|(c & v & Hc & _ & hits & Hq & H)]];
    [done|].
  injection H as ->. rewrite (query_run _ _ _ _ _ _ _ Hc) in Hq.
  injection Hq as <-. split; [done|].
  split; [rewrite length_fmap, length_take; lia|].
  exists c. split; [done|].
  apply Forall_fmap, Forall_forall. intros h Hh.
  apply elem_of_take in Hh as (i & Hh & _).
  apply list_elem_of_lookup_2 in Hh.
  rewrite sorted_perm in Hh.
  apply list_elem_of_fmap in Hh as (r & -> & Hr).
  apply list_elem_of_filter in Hr as [Hw Hr].
  cbn [content metadata hit_document hit_metadata].
  split; [eauto|]. split.
  - intros Ht. destruct filter_role as [fr|]; [|done].
    apply (lookup_weaken _ _ "role" fr) in Hw; [done|].
    rewrite !set_if_lookup, Ht. cbn.
    by destruct (Py.truthy filter_type).
  - intros Ht. destruct filter_type as [ft|]; [|done].
    apply (lookup_weaken _ _ "type" ft) in Hw; [done|].
    by rewrite set_if_lookup, Ht.
Qed.

(** X3. A memory that [store_memory] has stored is found again: a search
    for any query that can be embedded, without filters and with [top_k]
    no smaller than the collection, returns an entry with the stored
    content and the stored metadata. *)
Theorem stored_memory_is_found
    (memory_id now role content_ query_ : string)
    (metadata_ : option (gmap string string)) (top_k : Z) v self self' :
  store_memory env memory_id now role content_ metadata_ self
  = (Ret memory_id, self') ->
  (_get_embedding env query_ self').1 = Ret v ->
  (forall c', client self' !! collection self' = Some c' ->
              (length (col_records c') <= Z.to_nat top_k)%nat) ->
  exists ms m,
    search_relevant_memories env query_ top_k None None self' = (Ret ms, self')
    /\ m ∈ ms
    /\ content m = PyStr content_
    /\ metadata m
       = default ∅ metadata_
           ∪ {[ "role" := role; "timestamp" := now; "type" := "text" ]}.
Proof.
  intros H Hv Hk.
  apply store_inv in H as [(e & ? & _)|(c & w & _ & Hc & _ & ->)]; [done|].
  set (self' := {| client := _; collection := _ |}) in *.
  assert (Hc' : client self' !! collection self' = Some _)
    by apply lookup_insert_eq.
  specialize (Hk _ Hc'). cbn [col_records] in Hk.
  unfold search_relevant_memories.
  rewrite (bind_ret _ _ self' v self') by (by rewrite get_embedding_run, Hv).
  rewrite (bind_ret _ _ _ _ _ (self_collection_run self')).
  rewrite (bind_ret _ _ _ _ _ (query_run self' _ _ _ _ _ _ Hc')).
  set (meta := default ∅ metadata_
                 ∪ {[ "role" := role; "timestamp" := now; "type" := "text" ]})
    in *.
  set (rec := {| rec_id := memory_id; rec_embedding := Some w;
                 rec_document := PyStr content_; rec_metadata := meta |})
    in *.
  set (h := {| hit_document := PyStr content_; hit_metadata := meta;
               hit_distance := cosine_distance env v rec |}).
  eexists _, {| content := PyStr content_; metadata := meta;
                distance := hit_distance h;
                relevance_score :=
                  float_sub env (float_one env) (hit_distance h) |}.
  split; [reflexivity|]. split; [|split; reflexivity].
  apply list_elem_of_fmap. exists h. split; [reflexivity|].
  rewrite take_ge.
  2:{ rewrite sorted_perm, length_fmap.
      etrans; [apply length_filter|]. exact Hk. }
  rewrite sorted_perm. apply list_elem_of_fmap. exists rec.
  split; [reflexivity|].
  apply list_elem_of_filter. split.
  - unfold set_if. cbn [Py.truthy]. apply map_empty_subseteq.
  - cbn [col_records]. apply elem_of_app. right.
    by apply list_elem_of_singleton.
Qed.

(** *** recent memories *)

(** X4. A memory that [store_memory] has stored appears in
    [get_recent_memories] when no filter is given and [limit] is no
    smaller than the collection, with its content and with the timestamp
    it was stored under. *)
Theorem stored_memory_is_recent
    (memory_id now role content_ : string)
    (metadata_ : option (gmap string string)) (limit : Z) self self' :
  store_memory env memory_id now role content_ metadata_ self
  = (Ret memory_id, self') ->
  (forall c', client self' !! collection self' = Some c' ->
              Z.of_nat (length (col_records c')) <= limit) ->
  exists out e,
    get_recent_memories limit None None self' = (Ret out, self')
    /\ e ∈ out
    /\ recent_content e = PyStr content_
    /\ timestamp e = default now (default ∅ metadata_ !! "timestamp").
Proof.
  intros H Hk.
  apply store_inv in H as [(e & ? & _)|(c & w & _ & Hc & _ & ->)]; [done|].
  set (self' := {| client := _; collection := _ |}) in *.
  assert (Hc' : client self' !! collection self' = Some _)
    by apply lookup_insert_eq.
  specialize (Hk _ Hc'). cbn [col_records] in Hk.
  rewrite (get_recent_run _ _ _ _ _ Hc').
  rewrite PyFacts.slice_to_take by lia.
  cbn [col_records filtered_out Py.truthy andb orb negb].
  eexists _, (recent_entry _). split; [done|]. split.
  - rewrite take_ge.
    2:{ rewrite PyFacts.sorted_reverse_perm, length_fmap.
        etrans; [apply List.filter_length_le|]. lia. }
    rewrite PyFacts.sorted_reverse_perm.
    apply list_elem_of_fmap. eexists. split; [done|].
    apply list_elem_of_In, List.filter_In. split; [|done].
    apply list_elem_of_In, elem_of_app. right.
    by apply list_elem_of_singleton.
  - cbn [recent_entry recent_content timestamp rec_document rec_metadata].
    split; [done|]. rewrite lookup_union.
    destruct (default ∅ metadata_ !! "timestamp") as [t|]; by simplify_map_eq.
Qed.

(** X5. With a negative [limit] the slice [[:limit]] does not fail and
    does not return nothing: [get_recent_memories] returns the newest-first
    list without its last [-limit] entries (all of it gone when there are
    fewer). *)
Theorem get_recent_memories_negative_limit (limit : Z)
    (filter_role filter_type : option string) self c :
  client self !! collection self = Some c ->
  limit < 0 ->
  exists out dropped,
    get_recent_memories limit filter_role filter_type self = (Ret out, self)
    /\ out ++ dropped
       = Py.sorted_reverse String.leb timestamp
           (recent_entry
              <$> List.filter
                    (fun r => negb (filtered_out filter_role filter_type
                                      (rec_metadata r)))
                    (col_records c))
    /\ length dropped = Nat.min (Z.to_nat (- limit)) (length (out ++ dropped)).
Proof.
  intros Hc Hlimit. rewrite (get_recent_run _ _ _ _ _ Hc).
  set (sorted := Py.sorted_reverse _ _ _).
  unfold Py.slice_to. destruct (limit <? 0) eqn:E; [|lia].
  set (n := Z.to_nat _).
  exists (take n sorted), (drop n sorted). split; [done|].
  rewrite take_drop. split; [done|]. rewrite length_drop. unfold n. lia.
Qed.

(** X6. Ties keep their order.  Among the entries [get_recent_memories]
    returns, those with one and the same timestamp stand in the order in
    which their records were inserted: they are a prefix of the matching
    records with that timestamp, in stored order. *)
Theorem get_recent_memories_stable (limit : Z)
    (filter_role filter_type : option string) (t : string) self c :
  client self !! collection self = Some c ->
  0 <= limit ->
  exists out,
    get_recent_memories limit filter_role filter_type self = (Ret out, self)
    /\ filter (fun e => timestamp e = t) out
       `prefix_of`
       filter (fun e => timestamp e = t)
         (recent_entry
            <$> List.filter
                  (fun r => negb (filtered_out filter_role filter_type
                                    (rec_metadata r)))
                  (col_records c)).
Proof.
  intros Hc Hlimit. rewrite (get_recent_run _ _ _ _ _ Hc).
  rewrite PyFacts.slice_to_take by done.
  eexists. split; [done|].
  set (entries := recent_entry <$> List.filter _ _).
  rewrite <- (sorted_reverse_stable String.leb timestamp t entries
                string_leb_refl).
  set (sorted := Py.sorted_reverse _ _ _).
  exists (filter (fun e => timestamp e = t) (drop (Z.to_nat limit) sorted)).
  by rewrite <- filter_app, take_drop.
Qed.

(** *** statistics *)

(** X7. [get_memory_stats] only reads, counts every record once in the
    total, and under each role (and each type) reports the number of
    records with that role (type); a record without the key is counted
    under ["unknown"], and a role or type no record has is not a key of
    the result. *)
Theorem get_memory_stats_counts self st self' :
  get_memory_stats self = (Ret st, self') ->
  self' = self
  /\ exists c,
       client self !! collection self = Some c
       /\ total_memories st = length (col_records c)
       /\ (forall k,
             memories_by_role st !! k
             = match length (filter
                       (fun r => default "unknown" (rec_metadata r !! "role")
                                 = k) (col_records c)) with
               | O => None
               | S n => Some (S n)
               end)
       /\ (forall k,
             memories_by_type st !! k
             = match length (filter
                       (fun r => default "unknown" (rec_metadata r !! "type")
                                 = k) (col_records c)) with
               | O => None
               | S n => Some (S n)
               end).
Proof.
  unfold get_memory_stats. intros H.
  rewrite (bind_ret _ _ _ _ _ (self_collection_run self)) in H.
  destruct (client self !! collection self) as [c|] eqn:Hc.
  - rewrite (bind_ret _ _ _ _ _ (get_run self c Hc)) in H.
    injection H as <- <-. split; [done|]. exists c. split; [done|].
    cbn [total_memories memories_by_role memories_by_type].
    split; [done|].
    split; intros k; rewrite count_up_fold, lookup_empty;
      by destruct (length _).
  - destruct (get_missing self Hc) as [e He].
    rewrite (bind_raise _ _ _ _ _ He) in H. done.
Qed.

(** *** migration and the rest of the database *)

Lemma migrate_inv self r self' :
  _migrate_if_needed env self = (r, self') ->
  self' = self
  \/ exists c first rest new msg,
       client self !! collection self = Some c
       /\ col_records c = first :: rest
       /\ is_legacy (rec_document first) = true
       /\ decode_documents env (col_records c) = Ret new
       /\ r = Raise (StorageError msg)
       /\ (forallb is_str ((fun x => x.1.1) <$> new) = false ->
           msg = "document is not text"%string)
       /\ self' = {| client :=
                       <[collection self := empty_collection cosine]>
                         (client self);
                     collection := collection self |}.
Proof.
  intros H. destruct (client self !! collection self) as [c|] eqn:Hc.
  - destruct (col_records c) as [|first rest] eqn:Hrs.
    { rewrite (migrate_empty env self c Hc Hrs) in H. injection H as _ <-.
      by left. }
    destruct (is_legacy (rec_document first)) eqn:Hl.
    + destruct (decode_documents env (col_records c)) as [new|e] eqn:Hd.
      * destruct (migrate_legacy_refused env self c first rest new Hc Hrs
                    Hl Hd) as (msg & Hrun & Hmsg).
        rewrite Hrun in H. injection H as <- <-. right.
        eexists c, first, rest, new, msg. by rewrite Hrs in *.
      * rewrite (migrate_decode_error env self c first rest e Hc Hrs Hl Hd)
          in H.
        injection H as _ <-. by left.
    + rewrite (migrate_not_legacy env self c first rest Hc Hrs Hl) in H.
      injection H as _ <-. by left.
  - unfold _migrate_if_needed in H.
    rewrite (bind_ret _ _ _ _ _ (self_collection_run self)) in H.
    destruct (get_missing self Hc) as [e He].
    rewrite (bind_raise _ _ _ _ _ He) in H. injection H as _ <-. by left.
Qed.

(** X8. [_migrate_if_needed] never rewrites a collection.  Provided the
    decoder makes no text of a text that starts with a brace (for JSON it
    makes an object of it), the ledger after the call is the ledger before
    it, or the call has raised the store's refusal of a document that is
    not text and the collection in use, which held records, is empty.  A
    call that returns has therefore changed nothing. *)
Theorem migrate_keeps_or_empties self r self' :
  (forall s v, Py.startswith s "{" = true -> json_loads env s = Some v ->
               is_str v = false) ->
  _migrate_if_needed env self = (r, self') ->
  self' = self
  \/ (r = Raise (StorageError "document is not text")
      /\ exists c,
           client self !! collection self = Some c
           /\ col_records c <> []
           /\ self' = {| client :=
                           <[collection self := empty_collection cosine]>
                             (client self);
                         collection := collection self |}).
Proof.
  intros Hjson H.
  apply migrate_inv in H
    as [->|(c & first & rest & new & msg & Hc & Hrs & Hl & Hd & -> & Hmsg
              & ->)];
    [by left|].
  right. rewrite Hrs in Hd.
  rewrite (Hmsg (decoded_legacy_not_text env first rest new Hjson Hl Hd)).
  split; [done|]. exists c. by rewrite Hrs.
Qed.

(** X9. The ledger works on its own collection only.  Whatever
    [_migrate_if_needed], [store_memory], [store_code_memory] and
    [clear_memory] do, and whether they return or raise, they keep the
    handle and leave every other collection of the database as it was;
    the constructor leaves every collection but the one it is given as it
    found it. *)
Theorem other_collections_untouched (other : string) self :
  other <> collection self ->
  let kept self' :=
    collection self' = collection self
    /\ client self' !! other = client self !! other in
  (forall r self', _migrate_if_needed env self = (r, self') -> kept self')
  /\ (forall memory_id now role content_ metadata_ r self',
        store_memory env memory_id now role content_ metadata_ self
        = (r, self') -> kept self')
  /\ (forall memory_id now role content_ file_path language metadata_ r self',
        store_code_memory env memory_id now role content_ file_path language
          metadata_ self = (r, self') -> kept self')
  /\ (forall r self', clear_memory self = (r, self') -> kept self')
  /\ (forall collection_name (db : database F),
        other <> collection_name ->
        client (__init__ env collection_name db).2 !! other = db !! other).
Proof.
  intros Hne kept. unfold kept. repeat split.
  - apply migrate_inv in H
      as [->|(c & ? & ? & ? & ? & _ & _ & _ & _ & _ & _ & ->)];
      done.
  - apply migrate_inv in H
      as [->|(c & ? & ? & ? & ? & _ & _ & _ & _ & _ & _ & ->)];
      [done|].
    cbn [client]. by rewrite lookup_insert_ne.
  - apply store_inv in H as [(e & _ & ->)|(c & v & _ & _ & _ & ->)]; done.
  - apply store_inv in H as [(e & _ & ->)|(c & v & _ & _ & _ & ->)]; [done|].
    cbn [client]. by rewrite lookup_insert_ne.
  - apply store_inv in H as [(e & _ & ->)|(c & v & _ & _ & _ & ->)]; done.
  - apply store_inv in H as [(e & _ & ->)|(c & v & _ & _ & _ & ->)]; [done|].
    cbn [client]. by rewrite lookup_insert_ne.
  - apply clear_inv in H as [(e & _ & -> & _)|(c & _ & _ & ->)]; done.
  - apply clear_inv in H as [(e & _ & -> & _)|(c & _ & _ & ->)]; [done|].
    cbn [client]. by rewrite lookup_insert_ne.
  - intros name db Hn. rewrite init_spec. cbn [snd client].
    by rewrite lookup_insert_ne.
Qed.

End More.


(** *** on the sample ledger *)

Lemma store_memory_all_or_nothing_witness :
  let md : gmap string string := {[ "topic" := "demo" ]} in
  let self := Sample.ledger Sample.three_memories in
  let out :=
    store_memory Sample.env "u4" "2024-01-03T08:00:00" "user" "fourth"
      (Some md) self in
  out.1 = Ret "u4"
  /\ exists rec,
       client out.2 !! collection out.2
       = Some {| col_metadata := cosine;
                 col_records := Sample.three_memories ++ [rec] |}
       /\ rec_id rec = "u4"
       /\ rec_document rec = PyStr "fourth"
       /\ rec_metadata rec !! "role" = Some "user"
       /\ rec_metadata rec !! "timestamp" = Some "2024-01-03T08:00:00"
       /\ rec_metadata rec !! "type" = Some "text"
       /\ rec_metadata rec !! "topic" = Some "demo".
Proof.
  cbv zeta. split; [vm_compute; reflexivity|].
  destruct (store_memory_all_or_nothing Sample.env "u4"
              "2024-01-03T08:00:00" "user" "fourth"
              (Some {[ "topic" := "demo" ]})
              (Sample.ledger Sample.three_memories) _ _
              (surjective_pairing _))
    as [(e & He & _)
       |(c & v & rec & _ & _ & Hc & Hh & Hcl & Hid & _ & Hdoc & Hrole & Hts
           & Hty & Hother)].
  - vm_compute in He. discriminate He.
  - exists rec.
    assert (c = {| col_metadata := cosine;
                   col_records := Sample.three_memories |}) as ->.
    { unfold Sample.ledger in Hc. cbn [client collection] in Hc.
      rewrite lookup_singleton_eq in Hc. congruence. }
    split; [rewrite Hh, Hcl; apply lookup_insert_eq|].
    split; [exact Hid|]. split; [exact Hdoc|].
    split; [exact Hrole|]. split; [exact Hts|]. split; [exact Hty|].
    rewrite Hother by discriminate. reflexivity.
Defined.

Lemma search_results_come_from_store_witness :
  exists ms,
    search_relevant_memories Sample.env "thirds" 2 (Some "user") None
      (Sample.ledger Sample.three_memories)
    = (Ret ms, Sample.ledger Sample.three_memories)
    /\ content <$> ms = [PyStr "first"; PyStr "third"]
    /\ (length ms <= Z.to_nat 2)%nat
    /\ Forall (fun m => metadata m !! "role" = Some "user") ms.
Proof.
  set (ms := match (search_relevant_memories Sample.env "thirds" 2
                      (Some "user") None
                      (Sample.ledger Sample.three_memories)).1 with
             | Ret ms => ms
             | Raise _ => []
             end).
  assert (H : search_relevant_memories Sample.env "thirds" 2 (Some "user")
                None (Sample.ledger Sample.three_memories)
              = (Ret ms, Sample.ledger Sample.three_memories))
    by (vm_compute; reflexivity).
  exists ms. split; [exact H|].
  split; [vm_compute; reflexivity|].
  destruct (search_results_come_from_store Sample.env "thirds" 2
              (Some "user") None (Sample.ledger Sample.three_memories) ms
              (Sample.ledger Sample.three_memories) H)
    as (_ & Hlen & c & _ & Hall).
  split; [exact Hlen|].
  eapply Forall_impl; [exact Hall|]. cbv beta.
  intros m (_ & Hrole & _). apply Hrole. reflexivity.
Defined.

Lemma stored_memory_is_found_witness :
  let stored :=
    store_memory Sample.env "u4" "2024-01-03T08:00:00" "user" "fourth" None
      (Sample.ledger Sample.three_memories) in
  stored.1 = Ret "u4"
  /\ (_get_embedding Sample.env "anything at all" stored.2).1 = Ret [15; 1]
  /\ exists ms m,
       search_relevant_memories Sample.env "anything at all" 10 None None
         stored.2 = (Ret ms, stored.2)
       /\ m ∈ ms
       /\ content m = PyStr "fourth"
       /\ metadata m !! "timestamp" = Some "2024-01-03T08:00:00".
Proof.
  cbv zeta. split; [vm_compute; reflexivity|].
  split; [vm_compute; reflexivity|].
  destruct (stored_memory_is_found Sample.env "u4" "2024-01-03T08:00:00"
              "user" "fourth" "anything at all" None 10 [15; 1]
              (Sample.ledger Sample.three_memories)
              (store_memory Sample.env "u4" "2024-01-03T08:00:00" "user"
                 "fourth" None (Sample.ledger Sample.three_memories)).2)
    as (ms & m & Hs & Hin & Hc & Hm).
  - vm_compute; reflexivity.
  - vm_compute; reflexivity.
  - intros c' Hc'. vm_compute in Hc'. injection Hc' as <-.
    vm_compute. lia.
  - exists ms, m. split; [exact Hs|]. split; [exact Hin|].
    split; [exact Hc|]. rewrite Hm. reflexivity.
Defined.

Lemma stored_memory_is_recent_witness :
  let stored :=
    store_memory Sample.env "u4" "2024-01-03T08:00:00" "user" "fourth" None
      (Sample.ledger Sample.three_memories) in
  stored.1 = Ret "u4"
  /\ exists out e,
       get_recent_memories 10 None None stored.2 = (Ret out, stored.2)
       /\ e ∈ out
       /\ recent_content e = PyStr "fourth"
       /\ timestamp e = "2024-01-03T08:00:00".
Proof.
  cbv zeta. split; [vm_compute; reflexivity|].
  destruct (stored_memory_is_recent Sample.env "u4" "2024-01-03T08:00:00"
              "user" "fourth" None 10 (Sample.ledger Sample.three_memories)
              (store_memory Sample.env "u4" "2024-01-03T08:00:00" "user"
                 "fourth" None (Sample.ledger Sample.three_memories)).2)
    as (out & e & Hs & Hin & Hc & Ht).
  - vm_compute; reflexivity.
  - intros c' Hc'. vm_compute in Hc'. injection Hc' as <-.
    vm_compute. discriminate.
  - exists out, e. split; [exact Hs|]. split; [exact Hin|].
    split; [exact Hc|]. rewrite Ht. reflexivity.
Defined.

Lemma get_recent_memories_negative_limit_witness :
  let self := Sample.ledger Sample.three_memories in
  -1 < 0
  /\ (exists out,
        get_recent_memories (-1) None None self = (Ret out, self)
        /\ recent_content <$> out = [PyStr "third"; PyStr "second"])
  /\ exists out dropped,
       get_recent_memories (-1) None None self = (Ret out, self)
       /\ out ++ dropped
          = Py.sorted_reverse String.leb timestamp
              (recent_entry
                 <$> List.filter
                       (fun r => negb (filtered_out None None
                                         (rec_metadata r)))
                       Sample.three_memories)
       /\ length dropped
          = Nat.min (Z.to_nat (- -1)) (length (out ++ dropped)).
Proof.
  cbv zeta. split; [lia|].
  split; [eexists; split; vm_compute; reflexivity|].
  apply (get_recent_memories_negative_limit (-1) None None
           (Sample.ledger Sample.three_memories)
           {| col_metadata := cosine;
              col_records := Sample.three_memories |}).
  - apply lookup_insert_eq.
  - lia.
Defined.

Lemma get_recent_memories_stable_witness :
  let self := Sample.ledger Fixtures.tied_memories in
  0 <= 3
  /\ (exists out,
        get_recent_memories 3 None None self = (Ret out, self)
        /\ recent_content <$> out
           = [PyStr "later"; PyStr "first of the tick";
              PyStr "second of the tick"])
  /\ exists out,
       get_recent_memories 3 None None self = (Ret out, self)
       /\ filter (fun e => timestamp e = "2024-01-01T10:00:00") out
          `prefix_of`
          filter (fun e => timestamp e = "2024-01-01T10:00:00")
            (recent_entry
               <$> List.filter
                     (fun r => negb (filtered_out None None
                                       (rec_metadata r)))
                     Fixtures.tied_memories).
Proof.
  cbv zeta. split; [lia|].
  split; [eexists; split; vm_compute; reflexivity|].
  apply (get_recent_memories_stable 3 None None "2024-01-01T10:00:00"
           (Sample.ledger Fixtures.tied_memories)
           {| col_metadata := cosine;
              col_records := Fixtures.tied_memories |}).
  - apply lookup_insert_eq.
  - lia.
Defined.

Lemma get_memory_stats_counts_witness :
  let self := Sample.ledger Fixtures.anonymous_memories in
  exists st,
    get_memory_stats self = (Ret st, self)
    /\ total_memories st = 4%nat
    /\ memories_by_role st !! "user" = Some 2%nat
    /\ memories_by_role st !! "assistant" = Some 1%nat
    /\ memories_by_role st !! "unknown" = Some 1%nat
    /\ memories_by_role st !! "system" = None
    /\ memories_by_type st !! "text" = Some 4%nat.
Proof.
  cbv zeta. eexists. split; [vm_compute; reflexivity|].
  destruct (get_memory_stats_counts
              (Sample.ledger Fixtures.anonymous_memories) _
              (Sample.ledger Fixtures.anonymous_memories) eq_refl)
    as (_ & c & Hc & Htotal & Hrole & Htype).
  assert (c = {| col_metadata := cosine;
                 col_records := Fixtures.anonymous_memories |}) as ->.
  { unfold Sample.ledger in Hc. cbn [client collection] in Hc.
    rewrite lookup_singleton_eq in Hc. congruence. }
  split; [exact Htotal|].
  split; [exact (Hrole "user")|].
  split; [exact (Hrole "assistant")|].
  split; [exact (Hrole "unknown")|].
  split; [exact (Hrole "system")|exact (Htype "text")].
Defined.

Lemma migrate_keeps_or_empties_witness :
  let self := Sample.ledger Sample.legacy_kv in
  let run := _migrate_if_needed Sample.env self in
  run.1 = Raise (StorageError "document is not text")
  /\ run.2 = Sample.ledger [].
Proof.
  cbv zeta.
  destruct (migrate_keeps_or_empties Sample.env
              (Sample.ledger Sample.legacy_kv) _ _
              MemoryFacts.reference_decoder_no_text
              (surjective_pairing _))
    as [Hsame|(Hr & c & _ & _ & Hrun)].
  - exfalso. apply (f_equal (fun s => client s !! Sample.name)) in Hsame.
    vm_compute in Hsame. discriminate Hsame.
  - split; [exact Hr|]. rewrite Hrun. unfold Sample.ledger.
    cbn [client collection]. rewrite insert_singleton_eq. reflexivity.
Defined.

Lemma other_collections_untouched_witness :
  let self := Fixtures.shared_ledger in
  "notes" <> collection self
  /\ client (clear_memory self).2 !! "notes" = client self !! "notes"
  /\ client (store_memory Sample.env "u4" "2024-01-03T08:00:00" "user"
               "fourth" None self).2 !! "notes"
     = client self !! "notes"
  /\ client (__init__ Sample.env Sample.name Fixtures.shared_database).2
       !! "notes"
     = Fixtures.shared_database !! "notes".
Proof.
  cbv zeta.
  assert (Hne : "notes" <> collection Fixtures.shared_ledger)
    by (vm_compute; discriminate).
  destruct (other_collections_untouched Sample.env "notes"
              Fixtures.shared_ledger Hne)
    as (_ & Hstore & _ & Hclear & Hinit).
  split; [exact Hne|].
  split; [eapply Hclear, surjective_pairing|].
  split; [eapply Hstore, surjective_pairing|].
  apply Hinit. vm_compute; discriminate.
Defined.

End LedgerMore.

(* ===================================================================== *)
(** ** Shell commands: what is run and what is refused *)
(* ===================================================================== *)

Module ShellFacts.
Import Shell.

Section Gate.
Context {C : Type} `{EqDecision C}.
Variable isspace : C -> bool.
Variable char : ascii -> C.

#[local] Abbreviation lit := (lit char).
#[local] Abbreviation split := (split isspace).
#[local] Abbreviation split_from := (split_from isspace).
#[local] Abbreviation strip := (strip isspace).
#[local] Abbreviation lstrip := (lstrip isspace).
#[local] Abbreviation rstrip := (rstrip isspace).

Lemma split_from_cons (word : list C) (c : C) (s : list C) :
  split_from word (c :: s)
  = if isspace c then
      match word with
      | [] => split_from [] s
      | _ :: _ => reverse word :: split_from [] s
      end
    else split_from (c :: word) s.
Proof. done. Qed.

Lemma split_from_rstrip (word s : list C) :
  split_from word (rstrip s) = split_from word s.
Proof.
  revert word. induction s as [|c r IH]; intros word; [done|].
  cbn [Shell.rstrip]. destruct (rstrip r) as [|c' r'] eqn:Er.
  - rewrite (split_from_cons word c r). destruct (isspace c) eqn:Ec.
    + rewrite <- !IH. by destruct word.
    + rewrite <- IH. by rewrite (split_from_cons word c []), Ec.
  - rewrite (split_from_cons word c r), (split_from_cons word c (c' :: r')).
    by rewrite !IH.
Qed.

Lemma split_lstrip (s : list C) : split (lstrip s) = split s.
Proof.
  unfold Shell.split. induction s as [|c r IH]; [done|].
  cbn [Shell.lstrip]. rewrite (split_from_cons [] c r).
  destruct (isspace c) eqn:Ec; [done|].
  by rewrite (split_from_cons [] c r), Ec.
Qed.

Lemma split_strip (s : list C) : split (strip s) = split s.
Proof.
  unfold Shell.strip, Shell.split. rewrite split_from_rstrip.
  apply split_lstrip.
Qed.

Lemma split_from_word (word s : list C) :
  word <> [] -> split_from word s <> [].
Proof.
  revert word. induction s as [|c r IH]; intros word Hw; cbn.
  - by destruct word.
  - destruct (isspace c); [by destruct word|]. by apply IH.
Qed.

Lemma split_nil_blank (s : list C) :
  split s = [] -> Forall (fun c => isspace c = true) s.
Proof.
  unfold Shell.split. induction s as [|c r IH]; [constructor|].
  rewrite (split_from_cons [] c r). destruct (isspace c) eqn:Ec.
  - intros Hs. constructor; [done|by apply IH].
  - intros Hs. by apply split_from_word in Hs.
Qed.

Lemma lstrip_blank (s : list C) :
  Forall (fun c => isspace c = true) s -> lstrip s = [].
Proof. induction 1 as [|c r Hc _ IH]; [done|]. cbn. by rewrite Hc. Qed.

Lemma split_nil_strip (s : list C) : split s = [] -> strip s = [].
Proof.
  intros Hs. unfold Shell.strip.
  by rewrite (lstrip_blank _ (split_nil_blank _ Hs)).
Qed.

Lemma split_blank (s : list C) :
  Forall (fun c => isspace c = true) s -> split s = [].
Proof.
  unfold Shell.split. induction 1 as [|c r Hc _ IH]; [done|].
  cbn. by rewrite Hc.
Qed.

Lemma lit_nonempty (s : string) : s <> ""%string -> lit s <> [].
Proof. by destruct s. Qed.

Lemma nil_not_safe : [] ∉ lit <$> safe_commands.
Proof.
  intros Hin. apply list_elem_of_fmap in Hin as (s & Hs & Hin).
  destruct s; [|done].
  apply list_elem_of_In in Hin. cbn in Hin. intuition discriminate.
Qed.

(** the first word decides *)
Lemma is_safe_first_word (command w : list C) :
  head (split command) = Some w ->
  _is_safe_command isspace char command
  = bool_decide (w ∈ lit <$> safe_commands).
Proof.
  intros Hw. unfold _is_safe_command.
  destruct (strip command) as [|c r] eqn:Es.
  - rewrite <- split_strip, Es in Hw. done.
  - rewrite <- Es, split_strip, Hw. done.
Qed.

Lemma is_safe_blank (command : list C) :
  split command = [] -> _is_safe_command isspace char command = false.
Proof.
  intros Hs. unfold _is_safe_command. rewrite (split_nil_strip _ Hs).
  apply bool_decide_eq_false. apply nil_not_safe.
Qed.

(** the refusal of a first word that is not listed *)
Lemma refuses_unlisted (os : OS) (command w : list C) :
  head (split command) = Some w ->
  w ∉ lit <$> safe_commands ->
  execute_command isspace char os command
  = (lit "Error: Command '" ++ w
       ++ lit "' is not in the allowed list. For security reasons, I can only execute basic shell commands.",
     []).
Proof.
  intros Hw Hn. unfold execute_command.
  destruct command as [|c r]; [done|].
  rewrite (is_safe_first_word _ _ Hw), bool_decide_eq_false_2 by done.
  cbn [negb]. destruct (split (c :: r)); [done|]. by injection Hw as ->.
Qed.

(** X10. A command whose first word is not one of the allowed commands
    is refused: [execute_command] answers with the refusal that names that
    word and asks nothing of the operating system, neither a process nor a
    change of directory. *)
Theorem unlisted_command_is_never_run (os : OS) (command w : list C) :
  head (split command) = Some w ->
  w ∉ lit <$> safe_commands ->
  execute_command isspace char os command
  = (lit "Error: Command '" ++ w
       ++ lit "' is not in the allowed list. For security reasons, I can only execute basic shell commands.",
     []).
Proof. exact (refuses_unlisted os command w). Qed.

(** X11. A command of white space only is not empty, so it passes the
    first test, and it has no first word: the refusal cannot be written,
    the [IndexError] is caught by the outer handler, and the answer is
    ["Error executing command: list index out of range"].  Nothing is
    run. *)
Theorem blank_command_reports_index_error (os : OS) (command : list C) :
  command <> [] ->
  Forall (fun c => isspace c = true) command ->
  execute_command isspace char os command
  = (lit "Error executing command: list index out of range", []).
Proof.
  intros Hne Hblank. unfold execute_command.
  destruct command as [|c r]; [done|].
  pose proof (split_blank _ Hblank) as Hs.
  rewrite (is_safe_blank _ Hs), Hs. cbn [negb].
  unfold lit, Shell.lit, index_error. by rewrite <- fmap_app.
Qed.

Section Ascii.
Hypothesis char_inj : forall a b, char a = char b -> a = b.
Hypothesis isspace_ascii :
  forall a, (N_of_ascii a < 128)%N -> isspace (char a) = ascii_space a.

Lemma lit_inj (s1 s2 : string) : lit s1 = lit s2 -> s1 = s2.
Proof.
  unfold lit, Shell.lit. revert s2.
  induction s1 as [|a s1 IH]; intros [|b s2]; cbn; try done.
  intros [= Hab Hs]. f_equal; [by apply char_inj|by apply IH].
Qed.

Lemma cd_not_safe : lit "cd" ∉ lit <$> safe_commands.
Proof.
  intros Hin. apply list_elem_of_fmap in Hin as (s & Hs & Hin).
  apply lit_inj in Hs. subst s.
  apply list_elem_of_In in Hin. cbn in Hin. intuition discriminate.
Qed.

Lemma cd_first_word (command : list C) :
  startswith command (lit "cd ") = true ->
  head (split command) = Some (lit "cd").
Proof.
  unfold startswith. intros Hs. apply bool_decide_eq_true in Hs.
  destruct command as [|c1 [|c2 [|c3 rest]]]; try discriminate Hs.
  cbn in Hs. injection Hs as -> -> ->.
  unfold Shell.split. cbn [Shell.split_from].
  rewrite !isspace_ascii by (vm_compute; reflexivity).
  cbn. reflexivity.
Qed.

(** X12. [execute_command] never changes the directory.  The branch that
    calls [os.chdir] is behind the test of the allowed commands, and [cd]
    is not one of them: a command that starts with ["cd "] is refused like
    any unlisted command, and no command at all leads to a [Chdir]. *)
Theorem cd_is_never_executed (os : OS) (command : list C) :
  (forall path, Chdir path ∉ (execute_command isspace char os command).2)
  /\ (startswith command (lit "cd ") = true ->
      execute_command isspace char os command
      = (lit "Error: Command '" ++ lit "cd"
           ++ lit "' is not in the allowed list. For security reasons, I can only execute basic shell commands.",
         [])).
Proof.
  assert (Hcd : startswith command (lit "cd ") = true ->
                execute_command isspace char os command
                = (lit "Error: Command '" ++ lit "cd"
                     ++ lit "' is not in the allowed list. For security reasons, I can only execute basic shell commands.",
                   [])).
  { intros Hs. apply refuses_unlisted;
      [by apply cd_first_word|apply cd_not_safe]. }
  split; [|done]. intros path Hin.
  destruct (startswith command (lit "cd ")) eqn:Hs.
  - rewrite Hcd in Hin by done. by apply elem_of_nil in Hin.
  - unfold execute_command in Hin. rewrite Hs in Hin.
    destruct command as [|c r]; [by apply elem_of_nil in Hin|].
    destruct (negb _).
    + destruct (split (c :: r)); by apply elem_of_nil in Hin.
    + destruct (popen os (c :: r)) as [e|[out [|e err]]];
        cbn [snd] in Hin; apply list_elem_of_singleton in Hin; done.
Qed.

(** X13. Only the first word is checked.  When the first word of a
    command is an allowed command, the whole command line, with whatever
    follows that word, is handed to one shell process, and the answer is
    read off that process: its error stream if it wrote to it, else its
    output, both stripped. *)
Theorem listed_command_runs_whole_line (os : OS) (command w : list C) :
  head (split command) = Some w ->
  w ∈ lit <$> safe_commands ->
  execute_command isspace char os command
  = (match popen os command with
     | inr (stdout, []) => strip stdout
     | inr (_, stderr) => lit "Error: " ++ strip stderr
     | inl e => lit "Error executing command: " ++ e
     end,
     [Popen command]).
Proof.
  intros Hw Hin. unfold execute_command.
  destruct command as [|c r]; [done|].
  rewrite (is_safe_first_word _ _ Hw), bool_decide_eq_true_2 by done.
  cbn [negb].
  destruct (startswith (c :: r) (lit "cd ")) eqn:Hs.
  - apply cd_first_word in Hs. rewrite Hw in Hs. injection Hs as ->.
    by apply cd_not_safe in Hin.
  - by destruct (popen os (c :: r)) as [e|[out [|e err]]].
Qed.

End Ascii.

End Gate.

Lemma ascii_space_ok (a : ascii) :
  (N_of_ascii a < 128)%N -> ascii_space (id a) = ascii_space a.
Proof. done. Qed.

Lemma unlisted_command_is_never_run_witness :
  let command := String.list_ascii_of_string "  sudo rm -rf /tmp/x" in
  let w := String.list_ascii_of_string "sudo" in
  head (split ascii_space command) = Some w
  /\ (w ∉ (lit id <$> safe_commands))
  /\ execute_command ascii_space id sample_os command
     = (String.list_ascii_of_string
          "Error: Command 'sudo' is not in the allowed list. For security reasons, I can only execute basic shell commands.",
        []).
Proof.
  cbv zeta.
  assert (Hn : String.list_ascii_of_string "sudo" ∉ (lit id <$> safe_commands)).
  { intros Hin. apply list_elem_of_In in Hin. cbn in Hin.
    intuition discriminate. }
  split; [reflexivity|]. split; [exact Hn|].
  rewrite (unlisted_command_is_never_run ascii_space id sample_os
             (String.list_ascii_of_string "  sudo rm -rf /tmp/x")
             (String.list_ascii_of_string "sudo") eq_refl Hn).
  reflexivity.
Defined.

Lemma blank_command_reports_index_error_witness :
  let command := String.list_ascii_of_string "   " in
  command <> []
  /\ Forall (fun c => ascii_space c = true) command
  /\ execute_command ascii_space id sample_os command
     = (String.list_ascii_of_string
          "Error executing command: list index out of range", []).
Proof.
  cbv zeta. split; [discriminate|].
  assert (Hb : Forall (fun c => ascii_space c = true)
                 (String.list_ascii_of_string "   "))
    by (repeat constructor).
  split; [exact Hb|].
  apply (blank_command_reports_index_error ascii_space id sample_os
           (String.list_ascii_of_string "   ")); [discriminate|exact Hb].
Defined.

Lemma cd_is_never_executed_witness :
  let command := String.list_ascii_of_string "cd /tmp" in
  startswith command (lit id "cd ") = true
  /\ execute_command ascii_space id sample_os command
     = (String.list_ascii_of_string
          "Error: Command 'cd' is not in the allowed list. For security reasons, I can only execute basic shell commands.",
        []).
Proof.
  cbv zeta. split; [reflexivity|].
  destruct (cd_is_never_executed ascii_space id (fun a b H => H)
              ascii_space_ok sample_os
              (String.list_ascii_of_string "cd /tmp")) as [_ Hcd].
  rewrite Hcd by reflexivity. reflexivity.
Defined.

Lemma listed_command_runs_whole_line_witness :
  let command := String.list_ascii_of_string "ls ; rm -rf /tmp/x" in
  let w := String.list_ascii_of_string "ls" in
  head (split ascii_space command) = Some w
  /\ w ∈ (lit id <$> safe_commands)
  /\ execute_command ascii_space id sample_os command
     = (String.list_ascii_of_string "out", [Popen command]).
Proof.
  cbv zeta.
  assert (Hin : String.list_ascii_of_string "ls" ∈ (lit id <$> safe_commands))
    by (apply list_elem_of_In; cbn; auto).
  split; [reflexivity|]. split; [exact Hin|].
  rewrite (listed_command_runs_whole_line ascii_space id (fun a b H => H)
             ascii_space_ok sample_os
             (String.list_ascii_of_string "ls ; rm -rf /tmp/x")
             (String.list_ascii_of_string "ls") eq_refl Hin).
  reflexivity.
Defined.

End ShellFacts.

(* ===================================================================== *)
(** ** The saved conversation *)
(* ===================================================================== *)

Module PersistFacts.
Import Assistant Persist.

(** the slice of [_load_context] and the guarded slice of [_trim_history] *)
Lemma load_context_slice (saved : list message) (self : ShellAssistant) :
  _load_context (Holds saved) self = _trim_history (set_history saved self).
Proof.
  unfold _load_context, _trim_history, set_history.
  cbn [history max_history].
  destruct (Z.gtb_spec (Z.of_nat (length saved)) (max_history self * 2))
    as [Hgt|Hle]; [done|].
  f_equal. unfold Py.slice_from.
  destruct (- max_history self * 2 <? 0) eqn:E.
  - replace (Z.max _ 0) with 0 by lia. done.
  - replace (Z.min _ _) with 0 by lia. done.
Qed.

(** X14. Loading cuts like trimming.  For every saved list and every
    [max_history], zero and negative values included, the history that
    [_load_context] leaves is the one [_trim_history] leaves when it is
    given the saved list: the slice without the length test and the slice
    behind it agree. *)
Theorem load_context_trims (saved : list message) (self : ShellAssistant) :
  _load_context (Holds saved) self = _trim_history (set_history saved self).
Proof. exact (load_context_slice saved self). Qed.

(** X15. What a turn saves is what the next start loads.  With
    [max_history] not negative, saving the trimmed history and loading it
    into an assistant with the same [max_history] gives back exactly the
    trimmed history. *)
Theorem save_then_load_restores_history (self other : ShellAssistant)
    (file : context_file) :
  0 <= max_history self ->
  max_history other = max_history self ->
  history (_load_context (_save_context true (_trim_history self) file) other)
  = history (_trim_history self).
Proof.
  intros Hmh Hsame. unfold _save_context. rewrite load_context_slice.
  destruct (decide (max_history self = 0)) as [H0|Hpos].
  - unfold _trim_history at 1. cbn [history max_history set_history].
    rewrite Hsame, H0.
    destruct (_ >? _); cbn [history]; [|done].
    apply PyFacts.slice_from_zero.
  - assert (H1 : 1 <= max_history self) by lia.
    destruct (AssistantFacts.trim_history_positive self H1)
      as (Hm & d & _ & Hlen & _).
    unfold _trim_history at 1. cbn [history max_history set_history].
    rewrite Hsame. destruct (_ >? _) eqn:E; [lia|done].
Qed.

Lemma save_then_load_restores_history_witness :
  let self :=
    {| history := Sample.one_message ++ Sample.one_message
                    ++ Sample.one_message;
       max_history := 1 |} in
  let fresh := {| history := []; max_history := 1 |} in
  0 <= max_history self
  /\ max_history fresh = max_history self
  /\ history (_trim_history self) = Sample.one_message ++ Sample.one_message
  /\ history (_load_context
                (_save_context true (_trim_history self) NoFile) fresh)
     = history (_trim_history self).
Proof.
  cbv zeta. split; [cbn; lia|]. split; [reflexivity|].
  split; [reflexivity|].
  apply (save_then_load_restores_history
           {| history := Sample.one_message ++ Sample.one_message
                           ++ Sample.one_message;
              max_history := 1 |}
           {| history := []; max_history := 1 |} NoFile);
    [cbn; lia|reflexivity].
Defined.

End PersistFacts.

(* ===================================================================== *)
(** ** The streamed reply: what is yielded *)
(* ===================================================================== *)

Module StreamFacts.
Import Stream.

Section Lines.
Variable wire : Wire.

Lemma data_line (data : string) :
  Py.startswith ("data: " +:+ data) "data: " = true
  /\ string_drop 6 ("data: " +:+ data) = data.
Proof.
  split; [|done]. unfold Py.startswith. cbn.
  repeat (destruct (ascii_dec _ _) as [_|Hne]; [|done]).
  by destruct data.
Qed.

Lemma on_line_data (chunk data : string) :
  chunk <> ""%string ->
  decode_utf8 wire chunk = Some ("data: " +:+ data) ->
  on_line wire chunk
  = if String.eqb data "[DONE]" then Stop
    else match wire_loads wire data with
         | Some event => on_event wire event
         | None => Skip
         end.
Proof.
  intros Hne Hd. unfold on_line.
  destruct (String.eqb_spec chunk "") as [|_]; [done|].
  rewrite Hd. destruct (data_line data) as [-> ->]. done.
Qed.

Lemma consume_app (before after : list string) (failure : option string) :
  consume wire (before ++ after) failure
  = match consume wire before None with
    | (yielded, Finished) =>
        if forallb (fun chunk => match on_line wire chunk with
                                 | Stop => false
                                 | _ => true
                                 end) before
        then (yielded ++ (consume wire after failure).1,
              (consume wire after failure).2)
        else (yielded, Finished)
    | (yielded, Escaped e) => (yielded, Escaped e)
    end.
Proof.
  induction before as [|chunk before IH]; cbn [app consume forallb].
  - by destruct (consume wire after failure).
  - destruct (on_line wire chunk); cbn [andb]; try done.
    rewrite IH. destruct (consume wire before None) as [ys [|e]]; [|done].
    by destruct (forallb _ before).
Qed.

(** X16. Nothing is read after the end marker.  Once a line decodes to
    ["data: [DONE]"], the lines after it, and a failure of the connection
    after it, change nothing: the generator yields what the lines before
    the marker yield and ends as they end. *)
Theorem stream_stops_at_done (before after : list string)
    (failure : option string) (done_line : string) :
  done_line <> ""%string ->
  decode_utf8 wire done_line = Some "data: [DONE]"%string ->
  _stream_response wire (before ++ done_line :: after, failure)
  = _stream_response wire (before, None).
Proof.
  intros Hne Hd. unfold _stream_response. cbn [fst snd].
  assert (Hstop : on_line wire done_line = Stop).
  { by rewrite (on_line_data done_line "[DONE]" Hne Hd). }
  rewrite consume_app. cbn [consume]. rewrite Hstop. cbn [fst snd].
  destruct (consume wire before None) as [ys [|e]]; [|done].
  destruct (forallb _ before); [|done]. by rewrite app_nil_r.
Qed.

(** X17. Noise is skipped.  An empty line, a line that does not start
    with ["data: "] (a comment, a keep-alive) and a [data] line whose
    payload is not JSON yield nothing and do not end the stream: the
    generator behaves as if the line were not there. *)
Theorem stream_skips_noise (before after : list string)
    (failure : option string) (noise : string) :
  noise = ""%string
  \/ (exists text,
        decode_utf8 wire noise = Some text
        /\ (Py.startswith text "data: " = false
            \/ (string_drop 6 text <> "[DONE]"%string
                /\ wire_loads wire (string_drop 6 text) = None))) ->
  _stream_response wire (before ++ noise :: after, failure)
  = _stream_response wire (before ++ after, failure).
Proof.
  intros Hnoise. unfold _stream_response. cbn [fst snd].
  assert (Hskip : on_line wire noise = Skip).
  { unfold on_line. destruct (String.eqb_spec noise "") as [|Hne]; [done|].
    destruct Hnoise as [|(text & -> & [->|[Hd ->]])]; [done|done|].
    destruct (Py.startswith text "data: "); [|done].
    by destruct (String.eqb_spec (string_drop 6 text) "[DONE]"). }
  rewrite !(consume_app before). cbn [consume]. by rewrite Hskip.
Qed.

(** X18. The contents come out in order.  When every line is a [data]
    line whose JSON object has a first choice with a [delta] whose
    [content] is a non-empty string, the generator yields exactly those
    strings, in the order of the lines; if the connection then fails, the
    text of the failure is yielded after them as one more chunk. *)
Theorem stream_yields_contents (lines texts : list string)
    (failure : option string) :
  Forall2
    (fun line text =>
       line <> ""%string /\ text <> ""%string
       /\ exists data event first more delta,
            decode_utf8 wire line = Some ("data: " +:+ data)
            /\ data <> "[DONE]"%string
            /\ wire_loads wire data = Some (PyDict event)
            /\ dict_get "choices" event
               = Some (PyList (PyDict first :: more))
            /\ dict_get "delta" first = Some (PyDict delta)
            /\ dict_get "content" delta = Some (PyStr text))
    lines texts ->
  _stream_response wire (lines, failure)
  = (texts
       ++ match failure with
          | Some e =>
              [Memory.newline +:+ "Error communicating with API: " +:+ e]
          | None => []
          end,
     Finished).
Proof.
  unfold _stream_response. cbn [fst snd].
  induction 1 as [|line text lines texts Hline _ IH]; cbn [consume app].
  - by destruct failure.
  - destruct Hline
      as (Hne & Ht & data & event & first & more & delta & Hd & Hdone
            & Hj & Hc & Hdl & Hct).
    rewrite (on_line_data line data Hne Hd).
    destruct (String.eqb_spec data "[DONE]") as [|_]; [done|].
    rewrite Hj. cbn [on_event]. rewrite Hc, Hdl. cbn [default]. unfold id.
    rewrite Hct. cbn [default id truth].
    destruct (String.eqb_spec text "") as [|_]; [done|]. cbn [negb].
    by rewrite IH.
Qed.

(** X19. A payload that is not an object can end the generator with an
    exception that no handler catches.  When a [data] line carries a JSON
    number, boolean or [null], the test ["choices" in event] raises
    [TypeError]: it is neither a [JSONDecodeError] nor a
    [RequestException], so it escapes, after what the earlier lines
    yielded. *)
Theorem stream_scalar_payload_escapes (line data : string)
    (event : pyval) (after : list string) (failure : option string) :
  line <> ""%string ->
  decode_utf8 wire line = Some ("data: " +:+ data) ->
  data <> "[DONE]"%string ->
  wire_loads wire data = Some event ->
  (event = PyNone \/ (exists b, event = PyBool b)
   \/ exists lexeme, event = PyNum lexeme) ->
  _stream_response wire (line :: after, failure)
  = ([], Escaped EscTypeError).
Proof.
  intros Hne Hd Hdone Hj Hev. unfold _stream_response. cbn [fst snd consume].
  rewrite (on_line_data line data Hne Hd).
  destruct (String.eqb_spec data "[DONE]") as [|_]; [done|].
  rewrite Hj. by destruct Hev as [->|[[b ->]|[lexeme ->]]].
Qed.

End Lines.


Lemma stream_stops_at_done_witness :
  Talk.done_line <> ""%string
  /\ decode_utf8 Talk.ascii_wire Talk.done_line = Some "data: [DONE]"%string
  /\ _stream_response Talk.ascii_wire
       ([Talk.content_line "Hel"] ++ Talk.done_line
          :: [Talk.content_line "never read"; "data: 42"%string],
        Some "connection reset"%string)
     = (["Hel"%string], Finished).
Proof.
  split; [done|]. split; [reflexivity|].
  rewrite (stream_stops_at_done Talk.ascii_wire [Talk.content_line "Hel"]
             [Talk.content_line "never read"; "data: 42"%string]
             (Some "connection reset"%string) Talk.done_line);
    [vm_compute; reflexivity|done|reflexivity].
Defined.

Lemma stream_skips_noise_witness :
  _stream_response Talk.ascii_wire
    ([Talk.content_line "Hel"] ++ Talk.keep_alive
       :: [Talk.content_line "lo"], None)
  = (["Hel"; "lo"]%string, Finished).
Proof.
  rewrite (stream_skips_noise Talk.ascii_wire [Talk.content_line "Hel"]
             [Talk.content_line "lo"] None Talk.keep_alive).
  - vm_compute; reflexivity.
  - right. exists Talk.keep_alive. split; [reflexivity|]. left.
    vm_compute; reflexivity.
Defined.

Lemma stream_yields_contents_witness :
  _stream_response Talk.ascii_wire
    ([Talk.content_line "Hel"; Talk.content_line "lo"],
     Some "connection reset"%string)
  = (["Hel"; "lo";
      Memory.newline +:+ "Error communicating with API: connection reset"]
       %string,
     Finished).
Proof.
  apply (stream_yields_contents Talk.ascii_wire
           [Talk.content_line "Hel"; Talk.content_line "lo"]
           ["Hel"; "lo"]%string (Some "connection reset"%string)).
  repeat constructor; try done.
  - exists (Talk.content_event "Hel"). do 4 eexists.
    split; [reflexivity|]. split; [done|].
    split; [vm_compute; reflexivity|]. done.
  - exists (Talk.content_event "lo"). do 4 eexists.
    split; [reflexivity|]. split; [done|].
    split; [vm_compute; reflexivity|]. done.
Defined.

Lemma stream_scalar_payload_escapes_witness :
  _stream_response Talk.ascii_wire
    (["data: 42"%string; Talk.content_line "lost"], None)
  = ([], Escaped EscTypeError).
Proof.
  apply (stream_scalar_payload_escapes Talk.ascii_wire "data: 42" "42"
           (PyNum "42") [Talk.content_line "lost"] None);
    [done|reflexivity|done|vm_compute; reflexivity|].
  right. right. by eexists.
Defined.

End StreamFacts.

(* ===================================================================== *)
(** ** A turn of conversation: what is recorded, and when *)
(* ===================================================================== *)

Module ChatFacts.
Import Assistant Chroma Memory Persist Stream Chat.

Section Turns.
Context {F : Type} (world : World F).

Implicit Types (self : Session F) (vm : VectorMemory F).

Lemma set_vector_memory_same self :
  set_vector_memory (vector_memory self) self = self.
Proof. by destruct self. Qed.

Lemma append_twice (a : ShellAssistant) (m1 m2 : message) :
  set_history (history (set_history (history a ++ [m1]) a) ++ [m2])
    (set_history (history a ++ [m1]) a)
  = set_history (history a ++ [m1; m2]) a.
Proof.
  unfold set_history. cbn [history max_history]. by rewrite <- app_assoc.
Qed.

(** what can go wrong while the retrieved memories are written out *)
Lemma render_context_error (mems : list (scored_memory F)) (e : error) :
  render_context world mems = inl e ->
  e = KeyError "role" \/ e = NotSliceable.
Proof.
  assert (Hone : forall mem e, render_memory world mem = inl e ->
                   e = KeyError "role" \/ e = NotSliceable).
  { intros mem e0. unfold render_memory.
    destruct (metadata mem !! "role"); [|intros [= <-]; by left].
    destruct (content mem); intros [= <-]; by right. }
  assert (Hall : forall ms e, render_memories world ms = inl e ->
                   e = KeyError "role" \/ e = NotSliceable).
  { induction ms as [|mem ms IH]; intros e0; cbn [render_memories]; [done|].
    destruct (render_memory world mem) eqn:Hm.
    - intros [= <-]. eauto.
    - destruct (render_memories world ms) eqn:Hms; [|done].
      intros [= <-]. eauto. }
  unfold render_context. destruct mems; [done|].
  destruct (render_memories world _) eqn:Hms; [|done].
  intros [= <-]. eauto.
Qed.

(** what the retrieved memories are written out as *)
Lemma render_context_inv (mems : list (scored_memory F)) (context : string) :
  render_context world mems = inr context ->
  exists lines,
    Forall2
      (fun mem line =>
         exists role_ shown,
           Memory.metadata mem !! "role" = Some role_
           /\ match Memory.content mem with
              | PyStr s => shown = str_head world 150 s
              | PyList items =>
                  shown = py_format world (PyList (take 150 items))
              | _ => False
              end
           /\ line = ("- " +:+ role_ +:+ ": " +:+ shown +:+ "...")%string)
      mems lines
    /\ context
       = match mems with
         | [] => ""%string
         | _ :: _ =>
             ("相关历史对话:" +:+ newline +:+ String.concat newline lines
                +:+ newline +:+ newline)%string
         end.
Proof.
  assert (Hall : forall ms lines,
            render_memories world ms = inr lines ->
            Forall2
              (fun mem line =>
                 exists role_ shown,
                   Memory.metadata mem !! "role" = Some role_
                   /\ match Memory.content mem with
                      | PyStr s => shown = str_head world 150 s
                      | PyList items =>
                          shown = py_format world (PyList (take 150 items))
                      | _ => False
                      end
                   /\ line
                      = ("- " +:+ role_ +:+ ": " +:+ shown +:+ "...")%string)
              ms lines).
  { induction ms as [|mem ms IH]; intros lines; cbn [render_memories].
    - intros [= <-]. constructor.
    - destruct (render_memory world mem) as [e|line] eqn:Hm; [done|].
      destruct (render_memories world ms) as [e|ls] eqn:Hms; [done|].
      intros [= <-]. constructor; [|by apply IH].
      unfold render_memory in Hm.
      destruct (Memory.metadata mem !! "role") as [role_|]; [|done].
      destruct (Memory.content mem); try done; injection Hm as <-;
        eexists _, _; (split; [reflexivity|]); split; reflexivity. }
  unfold render_context. destruct mems as [|mem mems].
  - intros [= <-]. exists []. split; [constructor|done].
  - destruct (render_memories world (mem :: mems)) as [e|lines] eqn:Hms;
      [done|].
    intros [= <-]. exists lines. split; [by apply Hall|done].
Qed.

(** retrieval reads the ledger and leaves it as it is *)
Lemma retrieval_inv (prompt : string) self r vm :
  (if enable_vector_memory self && (str_len world prompt >? 10)
   then search_relevant_memories (ledger_env world) prompt 3 None None
          (vector_memory self)
   else (Ret [], vector_memory self)) = (r, vm) ->
  vm = vector_memory self
  /\ (enable_vector_memory self && (str_len world prompt >? 10) = false ->
      r = Ret []).
Proof.
  destruct (_ && _).
  - intros H. by apply MemoryFacts.search_inv in H as [-> _].
  - by intros [= <- <-].
Qed.

(** one [store_memory] of a turn: it raises and changes nothing, or it
    adds the record *)
Lemma turn_store_inv (memory_id now role_ text kind : string) vm r vm' :
  store_memory (ledger_env world) memory_id now role_ text
    (Some {[ "type" := kind ]}) vm = (r, vm') ->
  (exists e, r = Raise e /\ vm' = vm)
  \/ (exists c rec_,
        r = Ret memory_id
        /\ client vm !! collection vm = Some c
        /\ vm' = grown vm c [rec_]
        /\ rec_id rec_ = memory_id
        /\ rec_document rec_ = PyStr text
        /\ rec_metadata rec_ !! "role" = Some role_
        /\ rec_metadata rec_ !! "timestamp" = Some now
        /\ rec_metadata rec_ !! "type" = Some kind).
Proof.
  intros H. apply MemoryFacts.store_inv in H
    as [(e & -> & ->)|(c & v & -> & Hc & _ & ->)]; [left; eauto|].
  right. eexists c, _. repeat split; done.
Qed.

Lemma grown_grown vm (c : Collection F) (r1 r2 : record F) :
  client vm !! collection vm = Some c ->
  client (grown vm c [r1]) !! collection (grown vm c [r1])
  = Some {| col_metadata := col_metadata c;
            col_records := col_records c ++ [r1] |}
  /\ grown (grown vm c [r1])
       {| col_metadata := col_metadata c;
          col_records := col_records c ++ [r1] |} [r2]
     = grown vm c [r1; r2].
Proof.
  intros _. unfold grown. cbn [client collection col_metadata col_records].
  split; [apply lookup_insert_eq|].
  by rewrite insert_insert_eq, <- app_assoc.
Qed.

(** what a turn that returns has done *)
Lemma chat_return_inv (first second : string * string)
    (prompt : string) self (reply : string) self' :
  chat world first second prompt self = (inr reply, self') ->
  exists context chunks,
    let asked := {| Assistant.role := "user";
                    Assistant.content :=
                      context +:+ question_header +:+ prompt |} in
    let answered := {| Assistant.role := "assistant";
                       Assistant.content := reply |} in
    (if enable_vector_memory self && (str_len world prompt >? 10)
     then
       exists mems lines,
         search_relevant_memories (ledger_env world) prompt 3 None None
           (vector_memory self) = (Ret mems, vector_memory self)
         /\ Forall2
              (fun mem line =>
                 exists role_ shown,
                   Memory.metadata mem !! "role" = Some role_
                   /\ match Memory.content mem with
                      | PyStr s => shown = str_head world 150 s
                      | PyList items =>
                          shown = py_format world (PyList (take 150 items))
                      | _ => False
                      end
                   /\ line
                      = ("- " +:+ role_ +:+ ": " +:+ shown +:+ "...")%string)
              mems lines
         /\ context
            = match mems with
              | [] => ""%string
              | _ :: _ =>
                  ("相关历史对话:" +:+ newline
                     +:+ String.concat newline lines +:+ newline
                     +:+ newline)%string
              end
     else context = ""%string)
    /\ _stream_response (wire world)
         (post world (history (core self) ++ [asked])) = (chunks, Finished)
    /\ reply = String.concat "" chunks
    /\ core self'
       = (if String.eqb reply ""
          then set_history (history (core self) ++ [asked]) (core self)
          else _trim_history
                 (set_history (history (core self) ++ [asked; answered])
                    (core self)))
    /\ context_file self'
       = (if String.eqb reply "" || negb (writable world)
          then context_file self
          else Holds (history (core self')))
    /\ enable_vector_memory self' = enable_vector_memory self
    /\ if enable_vector_memory self then
         exists c question answer,
           client (vector_memory self) !! collection (vector_memory self)
           = Some c
           /\ vector_memory self'
              = grown (vector_memory self) c [question; answer]
           /\ rec_id question = first.1
           /\ rec_document question = PyStr prompt
           /\ rec_metadata question !! "role" = Some "user"%string
           /\ rec_metadata question !! "timestamp" = Some first.2
           /\ rec_metadata question !! "type" = Some "query"%string
           /\ rec_id answer = second.1
           /\ rec_document answer = PyStr reply
           /\ rec_metadata answer !! "role" = Some "assistant"%string
           /\ rec_metadata answer !! "timestamp" = Some second.2
           /\ rec_metadata answer !! "type" = Some "response"%string
       else vector_memory self' = vector_memory self.
Proof.
  unfold chat.
  destruct (if enable_vector_memory self && _ then _ else _)
    as [searched vm0] eqn:Hs.
  pose proof Hs as Hsearch.
  apply retrieval_inv in Hs as [-> Hnone].
  rewrite set_vector_memory_same.
  destruct searched as [mems|e]; [|done].
  destruct (render_context world mems) as [e|context] eqn:Hctx; [done|].
  destruct (_stream_response _ _) as [chunks ended] eqn:Hstream.
  destruct ended as [|e]; [|done].
  intros H. exists context, chunks. cbv zeta.
  split.
  { destruct (enable_vector_memory self && (str_len world prompt >? 10)).
    - destruct (render_context_inv mems context Hctx) as (lines & Hl & ->).
      by exists mems, lines.
    - specialize (Hnone eq_refl). injection Hnone as ->.
      cbn in Hctx. by injection Hctx as <-. }
  split; [exact Hstream|].
  cbn [append_message set_core enable_vector_memory vector_memory
         core context_file] in H.
  destruct (enable_vector_memory self) eqn:Hen.
  - destruct (store_memory _ _ _ "user" _ _ _) as [[id1|e1] vm1] eqn:H1;
      [|done].
    destruct (store_memory _ _ _ "assistant" _ _ _) as [[id2|e2] vm2] eqn:H2;
      [|done].
    apply turn_store_inv in H1
      as [(e & ? & _)|(c & q & _ & Hc & -> & Hq)]; [done|].
    apply turn_store_inv in H2
      as [(e & ? & _)|(c1 & a & _ & Hc1 & -> & Ha)]; [done|].
    destruct (grown_grown (vector_memory self) c q a Hc) as [Hc' Hgg].
    rewrite Hc' in Hc1. injection Hc1 as <-. rewrite Hgg in H.
    injection H as <- <-.
    split; [done|].
    destruct (String.eqb (String.concat "" chunks) "") eqn:He;
      cbn [trim_and_save append_message set_core set_vector_memory
             set_context_file core context_file enable_vector_memory
             vector_memory _save_context orb].
    + repeat (split; [done|]). exists c, q, a. tauto.
    + rewrite !append_twice. split; [done|].
      split; [by destruct (writable world)|]. split; [done|].
      exists c, q, a. tauto.
  - injection H as <- <-. split; [done|].
    destruct (String.eqb (String.concat "" chunks) "") eqn:He;
      cbn [trim_and_save append_message set_core set_vector_memory
             set_context_file core context_file enable_vector_memory
             vector_memory _save_context orb].
    + by repeat (split; [done|]).
    + rewrite !append_twice. split; [done|].
      split; [by destruct (writable world)|]. split; [done|].
      done.
Qed.

(** X20. What a turn that returns has recorded.  The history gained the
    question, written as the retrieved context, the header and the prompt,
    and, when the reply is not empty, the reply; only then was it trimmed
    and saved.  The context is empty when vector memory is off, the prompt
    has at most ten characters or the search found nothing; otherwise it
    is the heading, one line for each memory the search returned, in the
    order of the search (a dash, the role, a colon, the first 150
    characters of the content and three dots), and an empty line.  With vector memory the ledger gained exactly two records,
    in this order: the prompt as typed, without the context, with role
    [user] and type [query], and the reply, empty or not, with role
    [assistant] and type [response].  The reply is the concatenation of
    what the stream yielded. *)
Theorem chat_reply_recorded (first second : string * string)
    (prompt : string) self (reply : string) self' :
  chat world first second prompt self = (inr reply, self') ->
  exists context chunks,
    let asked := {| Assistant.role := "user";
                    Assistant.content :=
                      context +:+ question_header +:+ prompt |} in
    let answered := {| Assistant.role := "assistant";
                       Assistant.content := reply |} in
    (if enable_vector_memory self && (str_len world prompt >? 10)
     then
       exists mems lines,
         search_relevant_memories (ledger_env world) prompt 3 None None
           (vector_memory self) = (Ret mems, vector_memory self)
         /\ Forall2
              (fun mem line =>
                 exists role_ shown,
                   Memory.metadata mem !! "role" = Some role_
                   /\ match Memory.content mem with
                      | PyStr s => shown = str_head world 150 s
                      | PyList items =>
                          shown = py_format world (PyList (take 150 items))
                      | _ => False
                      end
                   /\ line
                      = ("- " +:+ role_ +:+ ": " +:+ shown +:+ "...")%string)
              mems lines
         /\ context
            = match mems with
              | [] => ""%string
              | _ :: _ =>
                  ("相关历史对话:" +:+ newline
                     +:+ String.concat newline lines +:+ newline
                     +:+ newline)%string
              end
     else context = ""%string)
    /\ _stream_response (wire world)
         (post world (history (core self) ++ [asked])) = (chunks, Finished)
    /\ reply = String.concat "" chunks
    /\ core self'
       = (if String.eqb reply ""
          then set_history (history (core self) ++ [asked]) (core self)
          else _trim_history
                 (set_history (history (core self) ++ [asked; answered])
                    (core self)))
    /\ context_file self'
       = (if String.eqb reply "" || negb (writable world)
          then context_file self
          else Holds (history (core self')))
    /\ enable_vector_memory self' = enable_vector_memory self
    /\ if enable_vector_memory self then
         exists c question answer,
           client (vector_memory self) !! collection (vector_memory self)
           = Some c
           /\ vector_memory self'
              = grown (vector_memory self) c [question; answer]
           /\ rec_id question = first.1
           /\ rec_document question = PyStr prompt
           /\ rec_metadata question !! "role" = Some "user"%string
           /\ rec_metadata question !! "timestamp" = Some first.2
           /\ rec_metadata question !! "type" = Some "query"%string
           /\ rec_id answer = second.1
           /\ rec_document answer = PyStr reply
           /\ rec_metadata answer !! "role" = Some "assistant"%string
           /\ rec_metadata answer !! "timestamp" = Some second.2
           /\ rec_metadata answer !! "type" = Some "response"%string
       else vector_memory self' = vector_memory self.
Proof.
  exact (chat_return_inv first second prompt self reply self').
Qed.

(** a tail of at least two elements of a list ends as the list ends *)
Lemma suffix_keeps_last_two {A} (dropped kept l : list A) (a b : A) :
  l ++ [a; b] = dropped ++ kept ->
  (2 <= length kept)%nat ->
  exists older, kept = older ++ [a; b].
Proof.
  intros Heq Hlen.
  assert (Hd : (length dropped <= length l)%nat).
  { apply (f_equal length) in Heq. rewrite !length_app in Heq.
    cbn [length] in Heq. lia. }
  exists (drop (length dropped) l).
  apply (f_equal (drop (length dropped))) in Heq.
  rewrite drop_app_length in Heq. rewrite <- Heq.
  by rewrite drop_app_le.
Qed.

(** X29. After a turn with an answer the history is bounded and ends with
    the exchange.  With [max_history] at least 1, a turn that returns a
    reply that is not empty leaves at most [2 * max_history] messages, the
    last two being the question and the reply; when the context file can
    be written it holds exactly that history. *)
Theorem chat_history_bounded (first second : string * string)
    (prompt : string) self (reply : string) self' :
  1 <= max_history (core self) ->
  reply <> ""%string ->
  chat world first second prompt self = (inr reply, self') ->
  Z.of_nat (length (history (core self'))) <= 2 * max_history (core self)
  /\ (exists context older,
        history (core self')
        = older
            ++ [{| Assistant.role := "user";
                   Assistant.content :=
                     context +:+ question_header +:+ prompt |};
                {| Assistant.role := "assistant";
                   Assistant.content := reply |}])
  /\ (writable world = true ->
      context_file self' = Holds (history (core self'))).
Proof.
  intros Hmh Hreply H.
  apply chat_return_inv in H
    as (context & chunks & _ & _ & _ & Hcore & Hfile & _).
  cbv zeta in Hcore.
  destruct (String.eqb_spec reply "") as [|_]; [done|].
  cbn [orb] in Hfile.
  set (before := set_history _ (core self)) in Hcore.
  destruct (AssistantFacts.trim_history_positive before Hmh)
    as (_ & dropped & Hsplit & Hlen & Hfull).
  rewrite <- Hcore in Hsplit, Hlen, Hfull.
  change (max_history before) with (max_history (core self)) in Hlen, Hfull.
  split; [exact Hlen|]. split.
  - exists context.
    apply (suffix_keeps_last_two dropped _ (history (core self)));
      [exact Hsplit|].
    destruct dropped as [|d dropped].
    + cbn [app] in Hsplit. rewrite <- Hsplit. unfold before.
      cbn [history set_history]. rewrite length_app. cbn [length]. lia.
    + assert (Hn : Z.of_nat (length (history (core self')))
                   = 2 * max_history (core self)) by by apply Hfull.
      lia.
  - intros Hw. by rewrite Hfile, Hw.
Qed.

(** X21. A turn that raises saves nothing and records no answer.
    Whatever [chat] raises, the context file is as before and no
    assistant message was appended.  A failure while the context is
    written out changes nothing; an exception that escapes the stream
    leaves the question in the history and the ledger as it was; a
    failure of the ledger leaves everything as it was (retrieval), or the
    question in the history with the ledger unchanged or holding the
    prompt without its reply. *)
Theorem chat_failure_saves_nothing (first second : string * string)
    (prompt : string) self (e : error) self' :
  chat world first second prompt self = (inl e, self') ->
  context_file self' = context_file self
  /\ enable_vector_memory self' = enable_vector_memory self
  /\ match e with
     | KeyError _ | NotSliceable => self' = self
     | Streaming _ =>
         vector_memory self' = vector_memory self
         /\ exists asked,
              Assistant.role asked = "user"%string
              /\ core self'
                 = set_history (history (core self) ++ [asked]) (core self)
     | Ledger _ =>
         self' = self
         \/ ((exists asked,
                Assistant.role asked = "user"%string
                /\ core self'
                   = set_history (history (core self) ++ [asked])
                       (core self))
             /\ (vector_memory self' = vector_memory self
                 \/ exists c question,
                      client (vector_memory self)
                        !! collection (vector_memory self) = Some c
                      /\ vector_memory self'
                         = grown (vector_memory self) c [question]
                      /\ rec_document question = PyStr prompt))
     end.
Proof.
  unfold chat.
  destruct (if enable_vector_memory self && _ then _ else _)
    as [searched vm0] eqn:Hs.
  apply retrieval_inv in Hs as [-> _].
  rewrite set_vector_memory_same.
  destruct searched as [mems|e0].
  2:{ intros [= <- <-]. auto. }
  destruct (render_context world mems) as [e0|context] eqn:Hctx.
  { intros [= <- <-]. repeat (split; [done|]).
    by apply render_context_error in Hctx as [->| ->]. }
  destruct (_stream_response _ _) as [chunks ended] eqn:Hstream.
  destruct ended as [|e0].
  2:{ intros [= <- <-]. repeat (split; [done|]).
      eexists; split; [|reflexivity]; reflexivity. }
  cbn [append_message set_core enable_vector_memory vector_memory
         core context_file].
  destruct (enable_vector_memory self) eqn:Hen.
  - destruct (store_memory _ _ _ "user" _ _ _) as [[id1|e1] vm1] eqn:H1.
    + destruct (store_memory _ _ _ "assistant" _ _ _)
        as [[id2|e2] vm2] eqn:H2; [done|].
      intros [= <- <-].
      apply turn_store_inv in H1
        as [(e & ? & _)|(c & q & _ & Hc & -> & _ & Hq & _)]; [done|].
      apply turn_store_inv in H2 as [(e & _ & ->)|(c1 & a & ? & _)]; [|done].
      repeat (split; [done|]). right.
      split; [eexists; split; [|reflexivity]; reflexivity|].
      right. exists c, q. done.
    + intros [= <- <-].
      apply turn_store_inv in H1 as [(e & _ & ->)|(c & q & ? & _)]; [|done].
      repeat (split; [done|]). right.
      split; [eexists; split; [|reflexivity]; reflexivity|]. by left.
  - by destruct (String.eqb _ _).
Qed.

(** X22. Without embeddings every turn with vector memory raises.  When
    the embedding of the prompt cannot be had, a prompt of more than ten
    characters fails at retrieval, before anything is changed or asked; a
    shorter one skips retrieval, is appended to the history and sent, and
    the turn then fails when the prompt is stored: the reply that was
    streamed is neither kept in the history nor saved. *)
Theorem chat_without_embeddings (first second : string * string)
    (prompt : string) self (e : exn) :
  enable_vector_memory self = true ->
  (_get_embedding (ledger_env world) prompt (vector_memory self)).1
  = Raise e ->
  let asked := append_message "user" (question_header +:+ prompt) self in
  chat world first second prompt self
  = if str_len world prompt >? 10 then (inl (Ledger e), self)
    else match (_stream_response (wire world)
                  (post world (history (core asked)))).2 with
         | Finished => (inl (Ledger e), asked)
         | Escaped x => (inl (Streaming x), asked)
         end.
Proof.
  intros Hen He. cbv zeta. unfold chat. rewrite Hen. cbn [andb].
  destruct (str_len world prompt >? 10).
  - assert (Hs : search_relevant_memories (ledger_env world) prompt 3 None
                   None (vector_memory self)
                 = (Raise e, vector_memory self)).
    { unfold search_relevant_memories. apply MemoryFacts.bind_raise.
      by rewrite MemoryFacts.get_embedding_run, He. }
    rewrite Hs. by rewrite set_vector_memory_same.
  - rewrite set_vector_memory_same. cbn [render_context].
    change ("" +:+ question_header +:+ prompt)%string
      with (question_header +:+ prompt)%string.
    destruct (_stream_response _ _) as [chunks [|x]]; [|done].
    cbn [snd append_message set_core enable_vector_memory vector_memory
           core context_file].
    rewrite Hen. unfold store_memory at 1.
    rewrite (MemoryFacts.store_embedding_failure (ledger_env world) prompt
               first.1 _ (vector_memory self) e He).
    done.
Qed.

(** X23. A failed request becomes the assistant's reply.  Without vector
    memory, when the request fails before any line is read, the text the
    generator yields for the failure is returned as the reply, appended
    to the history as the assistant's message, trimmed with it and
    saved. *)
Theorem chat_records_api_failure (first second : string * string)
    (prompt : string) self (msg : string) :
  enable_vector_memory self = false ->
  let asked := append_message "user" (question_header +:+ prompt) self in
  post world (history (core asked)) = ([], Some msg) ->
  let failure :=
    (newline +:+ "Error communicating with API: " +:+ msg)%string in
  chat world first second prompt self
  = (inr failure,
     trim_and_save world (append_message "assistant" failure asked)).
Proof.
  intros Hen asked Hpost failure. unfold chat. rewrite Hen. cbn [andb].
  rewrite set_vector_memory_same. cbn [render_context].
  change ("" +:+ question_header +:+ prompt)%string
    with (question_header +:+ prompt)%string.
  fold asked. rewrite Hpost. cbn [_stream_response consume fst snd].
  replace (enable_vector_memory asked) with false by done.
  cbn [String.concat]. fold failure. done.
Qed.

(** X24. Clearing forgets the ledger and the history in memory, not the
    saved conversation.  With vector memory, [clear_all_memories] leaves
    the collection empty and the history empty, and does not touch the
    context file: loading it again brings back the conversation that was
    saved before. *)
Theorem clear_all_memories_keeps_saved_context self (c : Collection F) :
  enable_vector_memory self = true ->
  client (vector_memory self) !! collection (vector_memory self) = Some c ->
  exists self',
    clear_all_memories self = (inr tt, self')
    /\ history (core self') = []
    /\ client (vector_memory self') !! collection (vector_memory self')
       = Some (empty_collection cosine)
    /\ context_file self' = context_file self
    /\ forall saved,
         context_file self = Holds saved ->
         _load_context (context_file self') (core self')
         = _trim_history (set_history saved (core self)).
Proof.
  intros Hen Hc. unfold clear_all_memories. rewrite Hen.
  rewrite (MemoryFacts.clear_run (vector_memory self) c Hc).
  eexists. split; [reflexivity|].
  cbn [set_core set_vector_memory core vector_memory context_file
         set_history history client collection].
  split; [done|]. split; [apply lookup_insert_eq|]. split; [done|].
  intros saved ->. by rewrite PersistFacts.load_context_slice.
Qed.

(** the one [store_code_memory] of [_load_code_file] *)
Lemma load_store_inv (memory_id now text file_path language : string)
    vm r vm' :
  store_code_memory (ledger_env world) memory_id now "user" text file_path
    language (Some {[ "type" := "code_load"%string ]}) vm = (r, vm') ->
  (exists e, r = Raise e /\ vm' = vm)
  \/ (exists c rec_,
        r = Ret memory_id
        /\ client vm !! collection vm = Some c
        /\ vm' = grown vm c [rec_]
        /\ rec_id rec_ = memory_id
        /\ rec_document rec_
           = PyStr (text +:+ newline +:+ newline +:+ "# ["
                      +:+ str_upper (ledger_env world) language
                      +:+ "] CODE MEMORY: " +:+ file_path +:+ newline)
        /\ rec_metadata rec_ !! "role" = Some "user"%string
        /\ rec_metadata rec_ !! "timestamp" = Some now
        /\ rec_metadata rec_ !! "type" = Some "code_load"%string
        /\ rec_metadata rec_ !! "file_path" = Some file_path
        /\ rec_metadata rec_ !! "language" = Some language).
Proof.
  intros H. apply MemoryFacts.store_inv in H
    as [(e & -> & ->)|(c & v & -> & Hc & _ & ->)]; [left; eauto|].
  right. eexists c, _. repeat split; done.
Qed.

(** X25. A file that cannot be embedded stays in the history, untrimmed
    and unsaved.  When the file is read, vector memory is on and no
    embedding can be had, [_load_code_file] has appended the message with
    the code to the history and stops at the failure, which it catches: the
    history is neither trimmed nor saved, and the ledger is unchanged. *)
Theorem load_code_file_embedding_failure (memory_id now file_path : string)
    self (code : string) (e : exn) :
  read_file world file_path = Some (Some code) ->
  enable_vector_memory self = true ->
  (forall text,
     (_get_embedding (ledger_env world) text (vector_memory self)).1
     = Raise e) ->
  _load_code_file world memory_id now file_path self
  = append_message "user"
      ("The following is a " +:+ _detect_language world file_path
         +:+ " source code file named `" +:+ basename world file_path
         +:+ "`:" +:+ newline +:+ backticks +:+ newline +:+ code
         +:+ newline +:+ backticks) self.
Proof.
  intros Hread Hen He. unfold _load_code_file. rewrite Hread.
  cbv zeta.
  cbn [append_message set_core enable_vector_memory vector_memory core
         context_file].
  rewrite Hen. unfold store_code_memory.
  rewrite (MemoryFacts.store_embedding_failure (ledger_env world) _
             memory_id _ (vector_memory self) e (He _)).
  done.
Qed.

(** X26. What [_load_code_file] writes in the ledger.  It changes the
    ledger only by adding one record, and only when the file was read and
    vector memory is on: the document is the message followed by the code
    marker, the type is [code_load] (the caller's value, not [code]), the
    language is what [_detect_language] says of the path, and the history
    with the message is then trimmed and saved. *)
Theorem load_code_file_records (memory_id now file_path : string) self :
  let self' := _load_code_file world memory_id now file_path self in
  vector_memory self' = vector_memory self
  \/ exists code c loaded,
       let message :=
         ("The following is a " +:+ _detect_language world file_path
            +:+ " source code file named `" +:+ basename world file_path
            +:+ "`:" +:+ newline +:+ backticks +:+ newline +:+ code
            +:+ newline +:+ backticks)%string in
       read_file world file_path = Some (Some code)
       /\ enable_vector_memory self = true
       /\ client (vector_memory self) !! collection (vector_memory self)
          = Some c
       /\ vector_memory self' = grown (vector_memory self) c [loaded]
       /\ rec_id loaded = memory_id
       /\ rec_document loaded
          = PyStr (message +:+ newline +:+ newline +:+ "# ["
                     +:+ str_upper (ledger_env world)
                           (_detect_language world file_path)
                     +:+ "] CODE MEMORY: " +:+ file_path +:+ newline)
       /\ rec_metadata loaded !! "role" = Some "user"%string
       /\ rec_metadata loaded !! "timestamp" = Some now
       /\ rec_metadata loaded !! "type" = Some "code_load"%string
       /\ rec_metadata loaded !! "file_path" = Some file_path
       /\ rec_metadata loaded !! "language"
          = Some (_detect_language world file_path)
       /\ core self'
          = _trim_history
              (set_history
                 (history (core self)
                    ++ [{| Assistant.role := "user";
                           Assistant.content := message |}])
                 (core self))
       /\ context_file self'
          = _save_context (writable world) (core self') (context_file self).
Proof.
  cbv zeta. unfold _load_code_file.
  destruct (read_file world file_path) as [[code|]|]; [|by left..].
  cbv zeta.
  cbn [append_message set_core enable_vector_memory vector_memory core
         context_file].
  destruct (enable_vector_memory self) eqn:Hen; [|by left].
  destruct (store_code_memory _ _ _ _ _ _ _ _ _) as [r vm'] eqn:Hs.
  apply load_store_inv in Hs
    as [(e & -> & ->)|(c & loaded & -> & Hc & -> & Hl)]; [by left|].
  right. exists code, c, loaded.
  split; [done|]. split; [done|]. split; [done|].
  split; [done|]. tauto.
Qed.

End Turns.
Lemma chat_reply_recorded_witness :
  let world := Talk.world Sample.env Talk.answer_lines None in
  let turn :=
    chat world ("q1", "2024-01-03T08:00:00") ("a1", "2024-01-03T08:00:02")
      "list the files here" (Talk.session true) in
  turn.1 = inr "Hello"%string
  /\ history (core turn.2)
     = Sample.one_message
         ++ [{| Assistant.role := "user";
                Assistant.content :=
                  "相关历史对话:" +:+ newline
                    +:+ "- assistant: second..." +:+ newline
                    +:+ "- user: first..." +:+ newline
                    +:+ "- user: third..." +:+ newline +:+ newline
                    +:+ "当前问题: list the files here" |};
             {| Assistant.role := "assistant";
                Assistant.content := "Hello" |}]
  /\ exists question answer,
       vector_memory turn.2
       = Sample.ledger (Sample.three_memories ++ [question; answer])
       /\ rec_document question = PyStr "list the files here"
       /\ rec_metadata question !! "type" = Some "query"%string
       /\ rec_document answer = PyStr "Hello"
       /\ rec_metadata answer !! "type" = Some "response"%string.
Proof.
  cbv zeta.
  set (world := Talk.world Sample.env Talk.answer_lines None).
  set (turn := chat world _ _ _ _).
  assert (H : turn = (inr "Hello"%string, turn.2))
    by (vm_compute; reflexivity).
  split; [rewrite H; reflexivity|].
  split; [vm_compute; reflexivity|].
  destruct (chat_reply_recorded world _ _ _ _ _ _ H)
    as (_ & _ & _ & _ & _ & _ & _ & _ & c & question & answer & Hc & Hvm
          & _ & Hq & _ & _ & Hqt & _ & Ha & _ & _ & Hat).
  exists question, answer. rewrite Hvm.
  assert (Hc' : c = {| col_metadata := cosine;
                       col_records := Sample.three_memories |}).
  { vm_compute in Hc. injection Hc as <-. reflexivity. }
  rewrite Hc'. split; [|tauto]. unfold grown, Sample.ledger.
  cbn [Talk.session vector_memory client collection col_metadata
         col_records Sample.ledger].
  rewrite insert_singleton_eq. reflexivity.
Defined.

Lemma chat_failure_saves_nothing_witness :
  let world :=
    Talk.world Sample.env ["data: 42"%string; Talk.content_line "lost"]
      None in
  let turn :=
    chat world ("q1", "2024-01-03T08:00:00") ("a1", "2024-01-03T08:00:02")
      "hi" (Talk.session false) in
  turn.1 = inl (Streaming EscTypeError)
  /\ context_file turn.2 = NoFile
  /\ vector_memory turn.2 = Sample.ledger Sample.three_memories.
Proof.
  cbv zeta.
  set (world := Talk.world Sample.env _ None).
  set (turn := chat world _ _ _ _).
  assert (H : turn = (inl (Streaming EscTypeError), turn.2))
    by (vm_compute; reflexivity).
  split; [rewrite H; reflexivity|].
  destruct (chat_failure_saves_nothing world _ _ _ _ _ _ H)
    as (Hfile & _ & Hvm & _).
  split; [exact Hfile|exact Hvm].
Defined.

Lemma chat_without_embeddings_witness :
  let world := Talk.world Sample.env_no_key Talk.answer_lines None in
  Z.of_nat (String.length "hi") <= 10
  /\ exists e,
       chat world ("q1", "2024-01-03T08:00:00")
         ("a1", "2024-01-03T08:00:02") "hi" (Talk.session true)
       = (inl (Ledger e),
          append_message "user" (question_header +:+ "hi")
            (Talk.session true)).
Proof.
  cbv zeta. split; [cbn; lia|].
  set (world := Talk.world Sample.env_no_key Talk.answer_lines None).
  set (e := match (_get_embedding (ledger_env world) "hi"
                     (vector_memory (Talk.session true))).1 with
            | Raise e => e
            | Ret _ => Exception ""
            end).
  exists e.
  rewrite (chat_without_embeddings world ("q1", "2024-01-03T08:00:00")
             ("a1", "2024-01-03T08:00:02") "hi" (Talk.session true) e);
    [vm_compute; reflexivity|reflexivity|vm_compute; reflexivity].
Defined.

Lemma chat_records_api_failure_witness :
  let world := Talk.world Sample.env [] (Some "401 Unauthorized"%string) in
  let turn :=
    chat world ("q1", "2024-01-03T08:00:00") ("a1", "2024-01-03T08:00:02")
      "hi" (Talk.session false) in
  turn.1
  = inr (newline +:+ "Error communicating with API: 401 Unauthorized")%string
  /\ last (history (core turn.2))
     = Some {| Assistant.role := "assistant";
               Assistant.content :=
                 newline +:+ "Error communicating with API: 401 Unauthorized"
            |}
  /\ context_file turn.2 = Holds (history (core turn.2)).
Proof.
  cbv zeta.
  rewrite (chat_records_api_failure
             (Talk.world Sample.env [] (Some "401 Unauthorized"%string))
             ("q1", "2024-01-03T08:00:00") ("a1", "2024-01-03T08:00:02")
             "hi" (Talk.session false) "401 Unauthorized");
    [|reflexivity|reflexivity].
  by vm_compute.
Defined.

Lemma clear_all_memories_keeps_saved_context_witness :
  let self :=
    set_context_file (Holds Sample.one_message) (Talk.session true) in
  exists self',
    clear_all_memories self = (inr tt, self')
    /\ history (core self') = []
    /\ vector_memory self' = Sample.ledger []
    /\ history (_load_context (context_file self') (core self'))
       = Sample.one_message.
Proof.
  cbv zeta.
  destruct (clear_all_memories_keeps_saved_context
              (set_context_file (Holds Sample.one_message)
                 (Talk.session true))
              {| col_metadata := cosine;
                 col_records := Sample.three_memories |})
    as (self' & Hrun & Hh & _ & _ & Hload); [reflexivity|reflexivity|].
  exists self'. split; [exact Hrun|]. split; [exact Hh|].
  split.
  - revert Hrun. vm_compute. by intros [= <-].
  - by rewrite (Hload Sample.one_message eq_refl).
Defined.

Lemma load_code_file_embedding_failure_witness :
  let world := Talk.world Sample.env_no_key [] None in
  let self' :=
    _load_code_file world "c1" "2024-01-03T09:00:00" Talk.hello_path
      (Talk.session true) in
  length (history (core self')) = 2%nat
  /\ context_file self' = NoFile
  /\ vector_memory self' = Sample.ledger Sample.three_memories.
Proof.
  cbv zeta.
  set (world := Talk.world Sample.env_no_key [] None).
  set (e := match (_get_embedding (ledger_env world) ""
                     (vector_memory (Talk.session true))).1 with
            | Raise e => e
            | Ret _ => Exception ""
            end).
  rewrite (load_code_file_embedding_failure world "c1"
             "2024-01-03T09:00:00" Talk.hello_path (Talk.session true)
             Talk.hello_code e); [done|reflexivity|reflexivity|].
  intros text. reflexivity.
Defined.

Lemma chat_history_bounded_witness :
  let world := Talk.world Sample.env Talk.answer_lines None in
  let self :=
    set_core
      {| history := Sample.one_message ++ Sample.one_message
                      ++ Sample.one_message;
         max_history := 1 |} (Talk.session false) in
  let turn :=
    chat world ("q1", "2024-01-03T08:00:00") ("a1", "2024-01-03T08:00:02")
      "hi" self in
  turn.1 = inr "Hello"%string
  /\ Z.of_nat (length (history (core turn.2))) <= 2
  /\ context_file turn.2 = Holds (history (core turn.2)).
Proof.
  cbv zeta.
  set (world := Talk.world Sample.env Talk.answer_lines None).
  set (self := set_core _ (Talk.session false)).
  set (turn := chat world _ _ _ _).
  assert (H : turn = (inr "Hello"%string, turn.2)) by (vm_compute; reflexivity).
  split; [rewrite H; reflexivity|].
  assert (Hmh : 1 <= max_history (core self)) by (cbn; lia).
  assert (Hreply : "Hello"%string <> ""%string) by discriminate.
  destruct (chat_history_bounded world ("q1", "2024-01-03T08:00:00")
              ("a1", "2024-01-03T08:00:02") "hi" self "Hello" turn.2 Hmh
              Hreply H)
    as (Hlen & _ & Hfile).
  split; [exact Hlen|]. apply Hfile. reflexivity.
Defined.

End ChatFacts.

(* ===================================================================== *)
(** ** The language of a file *)
(* ===================================================================== *)

Module DetectFacts.
Import Chat.

Lemma rfind_snoc (c x : ascii) (l : list ascii) :
  rfind c (l ++ [x])
  = if decide (x = c) then Z.of_nat (length l) else rfind c l.
Proof.
  unfold rfind. rewrite reverse_snoc, length_app. cbn [list_find length].
  destruct (decide (x = c)) as [->|Hne].
  - lia.
  - destruct (list_find _ (reverse l)) as [[i y]|]; cbn; [lia|done].
Qed.

Lemma rfind_nil (c : ascii) : rfind c [] = -1.
Proof. done. Qed.

Lemma rfind_bounds (c : ascii) (l : list ascii) :
  -1 <= rfind c l < Z.of_nat (length l).
Proof.
  induction l as [|x l IH] using rev_ind; [rewrite rfind_nil; simpl; lia|].
  rewrite rfind_snoc, length_app. cbn [length].
  destruct (decide (x = c)); lia.
Qed.

Lemma rfind_app_notin (c : ascii) (l1 l2 : list ascii) :
  c ∉ l2 -> rfind c (l1 ++ l2) = rfind c l1.
Proof.
  induction l2 as [|x l2 IH] using rev_ind; intros Hnot.
  - by rewrite app_nil_r.
  - rewrite app_assoc, rfind_snoc.
    apply not_elem_of_app in Hnot as [Hl2 Hx%not_elem_of_cons].
    destruct (decide (x = c)) as [->|_]; [by destruct Hx|].
    by apply IH.
Qed.

Lemma rfind_last (c : ascii) (l1 l2 : list ascii) :
  c ∉ l2 -> rfind c (l1 ++ c :: l2) = Z.of_nat (length l1).
Proof.
  intros Hnot. rewrite (app_assoc l1 [c] l2 : l1 ++ c :: l2 = _).
  rewrite rfind_app_notin by done. rewrite rfind_snoc.
  by destruct (decide (c = c)).
Qed.

Lemma existsb_dots (dots : list ascii) :
  Forall (fun x => x = "."%char) dots ->
  existsb (fun x => negb (Ascii.eqb x ".")) dots = false.
Proof. induction 1 as [|x l -> _ IH]; [done|]. cbn. exact IH. Qed.

Lemma existsb_not_dot (x : ascii) (l : list ascii) :
  x ∈ l -> x <> "."%char ->
  existsb (fun x => negb (Ascii.eqb x ".")) l = true.
Proof.
  intros Hin Hne. apply existsb_exists. exists x.
  split; [by apply list_elem_of_In|].
  by destruct (Ascii.eqb_spec x ".").
Qed.

Section Detect.
Context {F : Type} (world : World F).

Lemma splitext_no_extension (dir dots name : list ascii) :
  dir = [] \/ (exists d, dir = d ++ ["/"%char]) ->
  Forall (fun x => x = "."%char) dots ->
  "."%char ∉ name ->
  "/"%char ∉ name ->
  (splitext (String.string_of_list_ascii (dir ++ dots ++ name))).2 = ""%string.
Proof.
  intros Hdir Hdots Hdot Hsep. unfold splitext.
  rewrite String.list_ascii_of_string_of_list_ascii.
  destruct (Z.gtb_spec (rfind "." (dir ++ dots ++ name))
              (rfind "/" (dir ++ dots ++ name))) as [Hgt|_]; [|done].
  assert (Hs : rfind "/" (dir ++ dots ++ name) = Z.of_nat (length dir) - 1).
  { rewrite rfind_app_notin.
    - destruct Hdir as [->|[d ->]]; [done|].
      rewrite rfind_snoc, length_app.
      destruct (decide _); [cbn [length]; lia|done].
    - intros [Hin|Hin]%elem_of_app; [|done].
      by apply (proj1 (Forall_forall _ _) Hdots) in Hin. }
  rewrite Hs in *.
  destruct dots as [|x dots _] using rev_ind.
  { exfalso. cbn [app] in Hgt. rewrite rfind_app_notin in Hgt by done.
    destruct Hdir as [->|[d ->]]; [done|].
    rewrite rfind_snoc, length_app in Hgt.
    destruct (decide ("/"%char = "."%char)) as [|_]; [done|].
    pose proof (rfind_bounds "." d). cbn [length] in Hgt. lia. }
  apply Forall_app in Hdots as [Hdots Hx]. apply Forall_singleton in Hx as ->.
  assert (Hd : rfind "." (dir ++ (dots ++ ["."%char]) ++ name)
               = Z.of_nat (length dir + length dots)).
  { rewrite <- (app_assoc dots), app_assoc. cbn [app].
    rewrite rfind_last by done. by rewrite length_app. }
  rewrite Hd.
  replace (Z.to_nat (Z.of_nat (length dir + length dots)
                     - (Z.of_nat (length dir) - 1 + 1)))
    with (length dots) by lia.
  replace (Z.to_nat (Z.of_nat (length dir) - 1 + 1)) with (length dir) by lia.
  rewrite drop_app_length, <- app_assoc, take_app_length.
  by rewrite existsb_dots.
Qed.

(** X27. A name without an extension has no language.  When the last
    component of the path is a run of dots (possibly none) followed by
    characters with no dot among them, as in [Makefile], [.bashrc] or a
    path that ends with a slash, [_detect_language] answers [Unknown],
    whatever dots the directories before it have. *)
Theorem detect_language_no_extension (dir dots name : list ascii) :
  str_lower world "" = ""%string ->
  dir = [] \/ (exists d, dir = d ++ ["/"%char]) ->
  Forall (fun x => x = "."%char) dots ->
  "."%char ∉ name ->
  "/"%char ∉ name ->
  _detect_language world (String.string_of_list_ascii (dir ++ dots ++ name))
  = "Unknown"%string.
Proof.
  intros Hlower Hdir Hdots Hdot Hsep. unfold _detect_language.
  rewrite (splitext_no_extension dir dots name) by done.
  by rewrite Hlower.
Qed.

(** X28. The language is looked up under the text from the last dot of the
    last component, in lower case.  When the path ends with a stem that
    has a character other than a dot, a dot, and an extension without dot
    or slash, [_detect_language] answers what [ext_map] has for the
    lower-cased dot and extension, and [Unknown] if it has nothing. *)
Theorem detect_language_extension (dir stem ext : list ascii) (x : ascii) :
  "/"%char ∉ stem ->
  x ∈ stem -> x <> "."%char ->
  "/"%char ∉ ext ->
  "."%char ∉ ext ->
  _detect_language world
    (String.string_of_list_ascii (dir ++ stem ++ "."%char :: ext))
  = default "Unknown"%string
      (assoc (str_lower world (String.string_of_list_ascii ("."%char :: ext)))
         ext_map).
Proof.
  intros Hstem Hx Hxdot Hsep Hdot. unfold _detect_language, splitext.
  rewrite String.list_ascii_of_string_of_list_ascii.
  assert (Hs : rfind "/" (dir ++ stem ++ "."%char :: ext) = rfind "/" dir).
  { apply rfind_app_notin. rewrite not_elem_of_app, not_elem_of_cons. done. }
  assert (Hd : rfind "." (dir ++ stem ++ "."%char :: ext)
               = Z.of_nat (length dir + length stem)).
  { rewrite app_assoc, rfind_last by done. by rewrite length_app. }
  rewrite Hs, Hd. pose proof (rfind_bounds "/" dir) as Hb.
  destruct (Z.gtb_spec (Z.of_nat (length dir + length stem))
              (rfind "/" dir)) as [_|Hle].
  2:{ exfalso. apply list_elem_of_lookup in Hx as [i Hi].
      apply lookup_lt_Some in Hi. lia. }
  set (k := Z.to_nat (rfind "/" dir + 1)).
  assert (Hk : (k <= length dir)%nat) by lia.
  replace (Z.to_nat (Z.of_nat (length dir + length stem)
                     - (rfind "/" dir + 1)))
    with (length (drop k dir ++ stem))
    by (rewrite length_app, length_drop; lia).
  rewrite drop_app_le by done. rewrite (app_assoc (drop k dir)).
  rewrite take_app_length.
  rewrite (existsb_not_dot x)
    by (try done; apply elem_of_app; by right).
  cbn [snd]. rewrite Nat2Z.id, (app_assoc dir), <- length_app, drop_app_length.
  done.
Qed.

End Detect.
Ltac absent :=
  cbn; repeat (apply not_elem_of_cons; split; [discriminate|]);
  apply not_elem_of_nil.

Lemma detect_language_no_extension_witness :
  _detect_language (Talk.world Sample.env [] None) "/etc.d/.bashrc"
  = "Unknown"%string.
Proof.
  apply (detect_language_no_extension (Talk.world Sample.env [] None)
           (String.list_ascii_of_string "/etc.d/")
           (String.list_ascii_of_string ".")
           (String.list_ascii_of_string "bashrc")).
  - reflexivity.
  - right. exists (String.list_ascii_of_string "/etc.d"). reflexivity.
  - repeat constructor.
  - absent.
  - absent.
Defined.

Lemma detect_language_extension_witness :
  _detect_language (Talk.world Sample.env [] None) Talk.hello_path
  = "Python"%string.
Proof.
  apply (detect_language_extension (Talk.world Sample.env [] None)
           (String.list_ascii_of_string "/home/u/")
           (String.list_ascii_of_string "Hello")
           (String.list_ascii_of_string "PY") "H"%char).
  - absent.
  - cbn. left.
  - discriminate.
  - absent.
  - absent.
Defined.

End DetectFacts.
